(** * Simulador de isekai: shallow embedding of [isekai_simulation.py]

    The development follows the Python module top to bottom: the string
    helpers the module relies on, the insertion-ordered dictionary that
    holds the attributes, the [Escolha] / [Personagem] / [Evento] classes,
    the console interaction ([input], [print], [random.randint]) threaded
    through a small state-and-exception monad, and finally the static
    catalogues.  Python [int] is unbounded and is modelled by [Z]; Python
    [str] is modelled by [string] holding the UTF-8 encoding of the text. *)

From Stdlib Require Import NArith ZArith List String Ascii Bool Lia Permutation.
From Stdlib Require Import DecimalString.
Import ListNotations.

Local Open Scope string_scope.
Local Open Scope Z_scope.

(** ** Unicode character data

    [str.strip], [str.lower], [str.capitalize], [int] and the regular
    expressions of [textwrap] consult the Unicode character database.  The
    tables are those of Unicode 14.0.0, the version that CPython 3.11
    carries; a code point is a number of [N], and every table is sorted. *)

Module Unicode.

Local Open Scope N_scope.

(** [str.isspace]: the code points of white space. *)
Definition espacos : list (N * N) :=
 [(0x9, 0xD); (0x1C, 0x20); (0x85, 0x85); (0xA0, 0xA0); (0x1680, 0x1680); (0x2000, 0x200A);
   (0x2028, 0x2029); (0x202F, 0x202F); (0x205F, 0x205F); (0x3000, 0x3000)].

(** The decimal digits: each entry is the digit zero of a run of ten. *)
Definition decimais : list N :=
 [0x30; 0x660; 0x6F0; 0x7C0; 0x966; 0x9E6; 0xA66; 0xAE6; 0xB66; 0xBE6; 0xC66; 0xCE6; 0xD66;
   0xDE6; 0xE50; 0xED0; 0xF20; 0x1040; 0x1090; 0x17E0; 0x1810; 0x1946; 0x19D0; 0x1A80;
   0x1A90; 0x1B50; 0x1BB0; 0x1C40; 0x1C50; 0xA620; 0xA8D0; 0xA900; 0xA9D0; 0xA9F0; 0xAA50;
   0xABF0; 0xFF10; 0x104A0; 0x10D30; 0x11066; 0x110F0; 0x11136; 0x111D0; 0x112F0; 0x11450;
   0x114D0; 0x11650; 0x116C0; 0x11730; 0x118E0; 0x11950; 0x11C50; 0x11D50; 0x11DA0;
   0x16A60; 0x16AC0; 0x16B50; 0x1D7CE; 0x1D7D8; 0x1D7E2; 0x1D7EC; 0x1D7F6; 0x1E140;
   0x1E2F0; 0x1E950; 0x1FBF0].

(** [str.isalnum]: letters and the characters with a numeric value. *)
Definition alfanumericos : list (N * N) :=
 [(0x30, 0x39); (0x41, 0x5A); (0x61, 0x7A); (0xAA, 0xAA); (0xB2, 0xB3); (0xB5, 0xB5);
   (0xB9, 0xBA); (0xBC, 0xBE); (0xC0, 0xD6); (0xD8, 0xF6); (0xF8, 0x2C1); (0x2C6, 0x2D1);
   (0x2E0, 0x2E4); (0x2EC, 0x2EC); (0x2EE, 0x2EE); (0x370, 0x374); (0x376, 0x377);
   (0x37A, 0x37D); (0x37F, 0x37F); (0x386, 0x386); (0x388, 0x38A); (0x38C, 0x38C);
   (0x38E, 0x3A1); (0x3A3, 0x3F5); (0x3F7, 0x481); (0x48A, 0x52F); (0x531, 0x556);
   (0x559, 0x559); (0x560, 0x588); (0x5D0, 0x5EA); (0x5EF, 0x5F2); (0x620, 0x64A);
   (0x660, 0x669); (0x66E, 0x66F); (0x671, 0x6D3); (0x6D5, 0x6D5); (0x6E5, 0x6E6);
   (0x6EE, 0x6FC); (0x6FF, 0x6FF); (0x710, 0x710); (0x712, 0x72F); (0x74D, 0x7A5);
   (0x7B1, 0x7B1); (0x7C0, 0x7EA); (0x7F4, 0x7F5); (0x7FA, 0x7FA); (0x800, 0x815);
   (0x81A, 0x81A); (0x824, 0x824); (0x828, 0x828); (0x840, 0x858); (0x860, 0x86A);
   (0x870, 0x887); (0x889, 0x88E); (0x8A0, 0x8C9); (0x904, 0x939); (0x93D, 0x93D);
   (0x950, 0x950); (0x958, 0x961); (0x966, 0x96F); (0x971, 0x980); (0x985, 0x98C);
   (0x98F, 0x990); (0x993, 0x9A8); (0x9AA, 0x9B0); (0x9B2, 0x9B2); (0x9B6, 0x9B9);
   (0x9BD, 0x9BD); (0x9CE, 0x9CE); (0x9DC, 0x9DD); (0x9DF, 0x9E1); (0x9E6, 0x9F1);
   (0x9F4, 0x9F9); (0x9FC, 0x9FC); (0xA05, 0xA0A); (0xA0F, 0xA10); (0xA13, 0xA28);
   (0xA2A, 0xA30); (0xA32, 0xA33); (0xA35, 0xA36); (0xA38, 0xA39); (0xA59, 0xA5C);
   (0xA5E, 0xA5E); (0xA66, 0xA6F); (0xA72, 0xA74); (0xA85, 0xA8D); (0xA8F, 0xA91);
   (0xA93, 0xAA8); (0xAAA, 0xAB0); (0xAB2, 0xAB3); (0xAB5, 0xAB9); (0xABD, 0xABD);
   (0xAD0, 0xAD0); (0xAE0, 0xAE1); (0xAE6, 0xAEF); (0xAF9, 0xAF9); (0xB05, 0xB0C);
   (0xB0F, 0xB10); (0xB13, 0xB28); (0xB2A, 0xB30); (0xB32, 0xB33); (0xB35, 0xB39);
   (0xB3D, 0xB3D); (0xB5C, 0xB5D); (0xB5F, 0xB61); (0xB66, 0xB6F); (0xB71, 0xB77);
   (0xB83, 0xB83); (0xB85, 0xB8A); (0xB8E, 0xB90); (0xB92, 0xB95); (0xB99, 0xB9A);
   (0xB9C, 0xB9C); (0xB9E, 0xB9F); (0xBA3, 0xBA4); (0xBA8, 0xBAA); (0xBAE, 0xBB9);
   (0xBD0, 0xBD0); (0xBE6, 0xBF2); (0xC05, 0xC0C); (0xC0E, 0xC10); (0xC12, 0xC28);
   (0xC2A, 0xC39); (0xC3D, 0xC3D); (0xC58, 0xC5A); (0xC5D, 0xC5D); (0xC60, 0xC61);
   (0xC66, 0xC6F); (0xC78, 0xC7E); (0xC80, 0xC80); (0xC85, 0xC8C); (0xC8E, 0xC90);
   (0xC92, 0xCA8); (0xCAA, 0xCB3); (0xCB5, 0xCB9); (0xCBD, 0xCBD); (0xCDD, 0xCDE);
   (0xCE0, 0xCE1); (0xCE6, 0xCEF); (0xCF1, 0xCF2); (0xD04, 0xD0C); (0xD0E, 0xD10);
   (0xD12, 0xD3A); (0xD3D, 0xD3D); (0xD4E, 0xD4E); (0xD54, 0xD56); (0xD58, 0xD61);
   (0xD66, 0xD78); (0xD7A, 0xD7F); (0xD85, 0xD96); (0xD9A, 0xDB1); (0xDB3, 0xDBB);
   (0xDBD, 0xDBD); (0xDC0, 0xDC6); (0xDE6, 0xDEF); (0xE01, 0xE30); (0xE32, 0xE33);
   (0xE40, 0xE46); (0xE50, 0xE59); (0xE81, 0xE82); (0xE84, 0xE84); (0xE86, 0xE8A);
   (0xE8C, 0xEA3); (0xEA5, 0xEA5); (0xEA7, 0xEB0); (0xEB2, 0xEB3); (0xEBD, 0xEBD);
   (0xEC0, 0xEC4); (0xEC6, 0xEC6); (0xED0, 0xED9); (0xEDC, 0xEDF); (0xF00, 0xF00);
   (0xF20, 0xF33); (0xF40, 0xF47); (0xF49, 0xF6C); (0xF88, 0xF8C); (0x1000, 0x102A);
   (0x103F, 0x1049); (0x1050, 0x1055); (0x105A, 0x105D); (0x1061, 0x1061);
   (0x1065, 0x1066); (0x106E, 0x1070); (0x1075, 0x1081); (0x108E, 0x108E);
   (0x1090, 0x1099); (0x10A0, 0x10C5); (0x10C7, 0x10C7); (0x10CD, 0x10CD);
   (0x10D0, 0x10FA); (0x10FC, 0x1248); (0x124A, 0x124D); (0x1250, 0x1256);
   (0x1258, 0x1258); (0x125A, 0x125D); (0x1260, 0x1288); (0x128A, 0x128D);
   (0x1290, 0x12B0); (0x12B2, 0x12B5); (0x12B8, 0x12BE); (0x12C0, 0x12C0);
   (0x12C2, 0x12C5); (0x12C8, 0x12D6); (0x12D8, 0x1310); (0x1312, 0x1315);
   (0x1318, 0x135A); (0x1369, 0x137C); (0x1380, 0x138F); (0x13A0, 0x13F5);
   (0x13F8, 0x13FD); (0x1401, 0x166C); (0x166F, 0x167F); (0x1681, 0x169A);
   (0x16A0, 0x16EA); (0x16EE, 0x16F8); (0x1700, 0x1711); (0x171F, 0x1731);
   (0x1740, 0x1751); (0x1760, 0x176C); (0x176E, 0x1770); (0x1780, 0x17B3);
   (0x17D7, 0x17D7); (0x17DC, 0x17DC); (0x17E0, 0x17E9); (0x17F0, 0x17F9);
   (0x1810, 0x1819); (0x1820, 0x1878); (0x1880, 0x1884); (0x1887, 0x18A8);
   (0x18AA, 0x18AA); (0x18B0, 0x18F5); (0x1900, 0x191E); (0x1946, 0x196D);
   (0x1970, 0x1974); (0x1980, 0x19AB); (0x19B0, 0x19C9); (0x19D0, 0x19DA);
   (0x1A00, 0x1A16); (0x1A20, 0x1A54); (0x1A80, 0x1A89); (0x1A90, 0x1A99);
   (0x1AA7, 0x1AA7); (0x1B05, 0x1B33); (0x1B45, 0x1B4C); (0x1B50, 0x1B59);
   (0x1B83, 0x1BA0); (0x1BAE, 0x1BE5); (0x1C00, 0x1C23); (0x1C40, 0x1C49);
   (0x1C4D, 0x1C7D); (0x1C80, 0x1C88); (0x1C90, 0x1CBA); (0x1CBD, 0x1CBF);
   (0x1CE9, 0x1CEC); (0x1CEE, 0x1CF3); (0x1CF5, 0x1CF6); (0x1CFA, 0x1CFA);
   (0x1D00, 0x1DBF); (0x1E00, 0x1F15); (0x1F18, 0x1F1D); (0x1F20, 0x1F45);
   (0x1F48, 0x1F4D); (0x1F50, 0x1F57); (0x1F59, 0x1F59); (0x1F5B, 0x1F5B);
   (0x1F5D, 0x1F5D); (0x1F5F, 0x1F7D); (0x1F80, 0x1FB4); (0x1FB6, 0x1FBC);
   (0x1FBE, 0x1FBE); (0x1FC2, 0x1FC4); (0x1FC6, 0x1FCC); (0x1FD0, 0x1FD3);
   (0x1FD6, 0x1FDB); (0x1FE0, 0x1FEC); (0x1FF2, 0x1FF4); (0x1FF6, 0x1FFC);
   (0x2070, 0x2071); (0x2074, 0x2079); (0x207F, 0x2089); (0x2090, 0x209C);
   (0x2102, 0x2102); (0x2107, 0x2107); (0x210A, 0x2113); (0x2115, 0x2115);
   (0x2119, 0x211D); (0x2124, 0x2124); (0x2126, 0x2126); (0x2128, 0x2128);
   (0x212A, 0x212D); (0x212F, 0x2139); (0x213C, 0x213F); (0x2145, 0x2149);
   (0x214E, 0x214E); (0x2150, 0x2189); (0x2460, 0x249B); (0x24EA, 0x24FF);
   (0x2776, 0x2793); (0x2C00, 0x2CE4); (0x2CEB, 0x2CEE); (0x2CF2, 0x2CF3);
   (0x2CFD, 0x2CFD); (0x2D00, 0x2D25); (0x2D27, 0x2D27); (0x2D2D, 0x2D2D);
   (0x2D30, 0x2D67); (0x2D6F, 0x2D6F); (0x2D80, 0x2D96); (0x2DA0, 0x2DA6);
   (0x2DA8, 0x2DAE); (0x2DB0, 0x2DB6); (0x2DB8, 0x2DBE); (0x2DC0, 0x2DC6);
   (0x2DC8, 0x2DCE); (0x2DD0, 0x2DD6); (0x2DD8, 0x2DDE); (0x2E2F, 0x2E2F);
   (0x3005, 0x3007); (0x3021, 0x3029); (0x3031, 0x3035); (0x3038, 0x303C);
   (0x3041, 0x3096); (0x309D, 0x309F); (0x30A1, 0x30FA); (0x30FC, 0x30FF);
   (0x3105, 0x312F); (0x3131, 0x318E); (0x3192, 0x3195); (0x31A0, 0x31BF);
   (0x31F0, 0x31FF); (0x3220, 0x3229); (0x3248, 0x324F); (0x3251, 0x325F);
   (0x3280, 0x3289); (0x32B1, 0x32BF); (0x3400, 0x4DBF); (0x4E00, 0xA48C);
   (0xA4D0, 0xA4FD); (0xA500, 0xA60C); (0xA610, 0xA62B); (0xA640, 0xA66E);
   (0xA67F, 0xA69D); (0xA6A0, 0xA6EF); (0xA717, 0xA71F); (0xA722, 0xA788);
   (0xA78B, 0xA7CA); (0xA7D0, 0xA7D1); (0xA7D3, 0xA7D3); (0xA7D5, 0xA7D9);
   (0xA7F2, 0xA801); (0xA803, 0xA805); (0xA807, 0xA80A); (0xA80C, 0xA822);
   (0xA830, 0xA835); (0xA840, 0xA873); (0xA882, 0xA8B3); (0xA8D0, 0xA8D9);
   (0xA8F2, 0xA8F7); (0xA8FB, 0xA8FB); (0xA8FD, 0xA8FE); (0xA900, 0xA925);
   (0xA930, 0xA946); (0xA960, 0xA97C); (0xA984, 0xA9B2); (0xA9CF, 0xA9D9);
   (0xA9E0, 0xA9E4); (0xA9E6, 0xA9FE); (0xAA00, 0xAA28); (0xAA40, 0xAA42);
   (0xAA44, 0xAA4B); (0xAA50, 0xAA59); (0xAA60, 0xAA76); (0xAA7A, 0xAA7A);
   (0xAA7E, 0xAAAF); (0xAAB1, 0xAAB1); (0xAAB5, 0xAAB6); (0xAAB9, 0xAABD);
   (0xAAC0, 0xAAC0); (0xAAC2, 0xAAC2); (0xAADB, 0xAADD); (0xAAE0, 0xAAEA);
   (0xAAF2, 0xAAF4); (0xAB01, 0xAB06); (0xAB09, 0xAB0E); (0xAB11, 0xAB16);
   (0xAB20, 0xAB26); (0xAB28, 0xAB2E); (0xAB30, 0xAB5A); (0xAB5C, 0xAB69);
   (0xAB70, 0xABE2); (0xABF0, 0xABF9); (0xAC00, 0xD7A3); (0xD7B0, 0xD7C6);
   (0xD7CB, 0xD7FB); (0xF900, 0xFA6D); (0xFA70, 0xFAD9); (0xFB00, 0xFB06);
   (0xFB13, 0xFB17); (0xFB1D, 0xFB1D); (0xFB1F, 0xFB28); (0xFB2A, 0xFB36);
   (0xFB38, 0xFB3C); (0xFB3E, 0xFB3E); (0xFB40, 0xFB41); (0xFB43, 0xFB44);
   (0xFB46, 0xFBB1); (0xFBD3, 0xFD3D); (0xFD50, 0xFD8F); (0xFD92, 0xFDC7);
   (0xFDF0, 0xFDFB); (0xFE70, 0xFE74); (0xFE76, 0xFEFC); (0xFF10, 0xFF19);
   (0xFF21, 0xFF3A); (0xFF41, 0xFF5A); (0xFF66, 0xFFBE); (0xFFC2, 0xFFC7);
   (0xFFCA, 0xFFCF); (0xFFD2, 0xFFD7); (0xFFDA, 0xFFDC); (0x10000, 0x1000B);
   (0x1000D, 0x10026); (0x10028, 0x1003A); (0x1003C, 0x1003D); (0x1003F, 0x1004D);
   (0x10050, 0x1005D); (0x10080, 0x100FA); (0x10107, 0x10133); (0x10140, 0x10178);
   (0x1018A, 0x1018B); (0x10280, 0x1029C); (0x102A0, 0x102D0); (0x102E1, 0x102FB);
   (0x10300, 0x10323); (0x1032D, 0x1034A); (0x10350, 0x10375); (0x10380, 0x1039D);
   (0x103A0, 0x103C3); (0x103C8, 0x103CF); (0x103D1, 0x103D5); (0x10400, 0x1049D);
   (0x104A0, 0x104A9); (0x104B0, 0x104D3); (0x104D8, 0x104FB); (0x10500, 0x10527);
   (0x10530, 0x10563); (0x10570, 0x1057A); (0x1057C, 0x1058A); (0x1058C, 0x10592);
   (0x10594, 0x10595); (0x10597, 0x105A1); (0x105A3, 0x105B1); (0x105B3, 0x105B9);
   (0x105BB, 0x105BC); (0x10600, 0x10736); (0x10740, 0x10755); (0x10760, 0x10767);
   (0x10780, 0x10785); (0x10787, 0x107B0); (0x107B2, 0x107BA); (0x10800, 0x10805);
   (0x10808, 0x10808); (0x1080A, 0x10835); (0x10837, 0x10838); (0x1083C, 0x1083C);
   (0x1083F, 0x10855); (0x10858, 0x10876); (0x10879, 0x1089E); (0x108A7, 0x108AF);
   (0x108E0, 0x108F2); (0x108F4, 0x108F5); (0x108FB, 0x1091B); (0x10920, 0x10939);
   (0x10980, 0x109B7); (0x109BC, 0x109CF); (0x109D2, 0x10A00); (0x10A10, 0x10A13);
   (0x10A15, 0x10A17); (0x10A19, 0x10A35); (0x10A40, 0x10A48); (0x10A60, 0x10A7E);
   (0x10A80, 0x10A9F); (0x10AC0, 0x10AC7); (0x10AC9, 0x10AE4); (0x10AEB, 0x10AEF);
   (0x10B00, 0x10B35); (0x10B40, 0x10B55); (0x10B58, 0x10B72); (0x10B78, 0x10B91);
   (0x10BA9, 0x10BAF); (0x10C00, 0x10C48); (0x10C80, 0x10CB2); (0x10CC0, 0x10CF2);
   (0x10CFA, 0x10D23); (0x10D30, 0x10D39); (0x10E60, 0x10E7E); (0x10E80, 0x10EA9);
   (0x10EB0, 0x10EB1); (0x10F00, 0x10F27); (0x10F30, 0x10F45); (0x10F51, 0x10F54);
   (0x10F70, 0x10F81); (0x10FB0, 0x10FCB); (0x10FE0, 0x10FF6); (0x11003, 0x11037);
   (0x11052, 0x1106F); (0x11071, 0x11072); (0x11075, 0x11075); (0x11083, 0x110AF);
   (0x110D0, 0x110E8); (0x110F0, 0x110F9); (0x11103, 0x11126); (0x11136, 0x1113F);
   (0x11144, 0x11144); (0x11147, 0x11147); (0x11150, 0x11172); (0x11176, 0x11176);
   (0x11183, 0x111B2); (0x111C1, 0x111C4); (0x111D0, 0x111DA); (0x111DC, 0x111DC);
   (0x111E1, 0x111F4); (0x11200, 0x11211); (0x11213, 0x1122B); (0x11280, 0x11286);
   (0x11288, 0x11288); (0x1128A, 0x1128D); (0x1128F, 0x1129D); (0x1129F, 0x112A8);
   (0x112B0, 0x112DE); (0x112F0, 0x112F9); (0x11305, 0x1130C); (0x1130F, 0x11310);
   (0x11313, 0x11328); (0x1132A, 0x11330); (0x11332, 0x11333); (0x11335, 0x11339);
   (0x1133D, 0x1133D); (0x11350, 0x11350); (0x1135D, 0x11361); (0x11400, 0x11434);
   (0x11447, 0x1144A); (0x11450, 0x11459); (0x1145F, 0x11461); (0x11480, 0x114AF);
   (0x114C4, 0x114C5); (0x114C7, 0x114C7); (0x114D0, 0x114D9); (0x11580, 0x115AE);
   (0x115D8, 0x115DB); (0x11600, 0x1162F); (0x11644, 0x11644); (0x11650, 0x11659);
   (0x11680, 0x116AA); (0x116B8, 0x116B8); (0x116C0, 0x116C9); (0x11700, 0x1171A);
   (0x11730, 0x1173B); (0x11740, 0x11746); (0x11800, 0x1182B); (0x118A0, 0x118F2);
   (0x118FF, 0x11906); (0x11909, 0x11909); (0x1190C, 0x11913); (0x11915, 0x11916);
   (0x11918, 0x1192F); (0x1193F, 0x1193F); (0x11941, 0x11941); (0x11950, 0x11959);
   (0x119A0, 0x119A7); (0x119AA, 0x119D0); (0x119E1, 0x119E1); (0x119E3, 0x119E3);
   (0x11A00, 0x11A00); (0x11A0B, 0x11A32); (0x11A3A, 0x11A3A); (0x11A50, 0x11A50);
   (0x11A5C, 0x11A89); (0x11A9D, 0x11A9D); (0x11AB0, 0x11AF8); (0x11C00, 0x11C08);
   (0x11C0A, 0x11C2E); (0x11C40, 0x11C40); (0x11C50, 0x11C6C); (0x11C72, 0x11C8F);
   (0x11D00, 0x11D06); (0x11D08, 0x11D09); (0x11D0B, 0x11D30); (0x11D46, 0x11D46);
   (0x11D50, 0x11D59); (0x11D60, 0x11D65); (0x11D67, 0x11D68); (0x11D6A, 0x11D89);
   (0x11D98, 0x11D98); (0x11DA0, 0x11DA9); (0x11EE0, 0x11EF2); (0x11FB0, 0x11FB0);
   (0x11FC0, 0x11FD4); (0x12000, 0x12399); (0x12400, 0x1246E); (0x12480, 0x12543);
   (0x12F90, 0x12FF0); (0x13000, 0x1342E); (0x14400, 0x14646); (0x16800, 0x16A38);
   (0x16A40, 0x16A5E); (0x16A60, 0x16A69); (0x16A70, 0x16ABE); (0x16AC0, 0x16AC9);
   (0x16AD0, 0x16AED); (0x16B00, 0x16B2F); (0x16B40, 0x16B43); (0x16B50, 0x16B59);
   (0x16B5B, 0x16B61); (0x16B63, 0x16B77); (0x16B7D, 0x16B8F); (0x16E40, 0x16E96);
   (0x16F00, 0x16F4A); (0x16F50, 0x16F50); (0x16F93, 0x16F9F); (0x16FE0, 0x16FE1);
   (0x16FE3, 0x16FE3); (0x17000, 0x187F7); (0x18800, 0x18CD5); (0x18D00, 0x18D08);
   (0x1AFF0, 0x1AFF3); (0x1AFF5, 0x1AFFB); (0x1AFFD, 0x1AFFE); (0x1B000, 0x1B122);
   (0x1B150, 0x1B152); (0x1B164, 0x1B167); (0x1B170, 0x1B2FB); (0x1BC00, 0x1BC6A);
   (0x1BC70, 0x1BC7C); (0x1BC80, 0x1BC88); (0x1BC90, 0x1BC99); (0x1D2E0, 0x1D2F3);
   (0x1D360, 0x1D378); (0x1D400, 0x1D454); (0x1D456, 0x1D49C); (0x1D49E, 0x1D49F);
   (0x1D4A2, 0x1D4A2); (0x1D4A5, 0x1D4A6); (0x1D4A9, 0x1D4AC); (0x1D4AE, 0x1D4B9);
   (0x1D4BB, 0x1D4BB); (0x1D4BD, 0x1D4C3); (0x1D4C5, 0x1D505); (0x1D507, 0x1D50A);
   (0x1D50D, 0x1D514); (0x1D516, 0x1D51C); (0x1D51E, 0x1D539); (0x1D53B, 0x1D53E);
   (0x1D540, 0x1D544); (0x1D546, 0x1D546); (0x1D54A, 0x1D550); (0x1D552, 0x1D6A5);
   (0x1D6A8, 0x1D6C0); (0x1D6C2, 0x1D6DA); (0x1D6DC, 0x1D6FA); (0x1D6FC, 0x1D714);
   (0x1D716, 0x1D734); (0x1D736, 0x1D74E); (0x1D750, 0x1D76E); (0x1D770, 0x1D788);
   (0x1D78A, 0x1D7A8); (0x1D7AA, 0x1D7C2); (0x1D7C4, 0x1D7CB); (0x1D7CE, 0x1D7FF);
   (0x1DF00, 0x1DF1E); (0x1E100, 0x1E12C); (0x1E137, 0x1E13D); (0x1E140, 0x1E149);
   (0x1E14E, 0x1E14E); (0x1E290, 0x1E2AD); (0x1E2C0, 0x1E2EB); (0x1E2F0, 0x1E2F9);
   (0x1E7E0, 0x1E7E6); (0x1E7E8, 0x1E7EB); (0x1E7ED, 0x1E7EE); (0x1E7F0, 0x1E7FE);
   (0x1E800, 0x1E8C4); (0x1E8C7, 0x1E8CF); (0x1E900, 0x1E943); (0x1E94B, 0x1E94B);
   (0x1E950, 0x1E959); (0x1EC71, 0x1ECAB); (0x1ECAD, 0x1ECAF); (0x1ECB1, 0x1ECB4);
   (0x1ED01, 0x1ED2D); (0x1ED2F, 0x1ED3D); (0x1EE00, 0x1EE03); (0x1EE05, 0x1EE1F);
   (0x1EE21, 0x1EE22); (0x1EE24, 0x1EE24); (0x1EE27, 0x1EE27); (0x1EE29, 0x1EE32);
   (0x1EE34, 0x1EE37); (0x1EE39, 0x1EE39); (0x1EE3B, 0x1EE3B); (0x1EE42, 0x1EE42);
   (0x1EE47, 0x1EE47); (0x1EE49, 0x1EE49); (0x1EE4B, 0x1EE4B); (0x1EE4D, 0x1EE4F);
   (0x1EE51, 0x1EE52); (0x1EE54, 0x1EE54); (0x1EE57, 0x1EE57); (0x1EE59, 0x1EE59);
   (0x1EE5B, 0x1EE5B); (0x1EE5D, 0x1EE5D); (0x1EE5F, 0x1EE5F); (0x1EE61, 0x1EE62);
   (0x1EE64, 0x1EE64); (0x1EE67, 0x1EE6A); (0x1EE6C, 0x1EE72); (0x1EE74, 0x1EE77);
   (0x1EE79, 0x1EE7C); (0x1EE7E, 0x1EE7E); (0x1EE80, 0x1EE89); (0x1EE8B, 0x1EE9B);
   (0x1EEA1, 0x1EEA3); (0x1EEA5, 0x1EEA9); (0x1EEAB, 0x1EEBB); (0x1F100, 0x1F10C);
   (0x1FBF0, 0x1FBF9); (0x20000, 0x2A6DF); (0x2A700, 0x2B738); (0x2B740, 0x2B81D);
   (0x2B820, 0x2CEA1); (0x2CEB0, 0x2EBE0); (0x2F800, 0x2FA1D); (0x30000, 0x3134A)].

(** The case-ignorable code points. *)
Definition ignoraveis : list (N * N) :=
 [(0x27, 0x27); (0x2E, 0x2E); (0x3A, 0x3A); (0x5E, 0x5E); (0x60, 0x60); (0xA8, 0xA8);
   (0xAD, 0xAD); (0xAF, 0xAF); (0xB4, 0xB4); (0xB7, 0xB8); (0x2B0, 0x36F); (0x374, 0x375);
   (0x37A, 0x37A); (0x384, 0x385); (0x387, 0x387); (0x483, 0x489); (0x559, 0x559);
   (0x55F, 0x55F); (0x591, 0x5BD); (0x5BF, 0x5BF); (0x5C1, 0x5C2); (0x5C4, 0x5C5);
   (0x5C7, 0x5C7); (0x5F4, 0x5F4); (0x600, 0x605); (0x610, 0x61A); (0x61C, 0x61C);
   (0x640, 0x640); (0x64B, 0x65F); (0x670, 0x670); (0x6D6, 0x6DD); (0x6DF, 0x6E8);
   (0x6EA, 0x6ED); (0x70F, 0x70F); (0x711, 0x711); (0x730, 0x74A); (0x7A6, 0x7B0);
   (0x7EB, 0x7F5); (0x7FA, 0x7FA); (0x7FD, 0x7FD); (0x816, 0x82D); (0x859, 0x85B);
   (0x888, 0x888); (0x890, 0x891); (0x898, 0x89F); (0x8C9, 0x902); (0x93A, 0x93A);
   (0x93C, 0x93C); (0x941, 0x948); (0x94D, 0x94D); (0x951, 0x957); (0x962, 0x963);
   (0x971, 0x971); (0x981, 0x981); (0x9BC, 0x9BC); (0x9C1, 0x9C4); (0x9CD, 0x9CD);
   (0x9E2, 0x9E3); (0x9FE, 0x9FE); (0xA01, 0xA02); (0xA3C, 0xA3C); (0xA41, 0xA42);
   (0xA47, 0xA48); (0xA4B, 0xA4D); (0xA51, 0xA51); (0xA70, 0xA71); (0xA75, 0xA75);
   (0xA81, 0xA82); (0xABC, 0xABC); (0xAC1, 0xAC5); (0xAC7, 0xAC8); (0xACD, 0xACD);
   (0xAE2, 0xAE3); (0xAFA, 0xAFF); (0xB01, 0xB01); (0xB3C, 0xB3C); (0xB3F, 0xB3F);
   (0xB41, 0xB44); (0xB4D, 0xB4D); (0xB55, 0xB56); (0xB62, 0xB63); (0xB82, 0xB82);
   (0xBC0, 0xBC0); (0xBCD, 0xBCD); (0xC00, 0xC00); (0xC04, 0xC04); (0xC3C, 0xC3C);
   (0xC3E, 0xC40); (0xC46, 0xC48); (0xC4A, 0xC4D); (0xC55, 0xC56); (0xC62, 0xC63);
   (0xC81, 0xC81); (0xCBC, 0xCBC); (0xCBF, 0xCBF); (0xCC6, 0xCC6); (0xCCC, 0xCCD);
   (0xCE2, 0xCE3); (0xD00, 0xD01); (0xD3B, 0xD3C); (0xD41, 0xD44); (0xD4D, 0xD4D);
   (0xD62, 0xD63); (0xD81, 0xD81); (0xDCA, 0xDCA); (0xDD2, 0xDD4); (0xDD6, 0xDD6);
   (0xE31, 0xE31); (0xE34, 0xE3A); (0xE46, 0xE4E); (0xEB1, 0xEB1); (0xEB4, 0xEBC);
   (0xEC6, 0xEC6); (0xEC8, 0xECD); (0xF18, 0xF19); (0xF35, 0xF35); (0xF37, 0xF37);
   (0xF39, 0xF39); (0xF71, 0xF7E); (0xF80, 0xF84); (0xF86, 0xF87); (0xF8D, 0xF97);
   (0xF99, 0xFBC); (0xFC6, 0xFC6); (0x102D, 0x1030); (0x1032, 0x1037); (0x1039, 0x103A);
   (0x103D, 0x103E); (0x1058, 0x1059); (0x105E, 0x1060); (0x1071, 0x1074);
   (0x1082, 0x1082); (0x1085, 0x1086); (0x108D, 0x108D); (0x109D, 0x109D);
   (0x10FC, 0x10FC); (0x135D, 0x135F); (0x1712, 0x1714); (0x1732, 0x1733);
   (0x1752, 0x1753); (0x1772, 0x1773); (0x17B4, 0x17B5); (0x17B7, 0x17BD);
   (0x17C6, 0x17C6); (0x17C9, 0x17D3); (0x17D7, 0x17D7); (0x17DD, 0x17DD);
   (0x180B, 0x180F); (0x1843, 0x1843); (0x1885, 0x1886); (0x18A9, 0x18A9);
   (0x1920, 0x1922); (0x1927, 0x1928); (0x1932, 0x1932); (0x1939, 0x193B);
   (0x1A17, 0x1A18); (0x1A1B, 0x1A1B); (0x1A56, 0x1A56); (0x1A58, 0x1A5E);
   (0x1A60, 0x1A60); (0x1A62, 0x1A62); (0x1A65, 0x1A6C); (0x1A73, 0x1A7C);
   (0x1A7F, 0x1A7F); (0x1AA7, 0x1AA7); (0x1AB0, 0x1ACE); (0x1B00, 0x1B03);
   (0x1B34, 0x1B34); (0x1B36, 0x1B3A); (0x1B3C, 0x1B3C); (0x1B42, 0x1B42);
   (0x1B6B, 0x1B73); (0x1B80, 0x1B81); (0x1BA2, 0x1BA5); (0x1BA8, 0x1BA9);
   (0x1BAB, 0x1BAD); (0x1BE6, 0x1BE6); (0x1BE8, 0x1BE9); (0x1BED, 0x1BED);
   (0x1BEF, 0x1BF1); (0x1C2C, 0x1C33); (0x1C36, 0x1C37); (0x1C78, 0x1C7D);
   (0x1CD0, 0x1CD2); (0x1CD4, 0x1CE0); (0x1CE2, 0x1CE8); (0x1CED, 0x1CED);
   (0x1CF4, 0x1CF4); (0x1CF8, 0x1CF9); (0x1D2C, 0x1D6A); (0x1D78, 0x1D78);
   (0x1D9B, 0x1DFF); (0x1FBD, 0x1FBD); (0x1FBF, 0x1FC1); (0x1FCD, 0x1FCF);
   (0x1FDD, 0x1FDF); (0x1FED, 0x1FEF); (0x1FFD, 0x1FFE); (0x200B, 0x200F);
   (0x2018, 0x2019); (0x2024, 0x2024); (0x2027, 0x2027); (0x202A, 0x202E);
   (0x2060, 0x2064); (0x2066, 0x206F); (0x2071, 0x2071); (0x207F, 0x207F);
   (0x2090, 0x209C); (0x20D0, 0x20F0); (0x2C7C, 0x2C7D); (0x2CEF, 0x2CF1);
   (0x2D6F, 0x2D6F); (0x2D7F, 0x2D7F); (0x2DE0, 0x2DFF); (0x2E2F, 0x2E2F);
   (0x3005, 0x3005); (0x302A, 0x302D); (0x3031, 0x3035); (0x303B, 0x303B);
   (0x3099, 0x309E); (0x30FC, 0x30FE); (0xA015, 0xA015); (0xA4F8, 0xA4FD);
   (0xA60C, 0xA60C); (0xA66F, 0xA672); (0xA674, 0xA67D); (0xA67F, 0xA67F);
   (0xA69C, 0xA69F); (0xA6F0, 0xA6F1); (0xA700, 0xA721); (0xA770, 0xA770);
   (0xA788, 0xA78A); (0xA7F2, 0xA7F4); (0xA7F8, 0xA7F9); (0xA802, 0xA802);
   (0xA806, 0xA806); (0xA80B, 0xA80B); (0xA825, 0xA826); (0xA82C, 0xA82C);
   (0xA8C4, 0xA8C5); (0xA8E0, 0xA8F1); (0xA8FF, 0xA8FF); (0xA926, 0xA92D);
   (0xA947, 0xA951); (0xA980, 0xA982); (0xA9B3, 0xA9B3); (0xA9B6, 0xA9B9);
   (0xA9BC, 0xA9BD); (0xA9CF, 0xA9CF); (0xA9E5, 0xA9E6); (0xAA29, 0xAA2E);
   (0xAA31, 0xAA32); (0xAA35, 0xAA36); (0xAA43, 0xAA43); (0xAA4C, 0xAA4C);
   (0xAA70, 0xAA70); (0xAA7C, 0xAA7C); (0xAAB0, 0xAAB0); (0xAAB2, 0xAAB4);
   (0xAAB7, 0xAAB8); (0xAABE, 0xAABF); (0xAAC1, 0xAAC1); (0xAADD, 0xAADD);
   (0xAAEC, 0xAAED); (0xAAF3, 0xAAF4); (0xAAF6, 0xAAF6); (0xAB5B, 0xAB5F);
   (0xAB69, 0xAB6B); (0xABE5, 0xABE5); (0xABE8, 0xABE8); (0xABED, 0xABED);
   (0xFB1E, 0xFB1E); (0xFBB2, 0xFBC2); (0xFE00, 0xFE0F); (0xFE13, 0xFE13);
   (0xFE20, 0xFE2F); (0xFE52, 0xFE52); (0xFE55, 0xFE55); (0xFEFF, 0xFEFF);
   (0xFF07, 0xFF07); (0xFF0E, 0xFF0E); (0xFF1A, 0xFF1A); (0xFF3E, 0xFF3E);
   (0xFF40, 0xFF40); (0xFF70, 0xFF70); (0xFF9E, 0xFF9F); (0xFFE3, 0xFFE3);
   (0xFFF9, 0xFFFB); (0x101FD, 0x101FD); (0x102E0, 0x102E0); (0x10376, 0x1037A);
   (0x10780, 0x10785); (0x10787, 0x107B0); (0x107B2, 0x107BA); (0x10A01, 0x10A03);
   (0x10A05, 0x10A06); (0x10A0C, 0x10A0F); (0x10A38, 0x10A3A); (0x10A3F, 0x10A3F);
   (0x10AE5, 0x10AE6); (0x10D24, 0x10D27); (0x10EAB, 0x10EAC); (0x10F46, 0x10F50);
   (0x10F82, 0x10F85); (0x11001, 0x11001); (0x11038, 0x11046); (0x11070, 0x11070);
   (0x11073, 0x11074); (0x1107F, 0x11081); (0x110B3, 0x110B6); (0x110B9, 0x110BA);
   (0x110BD, 0x110BD); (0x110C2, 0x110C2); (0x110CD, 0x110CD); (0x11100, 0x11102);
   (0x11127, 0x1112B); (0x1112D, 0x11134); (0x11173, 0x11173); (0x11180, 0x11181);
   (0x111B6, 0x111BE); (0x111C9, 0x111CC); (0x111CF, 0x111CF); (0x1122F, 0x11231);
   (0x11234, 0x11234); (0x11236, 0x11237); (0x1123E, 0x1123E); (0x112DF, 0x112DF);
   (0x112E3, 0x112EA); (0x11300, 0x11301); (0x1133B, 0x1133C); (0x11340, 0x11340);
   (0x11366, 0x1136C); (0x11370, 0x11374); (0x11438, 0x1143F); (0x11442, 0x11444);
   (0x11446, 0x11446); (0x1145E, 0x1145E); (0x114B3, 0x114B8); (0x114BA, 0x114BA);
   (0x114BF, 0x114C0); (0x114C2, 0x114C3); (0x115B2, 0x115B5); (0x115BC, 0x115BD);
   (0x115BF, 0x115C0); (0x115DC, 0x115DD); (0x11633, 0x1163A); (0x1163D, 0x1163D);
   (0x1163F, 0x11640); (0x116AB, 0x116AB); (0x116AD, 0x116AD); (0x116B0, 0x116B5);
   (0x116B7, 0x116B7); (0x1171D, 0x1171F); (0x11722, 0x11725); (0x11727, 0x1172B);
   (0x1182F, 0x11837); (0x11839, 0x1183A); (0x1193B, 0x1193C); (0x1193E, 0x1193E);
   (0x11943, 0x11943); (0x119D4, 0x119D7); (0x119DA, 0x119DB); (0x119E0, 0x119E0);
   (0x11A01, 0x11A0A); (0x11A33, 0x11A38); (0x11A3B, 0x11A3E); (0x11A47, 0x11A47);
   (0x11A51, 0x11A56); (0x11A59, 0x11A5B); (0x11A8A, 0x11A96); (0x11A98, 0x11A99);
   (0x11C30, 0x11C36); (0x11C38, 0x11C3D); (0x11C3F, 0x11C3F); (0x11C92, 0x11CA7);
   (0x11CAA, 0x11CB0); (0x11CB2, 0x11CB3); (0x11CB5, 0x11CB6); (0x11D31, 0x11D36);
   (0x11D3A, 0x11D3A); (0x11D3C, 0x11D3D); (0x11D3F, 0x11D45); (0x11D47, 0x11D47);
   (0x11D90, 0x11D91); (0x11D95, 0x11D95); (0x11D97, 0x11D97); (0x11EF3, 0x11EF4);
   (0x13430, 0x13438); (0x16AF0, 0x16AF4); (0x16B30, 0x16B36); (0x16B40, 0x16B43);
   (0x16F4F, 0x16F4F); (0x16F8F, 0x16F9F); (0x16FE0, 0x16FE1); (0x16FE3, 0x16FE4);
   (0x1AFF0, 0x1AFF3); (0x1AFF5, 0x1AFFB); (0x1AFFD, 0x1AFFE); (0x1BC9D, 0x1BC9E);
   (0x1BCA0, 0x1BCA3); (0x1CF00, 0x1CF2D); (0x1CF30, 0x1CF46); (0x1D167, 0x1D169);
   (0x1D173, 0x1D182); (0x1D185, 0x1D18B); (0x1D1AA, 0x1D1AD); (0x1D242, 0x1D244);
   (0x1DA00, 0x1DA36); (0x1DA3B, 0x1DA6C); (0x1DA75, 0x1DA75); (0x1DA84, 0x1DA84);
   (0x1DA9B, 0x1DA9F); (0x1DAA1, 0x1DAAF); (0x1E000, 0x1E006); (0x1E008, 0x1E018);
   (0x1E01B, 0x1E021); (0x1E023, 0x1E024); (0x1E026, 0x1E02A); (0x1E130, 0x1E13D);
   (0x1E2AE, 0x1E2AE); (0x1E2EC, 0x1E2EF); (0x1E8D0, 0x1E8D6); (0x1E944, 0x1E94B);
   (0x1F3FB, 0x1F3FF); (0xE0001, 0xE0001); (0xE0020, 0xE007F); (0xE0100, 0xE01EF)].

(** The cased code points that are not case-ignorable. *)
Definition com_caixa : list (N * N) :=
 [(0x41, 0x5A); (0x61, 0x7A); (0xAA, 0xAA); (0xB5, 0xB5); (0xBA, 0xBA); (0xC0, 0xD6);
   (0xD8, 0xF6); (0xF8, 0x1BA); (0x1BC, 0x1BF); (0x1C4, 0x293); (0x295, 0x2AF);
   (0x370, 0x373); (0x376, 0x377); (0x37B, 0x37D); (0x37F, 0x37F); (0x386, 0x386);
   (0x388, 0x38A); (0x38C, 0x38C); (0x38E, 0x3A1); (0x3A3, 0x3F5); (0x3F7, 0x481);
   (0x48A, 0x52F); (0x531, 0x556); (0x560, 0x588); (0x10A0, 0x10C5); (0x10C7, 0x10C7);
   (0x10CD, 0x10CD); (0x10D0, 0x10FA); (0x10FD, 0x10FF); (0x13A0, 0x13F5);
   (0x13F8, 0x13FD); (0x1C80, 0x1C88); (0x1C90, 0x1CBA); (0x1CBD, 0x1CBF);
   (0x1D00, 0x1D2B); (0x1D6B, 0x1D77); (0x1D79, 0x1D9A); (0x1E00, 0x1F15);
   (0x1F18, 0x1F1D); (0x1F20, 0x1F45); (0x1F48, 0x1F4D); (0x1F50, 0x1F57);
   (0x1F59, 0x1F59); (0x1F5B, 0x1F5B); (0x1F5D, 0x1F5D); (0x1F5F, 0x1F7D);
   (0x1F80, 0x1FB4); (0x1FB6, 0x1FBC); (0x1FBE, 0x1FBE); (0x1FC2, 0x1FC4);
   (0x1FC6, 0x1FCC); (0x1FD0, 0x1FD3); (0x1FD6, 0x1FDB); (0x1FE0, 0x1FEC);
   (0x1FF2, 0x1FF4); (0x1FF6, 0x1FFC); (0x2102, 0x2102); (0x2107, 0x2107);
   (0x210A, 0x2113); (0x2115, 0x2115); (0x2119, 0x211D); (0x2124, 0x2124);
   (0x2126, 0x2126); (0x2128, 0x2128); (0x212A, 0x212D); (0x212F, 0x2134);
   (0x2139, 0x2139); (0x213C, 0x213F); (0x2145, 0x2149); (0x214E, 0x214E);
   (0x2160, 0x217F); (0x2183, 0x2184); (0x24B6, 0x24E9); (0x2C00, 0x2C7B);
   (0x2C7E, 0x2CE4); (0x2CEB, 0x2CEE); (0x2CF2, 0x2CF3); (0x2D00, 0x2D25);
   (0x2D27, 0x2D27); (0x2D2D, 0x2D2D); (0xA640, 0xA66D); (0xA680, 0xA69B);
   (0xA722, 0xA76F); (0xA771, 0xA787); (0xA78B, 0xA78E); (0xA790, 0xA7CA);
   (0xA7D0, 0xA7D1); (0xA7D3, 0xA7D3); (0xA7D5, 0xA7D9); (0xA7F5, 0xA7F6);
   (0xA7FA, 0xA7FA); (0xAB30, 0xAB5A); (0xAB60, 0xAB68); (0xAB70, 0xABBF);
   (0xFB00, 0xFB06); (0xFB13, 0xFB17); (0xFF21, 0xFF3A); (0xFF41, 0xFF5A);
   (0x10400, 0x1044F); (0x104B0, 0x104D3); (0x104D8, 0x104FB); (0x10570, 0x1057A);
   (0x1057C, 0x1058A); (0x1058C, 0x10592); (0x10594, 0x10595); (0x10597, 0x105A1);
   (0x105A3, 0x105B1); (0x105B3, 0x105B9); (0x105BB, 0x105BC); (0x10C80, 0x10CB2);
   (0x10CC0, 0x10CF2); (0x118A0, 0x118DF); (0x16E40, 0x16E7F); (0x1D400, 0x1D454);
   (0x1D456, 0x1D49C); (0x1D49E, 0x1D49F); (0x1D4A2, 0x1D4A2); (0x1D4A5, 0x1D4A6);
   (0x1D4A9, 0x1D4AC); (0x1D4AE, 0x1D4B9); (0x1D4BB, 0x1D4BB); (0x1D4BD, 0x1D4C3);
   (0x1D4C5, 0x1D505); (0x1D507, 0x1D50A); (0x1D50D, 0x1D514); (0x1D516, 0x1D51C);
   (0x1D51E, 0x1D539); (0x1D53B, 0x1D53E); (0x1D540, 0x1D544); (0x1D546, 0x1D546);
   (0x1D54A, 0x1D550); (0x1D552, 0x1D6A5); (0x1D6A8, 0x1D6C0); (0x1D6C2, 0x1D6DA);
   (0x1D6DC, 0x1D6FA); (0x1D6FC, 0x1D714); (0x1D716, 0x1D734); (0x1D736, 0x1D74E);
   (0x1D750, 0x1D76E); (0x1D770, 0x1D788); (0x1D78A, 0x1D7A8); (0x1D7AA, 0x1D7C2);
   (0x1D7C4, 0x1D7CB); (0x1DF00, 0x1DF09); (0x1DF0B, 0x1DF1E); (0x1E900, 0x1E943);
   (0x1F130, 0x1F149); (0x1F150, 0x1F169); (0x1F170, 0x1F189)].

(** Lower case of one code point: every [passo]-th code point from [a] to [b] maps to the code point as far from [alvo] as it is from [a]. *)
Definition minusculas : list (N * N * N * N) :=
 [(0x41, 0x5A, 1, 0x61); (0xC0, 0xD6, 1, 0xE0); (0xD8, 0xDE, 1, 0xF8);
   (0x100, 0x12E, 2, 0x101); (0x132, 0x136, 2, 0x133); (0x139, 0x147, 2, 0x13A);
   (0x14A, 0x176, 2, 0x14B); (0x178, 0x178, 1, 0xFF); (0x179, 0x17D, 2, 0x17A);
   (0x181, 0x181, 1, 0x253); (0x182, 0x184, 2, 0x183); (0x186, 0x186, 1, 0x254);
   (0x187, 0x187, 1, 0x188); (0x189, 0x18A, 1, 0x256); (0x18B, 0x18B, 1, 0x18C);
   (0x18E, 0x18E, 1, 0x1DD); (0x18F, 0x18F, 1, 0x259); (0x190, 0x190, 1, 0x25B);
   (0x191, 0x191, 1, 0x192); (0x193, 0x193, 1, 0x260); (0x194, 0x194, 1, 0x263);
   (0x196, 0x196, 1, 0x269); (0x197, 0x197, 1, 0x268); (0x198, 0x198, 1, 0x199);
   (0x19C, 0x19C, 1, 0x26F); (0x19D, 0x19D, 1, 0x272); (0x19F, 0x19F, 1, 0x275);
   (0x1A0, 0x1A4, 2, 0x1A1); (0x1A6, 0x1A6, 1, 0x280); (0x1A7, 0x1A7, 1, 0x1A8);
   (0x1A9, 0x1A9, 1, 0x283); (0x1AC, 0x1AC, 1, 0x1AD); (0x1AE, 0x1AE, 1, 0x288);
   (0x1AF, 0x1AF, 1, 0x1B0); (0x1B1, 0x1B2, 1, 0x28A); (0x1B3, 0x1B5, 2, 0x1B4);
   (0x1B7, 0x1B7, 1, 0x292); (0x1B8, 0x1B8, 1, 0x1B9); (0x1BC, 0x1BC, 1, 0x1BD);
   (0x1C4, 0x1C4, 1, 0x1C6); (0x1C5, 0x1C5, 1, 0x1C6); (0x1C7, 0x1C7, 1, 0x1C9);
   (0x1C8, 0x1C8, 1, 0x1C9); (0x1CA, 0x1CA, 1, 0x1CC); (0x1CB, 0x1DB, 2, 0x1CC);
   (0x1DE, 0x1EE, 2, 0x1DF); (0x1F1, 0x1F1, 1, 0x1F3); (0x1F2, 0x1F4, 2, 0x1F3);
   (0x1F6, 0x1F6, 1, 0x195); (0x1F7, 0x1F7, 1, 0x1BF); (0x1F8, 0x21E, 2, 0x1F9);
   (0x220, 0x220, 1, 0x19E); (0x222, 0x232, 2, 0x223); (0x23A, 0x23A, 1, 0x2C65);
   (0x23B, 0x23B, 1, 0x23C); (0x23D, 0x23D, 1, 0x19A); (0x23E, 0x23E, 1, 0x2C66);
   (0x241, 0x241, 1, 0x242); (0x243, 0x243, 1, 0x180); (0x244, 0x244, 1, 0x289);
   (0x245, 0x245, 1, 0x28C); (0x246, 0x24E, 2, 0x247); (0x370, 0x372, 2, 0x371);
   (0x376, 0x376, 1, 0x377); (0x37F, 0x37F, 1, 0x3F3); (0x386, 0x386, 1, 0x3AC);
   (0x388, 0x38A, 1, 0x3AD); (0x38C, 0x38C, 1, 0x3CC); (0x38E, 0x38F, 1, 0x3CD);
   (0x391, 0x3A1, 1, 0x3B1); (0x3A3, 0x3AB, 1, 0x3C3); (0x3CF, 0x3CF, 1, 0x3D7);
   (0x3D8, 0x3EE, 2, 0x3D9); (0x3F4, 0x3F4, 1, 0x3B8); (0x3F7, 0x3F7, 1, 0x3F8);
   (0x3F9, 0x3F9, 1, 0x3F2); (0x3FA, 0x3FA, 1, 0x3FB); (0x3FD, 0x3FF, 1, 0x37B);
   (0x400, 0x40F, 1, 0x450); (0x410, 0x42F, 1, 0x430); (0x460, 0x480, 2, 0x461);
   (0x48A, 0x4BE, 2, 0x48B); (0x4C0, 0x4C0, 1, 0x4CF); (0x4C1, 0x4CD, 2, 0x4C2);
   (0x4D0, 0x52E, 2, 0x4D1); (0x531, 0x556, 1, 0x561); (0x10A0, 0x10C5, 1, 0x2D00);
   (0x10C7, 0x10C7, 1, 0x2D27); (0x10CD, 0x10CD, 1, 0x2D2D); (0x13A0, 0x13EF, 1, 0xAB70);
   (0x13F0, 0x13F5, 1, 0x13F8); (0x1C90, 0x1CBA, 1, 0x10D0); (0x1CBD, 0x1CBF, 1, 0x10FD);
   (0x1E00, 0x1E94, 2, 0x1E01); (0x1E9E, 0x1E9E, 1, 0xDF); (0x1EA0, 0x1EFE, 2, 0x1EA1);
   (0x1F08, 0x1F0F, 1, 0x1F00); (0x1F18, 0x1F1D, 1, 0x1F10); (0x1F28, 0x1F2F, 1, 0x1F20);
   (0x1F38, 0x1F3F, 1, 0x1F30); (0x1F48, 0x1F4D, 1, 0x1F40); (0x1F59, 0x1F5F, 2, 0x1F51);
   (0x1F68, 0x1F6F, 1, 0x1F60); (0x1F88, 0x1F8F, 1, 0x1F80); (0x1F98, 0x1F9F, 1, 0x1F90);
   (0x1FA8, 0x1FAF, 1, 0x1FA0); (0x1FB8, 0x1FB9, 1, 0x1FB0); (0x1FBA, 0x1FBB, 1, 0x1F70);
   (0x1FBC, 0x1FBC, 1, 0x1FB3); (0x1FC8, 0x1FCB, 1, 0x1F72); (0x1FCC, 0x1FCC, 1, 0x1FC3);
   (0x1FD8, 0x1FD9, 1, 0x1FD0); (0x1FDA, 0x1FDB, 1, 0x1F76); (0x1FE8, 0x1FE9, 1, 0x1FE0);
   (0x1FEA, 0x1FEB, 1, 0x1F7A); (0x1FEC, 0x1FEC, 1, 0x1FE5); (0x1FF8, 0x1FF9, 1, 0x1F78);
   (0x1FFA, 0x1FFB, 1, 0x1F7C); (0x1FFC, 0x1FFC, 1, 0x1FF3); (0x2126, 0x2126, 1, 0x3C9);
   (0x212A, 0x212A, 1, 0x6B); (0x212B, 0x212B, 1, 0xE5); (0x2132, 0x2132, 1, 0x214E);
   (0x2160, 0x216F, 1, 0x2170); (0x2183, 0x2183, 1, 0x2184); (0x24B6, 0x24CF, 1, 0x24D0);
   (0x2C00, 0x2C2F, 1, 0x2C30); (0x2C60, 0x2C60, 1, 0x2C61); (0x2C62, 0x2C62, 1, 0x26B);
   (0x2C63, 0x2C63, 1, 0x1D7D); (0x2C64, 0x2C64, 1, 0x27D); (0x2C67, 0x2C6B, 2, 0x2C68);
   (0x2C6D, 0x2C6D, 1, 0x251); (0x2C6E, 0x2C6E, 1, 0x271); (0x2C6F, 0x2C6F, 1, 0x250);
   (0x2C70, 0x2C70, 1, 0x252); (0x2C72, 0x2C72, 1, 0x2C73); (0x2C75, 0x2C75, 1, 0x2C76);
   (0x2C7E, 0x2C7F, 1, 0x23F); (0x2C80, 0x2CE2, 2, 0x2C81); (0x2CEB, 0x2CED, 2, 0x2CEC);
   (0x2CF2, 0x2CF2, 1, 0x2CF3); (0xA640, 0xA66C, 2, 0xA641); (0xA680, 0xA69A, 2, 0xA681);
   (0xA722, 0xA72E, 2, 0xA723); (0xA732, 0xA76E, 2, 0xA733); (0xA779, 0xA77B, 2, 0xA77A);
   (0xA77D, 0xA77D, 1, 0x1D79); (0xA77E, 0xA786, 2, 0xA77F); (0xA78B, 0xA78B, 1, 0xA78C);
   (0xA78D, 0xA78D, 1, 0x265); (0xA790, 0xA792, 2, 0xA791); (0xA796, 0xA7A8, 2, 0xA797);
   (0xA7AA, 0xA7AA, 1, 0x266); (0xA7AB, 0xA7AB, 1, 0x25C); (0xA7AC, 0xA7AC, 1, 0x261);
   (0xA7AD, 0xA7AD, 1, 0x26C); (0xA7AE, 0xA7AE, 1, 0x26A); (0xA7B0, 0xA7B0, 1, 0x29E);
   (0xA7B1, 0xA7B1, 1, 0x287); (0xA7B2, 0xA7B2, 1, 0x29D); (0xA7B3, 0xA7B3, 1, 0xAB53);
   (0xA7B4, 0xA7C2, 2, 0xA7B5); (0xA7C4, 0xA7C4, 1, 0xA794); (0xA7C5, 0xA7C5, 1, 0x282);
   (0xA7C6, 0xA7C6, 1, 0x1D8E); (0xA7C7, 0xA7C9, 2, 0xA7C8); (0xA7D0, 0xA7D0, 1, 0xA7D1);
   (0xA7D6, 0xA7D8, 2, 0xA7D7); (0xA7F5, 0xA7F5, 1, 0xA7F6); (0xFF21, 0xFF3A, 1, 0xFF41);
   (0x10400, 0x10427, 1, 0x10428); (0x104B0, 0x104D3, 1, 0x104D8);
   (0x10570, 0x1057A, 1, 0x10597); (0x1057C, 0x1058A, 1, 0x105A3);
   (0x1058C, 0x10592, 1, 0x105B3); (0x10594, 0x10595, 1, 0x105BB);
   (0x10C80, 0x10CB2, 1, 0x10CC0); (0x118A0, 0x118BF, 1, 0x118C0);
   (0x16E40, 0x16E5F, 1, 0x16E60); (0x1E900, 0x1E921, 1, 0x1E922)].

(** Lower case made of several code points. *)
Definition minusculas_longas : list (N * list N) :=
 [(0x130, [0x69; 0x307])].

(** Title case of one code point, laid out as [minusculas]. *)
Definition titulos : list (N * N * N * N) :=
 [(0x61, 0x7A, 1, 0x41); (0xB5, 0xB5, 1, 0x39C); (0xE0, 0xF6, 1, 0xC0);
   (0xF8, 0xFE, 1, 0xD8); (0xFF, 0xFF, 1, 0x178); (0x101, 0x12F, 2, 0x100);
   (0x131, 0x131, 1, 0x49); (0x133, 0x137, 2, 0x132); (0x13A, 0x148, 2, 0x139);
   (0x14B, 0x177, 2, 0x14A); (0x17A, 0x17E, 2, 0x179); (0x17F, 0x17F, 1, 0x53);
   (0x180, 0x180, 1, 0x243); (0x183, 0x185, 2, 0x182); (0x188, 0x188, 1, 0x187);
   (0x18C, 0x18C, 1, 0x18B); (0x192, 0x192, 1, 0x191); (0x195, 0x195, 1, 0x1F6);
   (0x199, 0x199, 1, 0x198); (0x19A, 0x19A, 1, 0x23D); (0x19E, 0x19E, 1, 0x220);
   (0x1A1, 0x1A5, 2, 0x1A0); (0x1A8, 0x1A8, 1, 0x1A7); (0x1AD, 0x1AD, 1, 0x1AC);
   (0x1B0, 0x1B0, 1, 0x1AF); (0x1B4, 0x1B6, 2, 0x1B3); (0x1B9, 0x1B9, 1, 0x1B8);
   (0x1BD, 0x1BD, 1, 0x1BC); (0x1BF, 0x1BF, 1, 0x1F7); (0x1C4, 0x1C4, 1, 0x1C5);
   (0x1C6, 0x1C6, 1, 0x1C5); (0x1C7, 0x1C7, 1, 0x1C8); (0x1C9, 0x1C9, 1, 0x1C8);
   (0x1CA, 0x1CA, 1, 0x1CB); (0x1CC, 0x1DC, 2, 0x1CB); (0x1DD, 0x1DD, 1, 0x18E);
   (0x1DF, 0x1EF, 2, 0x1DE); (0x1F1, 0x1F1, 1, 0x1F2); (0x1F3, 0x1F5, 2, 0x1F2);
   (0x1F9, 0x21F, 2, 0x1F8); (0x223, 0x233, 2, 0x222); (0x23C, 0x23C, 1, 0x23B);
   (0x23F, 0x240, 1, 0x2C7E); (0x242, 0x242, 1, 0x241); (0x247, 0x24F, 2, 0x246);
   (0x250, 0x250, 1, 0x2C6F); (0x251, 0x251, 1, 0x2C6D); (0x252, 0x252, 1, 0x2C70);
   (0x253, 0x253, 1, 0x181); (0x254, 0x254, 1, 0x186); (0x256, 0x257, 1, 0x189);
   (0x259, 0x259, 1, 0x18F); (0x25B, 0x25B, 1, 0x190); (0x25C, 0x25C, 1, 0xA7AB);
   (0x260, 0x260, 1, 0x193); (0x261, 0x261, 1, 0xA7AC); (0x263, 0x263, 1, 0x194);
   (0x265, 0x265, 1, 0xA78D); (0x266, 0x266, 1, 0xA7AA); (0x268, 0x268, 1, 0x197);
   (0x269, 0x269, 1, 0x196); (0x26A, 0x26A, 1, 0xA7AE); (0x26B, 0x26B, 1, 0x2C62);
   (0x26C, 0x26C, 1, 0xA7AD); (0x26F, 0x26F, 1, 0x19C); (0x271, 0x271, 1, 0x2C6E);
   (0x272, 0x272, 1, 0x19D); (0x275, 0x275, 1, 0x19F); (0x27D, 0x27D, 1, 0x2C64);
   (0x280, 0x280, 1, 0x1A6); (0x282, 0x282, 1, 0xA7C5); (0x283, 0x283, 1, 0x1A9);
   (0x287, 0x287, 1, 0xA7B1); (0x288, 0x288, 1, 0x1AE); (0x289, 0x289, 1, 0x244);
   (0x28A, 0x28B, 1, 0x1B1); (0x28C, 0x28C, 1, 0x245); (0x292, 0x292, 1, 0x1B7);
   (0x29D, 0x29D, 1, 0xA7B2); (0x29E, 0x29E, 1, 0xA7B0); (0x345, 0x345, 1, 0x399);
   (0x371, 0x373, 2, 0x370); (0x377, 0x377, 1, 0x376); (0x37B, 0x37D, 1, 0x3FD);
   (0x3AC, 0x3AC, 1, 0x386); (0x3AD, 0x3AF, 1, 0x388); (0x3B1, 0x3C1, 1, 0x391);
   (0x3C2, 0x3C2, 1, 0x3A3); (0x3C3, 0x3CB, 1, 0x3A3); (0x3CC, 0x3CC, 1, 0x38C);
   (0x3CD, 0x3CE, 1, 0x38E); (0x3D0, 0x3D0, 1, 0x392); (0x3D1, 0x3D1, 1, 0x398);
   (0x3D5, 0x3D5, 1, 0x3A6); (0x3D6, 0x3D6, 1, 0x3A0); (0x3D7, 0x3D7, 1, 0x3CF);
   (0x3D9, 0x3EF, 2, 0x3D8); (0x3F0, 0x3F0, 1, 0x39A); (0x3F1, 0x3F1, 1, 0x3A1);
   (0x3F2, 0x3F2, 1, 0x3F9); (0x3F3, 0x3F3, 1, 0x37F); (0x3F5, 0x3F5, 1, 0x395);
   (0x3F8, 0x3F8, 1, 0x3F7); (0x3FB, 0x3FB, 1, 0x3FA); (0x430, 0x44F, 1, 0x410);
   (0x450, 0x45F, 1, 0x400); (0x461, 0x481, 2, 0x460); (0x48B, 0x4BF, 2, 0x48A);
   (0x4C2, 0x4CE, 2, 0x4C1); (0x4CF, 0x4CF, 1, 0x4C0); (0x4D1, 0x52F, 2, 0x4D0);
   (0x561, 0x586, 1, 0x531); (0x13F8, 0x13FD, 1, 0x13F0); (0x1C80, 0x1C80, 1, 0x412);
   (0x1C81, 0x1C81, 1, 0x414); (0x1C82, 0x1C82, 1, 0x41E); (0x1C83, 0x1C84, 1, 0x421);
   (0x1C85, 0x1C85, 1, 0x422); (0x1C86, 0x1C86, 1, 0x42A); (0x1C87, 0x1C87, 1, 0x462);
   (0x1C88, 0x1C88, 1, 0xA64A); (0x1D79, 0x1D79, 1, 0xA77D); (0x1D7D, 0x1D7D, 1, 0x2C63);
   (0x1D8E, 0x1D8E, 1, 0xA7C6); (0x1E01, 0x1E95, 2, 0x1E00); (0x1E9B, 0x1E9B, 1, 0x1E60);
   (0x1EA1, 0x1EFF, 2, 0x1EA0); (0x1F00, 0x1F07, 1, 0x1F08); (0x1F10, 0x1F15, 1, 0x1F18);
   (0x1F20, 0x1F27, 1, 0x1F28); (0x1F30, 0x1F37, 1, 0x1F38); (0x1F40, 0x1F45, 1, 0x1F48);
   (0x1F51, 0x1F57, 2, 0x1F59); (0x1F60, 0x1F67, 1, 0x1F68); (0x1F70, 0x1F71, 1, 0x1FBA);
   (0x1F72, 0x1F75, 1, 0x1FC8); (0x1F76, 0x1F77, 1, 0x1FDA); (0x1F78, 0x1F79, 1, 0x1FF8);
   (0x1F7A, 0x1F7B, 1, 0x1FEA); (0x1F7C, 0x1F7D, 1, 0x1FFA); (0x1F80, 0x1F87, 1, 0x1F88);
   (0x1F90, 0x1F97, 1, 0x1F98); (0x1FA0, 0x1FA7, 1, 0x1FA8); (0x1FB0, 0x1FB1, 1, 0x1FB8);
   (0x1FB3, 0x1FB3, 1, 0x1FBC); (0x1FBE, 0x1FBE, 1, 0x399); (0x1FC3, 0x1FC3, 1, 0x1FCC);
   (0x1FD0, 0x1FD1, 1, 0x1FD8); (0x1FE0, 0x1FE1, 1, 0x1FE8); (0x1FE5, 0x1FE5, 1, 0x1FEC);
   (0x1FF3, 0x1FF3, 1, 0x1FFC); (0x214E, 0x214E, 1, 0x2132); (0x2170, 0x217F, 1, 0x2160);
   (0x2184, 0x2184, 1, 0x2183); (0x24D0, 0x24E9, 1, 0x24B6); (0x2C30, 0x2C5F, 1, 0x2C00);
   (0x2C61, 0x2C61, 1, 0x2C60); (0x2C65, 0x2C65, 1, 0x23A); (0x2C66, 0x2C66, 1, 0x23E);
   (0x2C68, 0x2C6C, 2, 0x2C67); (0x2C73, 0x2C73, 1, 0x2C72); (0x2C76, 0x2C76, 1, 0x2C75);
   (0x2C81, 0x2CE3, 2, 0x2C80); (0x2CEC, 0x2CEE, 2, 0x2CEB); (0x2CF3, 0x2CF3, 1, 0x2CF2);
   (0x2D00, 0x2D25, 1, 0x10A0); (0x2D27, 0x2D27, 1, 0x10C7); (0x2D2D, 0x2D2D, 1, 0x10CD);
   (0xA641, 0xA66D, 2, 0xA640); (0xA681, 0xA69B, 2, 0xA680); (0xA723, 0xA72F, 2, 0xA722);
   (0xA733, 0xA76F, 2, 0xA732); (0xA77A, 0xA77C, 2, 0xA779); (0xA77F, 0xA787, 2, 0xA77E);
   (0xA78C, 0xA78C, 1, 0xA78B); (0xA791, 0xA793, 2, 0xA790); (0xA794, 0xA794, 1, 0xA7C4);
   (0xA797, 0xA7A9, 2, 0xA796); (0xA7B5, 0xA7C3, 2, 0xA7B4); (0xA7C8, 0xA7CA, 2, 0xA7C7);
   (0xA7D1, 0xA7D1, 1, 0xA7D0); (0xA7D7, 0xA7D9, 2, 0xA7D6); (0xA7F6, 0xA7F6, 1, 0xA7F5);
   (0xAB53, 0xAB53, 1, 0xA7B3); (0xAB70, 0xABBF, 1, 0x13A0); (0xFF41, 0xFF5A, 1, 0xFF21);
   (0x10428, 0x1044F, 1, 0x10400); (0x104D8, 0x104FB, 1, 0x104B0);
   (0x10597, 0x105A1, 1, 0x10570); (0x105A3, 0x105B1, 1, 0x1057C);
   (0x105B3, 0x105B9, 1, 0x1058C); (0x105BB, 0x105BC, 1, 0x10594);
   (0x10CC0, 0x10CF2, 1, 0x10C80); (0x118C0, 0x118DF, 1, 0x118A0);
   (0x16E60, 0x16E7F, 1, 0x16E40); (0x1E922, 0x1E943, 1, 0x1E900)].

(** Title case made of several code points. *)
Definition titulos_longos : list (N * list N) :=
 [(0xDF, [0x53; 0x73]); (0x149, [0x2BC; 0x4E]); (0x1F0, [0x4A; 0x30C]);
   (0x390, [0x399; 0x308; 0x301]); (0x3B0, [0x3A5; 0x308; 0x301]); (0x587, [0x535; 0x582]);
   (0x1E96, [0x48; 0x331]); (0x1E97, [0x54; 0x308]); (0x1E98, [0x57; 0x30A]);
   (0x1E99, [0x59; 0x30A]); (0x1E9A, [0x41; 0x2BE]); (0x1F50, [0x3A5; 0x313]);
   (0x1F52, [0x3A5; 0x313; 0x300]); (0x1F54, [0x3A5; 0x313; 0x301]);
   (0x1F56, [0x3A5; 0x313; 0x342]); (0x1FB2, [0x1FBA; 0x345]); (0x1FB4, [0x386; 0x345]);
   (0x1FB6, [0x391; 0x342]); (0x1FB7, [0x391; 0x342; 0x345]); (0x1FC2, [0x1FCA; 0x345]);
   (0x1FC4, [0x389; 0x345]); (0x1FC6, [0x397; 0x342]); (0x1FC7, [0x397; 0x342; 0x345]);
   (0x1FD2, [0x399; 0x308; 0x300]); (0x1FD3, [0x399; 0x308; 0x301]);
   (0x1FD6, [0x399; 0x342]); (0x1FD7, [0x399; 0x308; 0x342]);
   (0x1FE2, [0x3A5; 0x308; 0x300]); (0x1FE3, [0x3A5; 0x308; 0x301]);
   (0x1FE4, [0x3A1; 0x313]); (0x1FE6, [0x3A5; 0x342]); (0x1FE7, [0x3A5; 0x308; 0x342]);
   (0x1FF2, [0x1FFA; 0x345]); (0x1FF4, [0x38F; 0x345]); (0x1FF6, [0x3A9; 0x342]);
   (0x1FF7, [0x3A9; 0x342; 0x345]); (0xFB00, [0x46; 0x66]); (0xFB01, [0x46; 0x69]);
   (0xFB02, [0x46; 0x6C]); (0xFB03, [0x46; 0x66; 0x69]); (0xFB04, [0x46; 0x66; 0x6C]);
   (0xFB05, [0x53; 0x74]); (0xFB06, [0x53; 0x74]); (0xFB13, [0x544; 0x576]);
   (0xFB14, [0x544; 0x565]); (0xFB15, [0x544; 0x56B]); (0xFB16, [0x54E; 0x576]);
   (0xFB17, [0x544; 0x56D])].

(** Membership in a sorted table of intervals. *)
Fixpoint em (tabela : list (N * N)) (n : N) : bool :=
  match tabela with
  | [] => false
  | (a, b) :: r => if n <? a then false else if n <=? b then true else em r n
  end.

(** [Py_UNICODE_ISSPACE] *)
Definition isspace (n : N) : bool := em espacos n.

(** [Py_UNICODE_ISALNUM] *)
Definition isalnum (n : N) : bool := em alfanumericos n.

Definition ignoravel (n : N) : bool := em ignoraveis n.

Definition cased (n : N) : bool := em com_caixa n.

Fixpoint decimal_em (zeros : list N) (n : N) : option N :=
  match zeros with
  | [] => None
  | z :: r =>
      if n <? z then None else if n <? z + 10 then Some (n - z) else decimal_em r n
  end.

(** [Py_UNICODE_TODECIMAL]: the value of a decimal digit. *)
Definition decimal (n : N) : option N := decimal_em decimais n.

Fixpoint simples (tabela : list (N * N * N * N)) (n : N) : option N :=
  match tabela with
  | [] => None
  | (a, b, passo, alvo) :: r =>
      if n <? a then None
      else if (n <=? b) && ((n - a) mod passo =? 0) then Some (alvo + (n - a))
      else simples r n
  end.

Fixpoint longo (tabela : list (N * list N)) (n : N) : option (list N) :=
  match tabela with
  | [] => None
  | (a, l) :: r => if n <? a then None else if n =? a then Some l else longo r n
  end.

Definition mapeado (curtos : list (N * N * N * N)) (longos : list (N * list N)) (n : N)
  : option (list N) :=
  match longo longos n with
  | Some l => Some l
  | None => option_map (fun m => [m]) (simples curtos n)
  end.

(** [_PyUnicode_ToLowerFull], [None] for a code point that is its own
    lower case. *)
Definition minuscula (n : N) : option (list N) := mapeado minusculas minusculas_longas n.

(** [_PyUnicode_ToTitleFull], [None] for a code point that is its own
    title case. *)
Definition titulo (n : N) : option (list N) := mapeado titulos titulos_longos n.

(** *** UTF-8 *)

Fixpoint cauda (s : string) (acc : N) : N :=
  match s with
  | EmptyString => acc
  | String a r => cauda r (acc * 64 + N_of_ascii a mod 64)
  end.

(** What [ord] gives to bytes that encode no code point. *)
Definition fora : N := 0x110000.

(** The code point that the bytes [c] encode. *)
Definition ord (c : string) : N :=
  match c with
  | EmptyString => fora
  | String a r =>
      let n := N_of_ascii a in
      match String.length r with
      | 0%nat => if n <? 0x80 then n else fora
      | 1%nat =>
          let v := cauda r (n - 0xC0) in
          if (0xC0 <=? n) && (n <? 0xE0) && (0x80 <=? v) then v else fora
      | 2%nat =>
          let v := cauda r (n - 0xE0) in
          if (0xE0 <=? n) && (n <? 0xF0) && (0x800 <=? v) then v else fora
      | 3%nat =>
          let v := cauda r (n - 0xF0) in
          if (0xF0 <=? n) && (n <? 0xF8) && (0x10000 <=? v) && (v <? fora) then v else fora
      | _ => fora
      end
  end.

(** The bytes that encode the code point [n]. *)
Definition chr (n : N) : string :=
  let seguinte (k : N) := ascii_of_N (0x80 + k mod 64) in
  if n <? 0x80 then String (ascii_of_N n) EmptyString
  else if n <? 0x800 then
    String (ascii_of_N (0xC0 + n / 64)) (String (seguinte n) EmptyString)
  else if n <? 0x10000 then
    String (ascii_of_N (0xE0 + n / 4096))
      (String (seguinte (n / 64)) (String (seguinte n) EmptyString))
  else
    String (ascii_of_N (0xF0 + n / 262144))
      (String (seguinte (n / 4096))
         (String (seguinte (n / 64)) (String (seguinte n) EmptyString))).

End Unicode.

(** ** Python [str] helpers

    A [str] is held as the UTF-8 encoding of its code points. *)

Module PyStr.

(** A byte of the form [10xxxxxx] continues a UTF-8 sequence. *)
Definition continuacao (c : ascii) : bool :=
  let n := N_of_ascii c in (128 <=? n)%N && (n <? 192)%N.

Definition comeca_continuacao (s : string) : bool :=
  match s with
  | String c _ => continuacao c
  | EmptyString => false
  end.

(** The code points of a text, each kept as its own UTF-8 bytes. *)
Fixpoint codepoints (s : string) : list string :=
  match s with
  | EmptyString => []
  | String c r =>
      match codepoints r with
      | t :: ts =>
          if comeca_continuacao t then String c t :: ts
          else String c EmptyString :: t :: ts
      | [] => [String c EmptyString]
      end
  end.

(** [len(s)]: the number of code points. *)
Definition len (s : string) : nat := List.length (codepoints s).

(** [sep.join(partes)] *)
Fixpoint join (sep : string) (partes : list string) : string :=
  match partes with
  | [] => ""
  | [p] => p
  | p :: resto => p ++ sep ++ join sep resto
  end.

(** [t in s] *)
Fixpoint contem (s t : string) : bool :=
  String.prefix t s ||
  match s with
  | EmptyString => false
  | String _ r => contem r t
  end.

(** [str(n)] for an [int]. *)
Definition str (n : Z) : string := NilZero.string_of_int (Z.to_int n).

(** [f"{n:+d}"]: the sign is always written. *)
Definition str_sinal (n : Z) : string :=
  if 0 <=? n then "+" ++ str n else str n.

(** [c.isspace()] for one code point. *)
Definition isspace (c : string) : bool := Unicode.isspace (Unicode.ord c).

(** The text made of the given code points. *)
Definition de_codigos (l : list N) : string := String.concat "" (map Unicode.chr l).

(** Lower case and title case of one code point, the capital sigma set
    apart. *)
Definition minuscula (c : string) : string :=
  match Unicode.minuscula (Unicode.ord c) with
  | Some l => de_codigos l
  | None => c
  end.

Definition titulo (c : string) : string :=
  match Unicode.titulo (Unicode.ord c) with
  | Some l => de_codigos l
  | None => c
  end.

Fixpoint salta_ignoraveis (cs : list string) : list string :=
  match cs with
  | c :: r => if Unicode.ignoravel (Unicode.ord c) then salta_ignoraveis r else cs
  | [] => []
  end.

(** [handle_capital_sigma]: a capital sigma is in final position when a
    cased letter precedes it and none follows, case-ignorable characters
    being skipped on both sides.  [antes] is the text before the sigma,
    nearest character first, [depois] the text after it. *)
Definition sigma_final (antes depois : list string) : bool :=
  match salta_ignoraveis antes with
  | c :: _ =>
      Unicode.cased (Unicode.ord c)
      && match salta_ignoraveis depois with
         | d :: _ => negb (Unicode.cased (Unicode.ord d))
         | [] => true
         end
  | [] => false
  end.

(** [lower_ucs4] along the text. *)
Fixpoint lower_desde (antes cs : list string) : list string :=
  match cs with
  | [] => []
  | c :: r =>
      (if (Unicode.ord c =? 0x3A3)%N
       then Unicode.chr (if sigma_final antes r then 0x3C2 else 0x3C3)%N
       else minuscula c)
      :: lower_desde (c :: antes) r
  end.

(** [s.lower()] *)
Definition lower (s : string) : string :=
  String.concat "" (lower_desde [] (codepoints s)).

(** [s.capitalize()]: the first character in title case, the rest in
    lower case. *)
Definition capitalize (s : string) : string :=
  match codepoints s with
  | [] => ""
  | c :: r => String.concat "" (titulo c :: lower_desde [c] r)
  end.

(** The characters of C's [isspace], which is what [int] skips. *)
Definition espaco_c (c : string) : bool :=
  match c with
  | String a EmptyString =>
      let n := N_of_ascii a in ((9 <=? n)%N && (n <=? 13)%N) || (n =? 32)%N
  | _ => false
  end.

Fixpoint lstrip_se (branco : string -> bool) (cs : list string) : list string :=
  match cs with
  | c :: r => if branco c then lstrip_se branco r else cs
  | [] => []
  end.

Fixpoint rstrip_se (branco : string -> bool) (cs : list string) : list string :=
  match cs with
  | [] => []
  | c :: r =>
      match rstrip_se branco r with
      | [] => if branco c then [] else [c]
      | r' => c :: r'
      end
  end.

(** [s.strip()] *)
Definition strip (s : string) : string :=
  String.concat "" (rstrip_se isspace (lstrip_se isspace (codepoints s))).

(** [s * n] *)
Fixpoint repetir (s : string) (n : nat) : string :=
  match n with
  | O => ""
  | S k => s ++ repetir s k
  end.

(** [s.center(largura)] padded with spaces: CPython puts
    [pad/2 + (pad & largura & 1)] spaces on the left. *)
Definition center (s : string) (largura : nat) : string :=
  let n := len s in
  if (largura <=? n)%nat then s
  else
    let pad := (largura - n)%nat in
    let esq := (pad / 2 + (if Nat.odd pad && Nat.odd largura then 1 else 0))%nat in
    repetir " " esq ++ s ++ repetir " " (pad - esq).

End PyStr.

(** ** Python [dict] with [str] keys and [int] values

    A [dict] keeps its keys in insertion order, and the epilogue lists the
    attributes in that order, so the dictionary is an association list.
    Assigning to a present key keeps its position; assigning to an absent
    key appends it. *)

Definition dict := list (string * Z).

Fixpoint dict_get (d : dict) (k : string) : option Z :=
  match d with
  | [] => None
  | (k', v) :: r => if String.eqb k' k then Some v else dict_get r k
  end.

(** [d.get(k, padrao)] *)
Definition dict_get_or (d : dict) (k : string) (padrao : Z) : Z :=
  match dict_get d k with
  | Some v => v
  | None => padrao
  end.

(** [d[k] = v] *)
Fixpoint dict_set (d : dict) (k : string) (v : Z) : dict :=
  match d with
  | [] => [(k, v)]
  | (k', v') :: r =>
      if String.eqb k' k then (k', v) :: r else (k', v') :: dict_set r k v
  end.

(** [d.items()] *)
Definition dict_items (d : dict) : list (string * Z) := d.

(** The keys of a [dict] are pairwise distinct. *)
Definition dict_ok (d : dict) : Prop := NoDup (map fst d).

(** [d1 == d2] on dictionaries compares the bindings, not their order. *)
Definition dict_eq (d1 d2 : dict) : Prop :=
  forall k, dict_get d1 k = dict_get d2 k.

(** ** [Escolha] *)

Record Escolha := mkEscolha {
  esc_nome : string;
  esc_descricao : string;
  esc_atributos : dict
}.

Definition Escolha_apresentar (e : Escolha) : string :=
  let atributos_texto :=
    PyStr.join ", "
      (map (fun '(chave, valor) => chave ++ ": " ++ PyStr.str_sinal valor)
           (dict_items (esc_atributos e))) in
  esc_nome e ++ " — " ++ esc_descricao e ++ " (" ++ atributos_texto ++ ")".

(** ** [Personagem] *)

Record Personagem := mkPersonagem {
  nome : string;
  mundo : Escolha;
  origem : Escolha;
  poder : Escolha;
  legado : Escolha;
  atributos : dict;
  gloria : Z;
  cicatrizes : Z
}.

(** The [default_factory] of the [atributos] field. *)
Definition atributos_iniciais : dict :=
  [("vigor", 0); ("mana", 0); ("sorte", 0); ("carisma", 0)].

(** [Personagem(nome, mundo, origem, poder, legado)] *)
Definition novo_personagem (n : string) (m o p l : Escolha) : Personagem :=
  mkPersonagem n m o p l atributos_iniciais 0 0.

Definition com_atributos (p : Personagem) (a : dict) : Personagem :=
  mkPersonagem (nome p) (mundo p) (origem p) (poder p) (legado p)
               a (gloria p) (cicatrizes p).

Definition com_gloria (p : Personagem) (g : Z) : Personagem :=
  mkPersonagem (nome p) (mundo p) (origem p) (poder p) (legado p)
               (atributos p) g (cicatrizes p).

Definition com_cicatrizes (p : Personagem) (c : Z) : Personagem :=
  mkPersonagem (nome p) (mundo p) (origem p) (poder p) (legado p)
               (atributos p) (gloria p) c.

(** The inner loop of [aplicar_escolhas]: one option's deltas. *)
Definition somar_itens (a : dict) (itens : list (string * Z)) : dict :=
  fold_left
    (fun acc '(chave, valor) => dict_set acc chave (dict_get_or acc chave 0 + valor))
    itens a.

(** The outer loop of [aplicar_escolhas] over a sequence of options. *)
Definition somar_escolhas (a : dict) (es : list Escolha) : dict :=
  fold_left (fun acc e => somar_itens acc (dict_items (esc_atributos e))) es a.

Definition aplicar_escolhas (p : Personagem) : Personagem :=
  com_atributos p
    (somar_escolhas (atributos p) [mundo p; origem p; poder p; legado p]).

(** ** Control characters used by the module's literals *)

Definition nl : string := String (ascii_of_nat 10) EmptyString.

(** ** [textwrap.fill] and [wrap]

    [wrap] hands the text to the standard library's [textwrap.fill] with
    [width=88] and every other option at its default ([expand_tabs],
    [replace_whitespace], [drop_whitespace], [break_long_words]).  The
    model works on code points and follows [TextWrapper._munge_whitespace],
    [_split], [_handle_long_word] and [_wrap_chunks].  The regular
    expression that cuts the chunks knows the six characters of
    [textwrap._whitespace] as white space and takes its word characters
    from Unicode; dropping a chunk at a line end is decided by
    [str.strip], hence by Unicode white space. *)

Module TextWrap.

Local Open Scope list_scope.

Definition chunk := list string.

Definition tab : string := String (ascii_of_nat 9) EmptyString.
Definition cr : string := String (ascii_of_nat 13) EmptyString.

(** Membership in [textwrap._whitespace], i.e. ['\t\n\x0b\x0c\r '] *)
Definition branco (c : string) : bool :=
  match c with
  | String a EmptyString =>
      let n := N_of_ascii a in ((9 <=? n)%N && (n <=? 13)%N) || (n =? 32)%N
  | _ => false
  end.

(** [text.expandtabs(8)], [col] being the current column. *)
Fixpoint expandtabs (cs : list string) (col : nat) : list string :=
  match cs with
  | [] => []
  | c :: r =>
      if String.eqb c tab then
        let incr := (8 - col mod 8)%nat in
        repeat " " incr ++ expandtabs r (col + incr)
      else if String.eqb c nl || String.eqb c cr then c :: expandtabs r 0
      else c :: expandtabs r (S col)
  end.

(** [_munge_whitespace] *)
Definition munge_whitespace (cs : list string) : list string :=
  map (fun c => if branco c then " " else c) (expandtabs cs 0).

(** The character classes of [wordsep_re].  [palavra] is [\w], [letra]
    is [[^\d\W]] and [pontuada] is [word_punct]. *)
Definition palavra (c : string) : bool :=
  Unicode.isalnum (Unicode.ord c) || String.eqb c "_".

Definition digito (c : string) : bool :=
  match Unicode.decimal (Unicode.ord c) with
  | Some _ => true
  | None => false
  end.

Definition letra (c : string) : bool := palavra c && negb (digito c).

Definition pontuada (c : string) : bool :=
  palavra c
  || existsb (String.eqb c) ["!"; String (ascii_of_nat 34) EmptyString; "'"; "&"; "."; ","; "?"].

Definition hifen (c : string) : bool := String.eqb c "-".

(** [cs] starts with [n] or more hyphens, all of them followed by a
    character of class [classe]. *)
Fixpoint hifens_e (classe : string -> bool) (n : nat) (cs : list string) : bool :=
  match cs with
  | c :: r =>
      if hifen c then hifens_e classe (Nat.pred n) r
      else Nat.eqb n 0 && classe c
  | [] => false
  end.

(** Whether [wordsep_re] ends a chunk between [antes] (the text before,
    nearest character first) and [depois] (the text after). *)
Definition fronteira (antes depois : list string) : bool :=
  match antes, depois with
  | a1 :: antes', c0 :: depois' =>
      (* white space against anything else *)
      negb (Bool.eqb (branco a1) (branco c0))
      (* after the hyphen of a hyphenated word *)
      || (hifen a1
          && match antes' with
             | a2 :: a3 :: a4 :: _ =>
                 letra a2 && (letra a3 || (hifen a3 && letra a4))
             | a2 :: a3 :: [] => letra a2 && letra a3
             | _ => false
             end
          && letra c0
          && match depois' with
             | c1 :: c2 :: _ => letra c1 || (hifen c1 && letra c2)
             | c1 :: [] => letra c1
             | [] => false
             end)
      (* before an em-dash between words *)
      || (pontuada a1 && hifens_e palavra 2 depois)
      (* after an em-dash between words *)
      || (palavra c0 && hifens_e pontuada 2 antes)
  | _, _ => false
  end.

Fixpoint split_desde (antes : list string) (atual : chunk) (cs : list string)
  : list chunk :=
  match cs with
  | [] => match atual with [] => [] | _ => [atual] end
  | c :: r =>
      if fronteira antes cs
      then atual :: split_desde (c :: antes) [c] r
      else split_desde (c :: antes) (atual ++ [c]) r
  end.

(** [_split] with [break_on_hyphens]: the non-empty pieces of
    [wordsep_re.split(text)]. *)
Definition split (cs : list string) : list chunk := split_desde [] [] cs.

(** [chunk.strip() == ''] *)
Definition vazio_ou_branco (c : chunk) : bool := forallb PyStr.isspace c.

(** The inner [while chunks] loop of [_wrap_chunks]: move chunks onto the
    current line as long as they fit. *)
Fixpoint encher (chunks : list chunk) (cur_line : list chunk) (cur_len width : nat)
  : list chunk * nat * list chunk :=
  match chunks with
  | [] => (cur_line, cur_len, [])
  | c :: r =>
      if (cur_len + List.length c <=? width)%nat
      then encher r (cur_line ++ [c]) (cur_len + List.length c)%nat width
      else (cur_line, cur_len, chunks)
  end.

(** [chunk.rfind('-', 0, fim)]: index of the last hyphen among the first
    [fim] characters. *)
Fixpoint rfind_hifen (c : chunk) (i fim : nat) : option nat :=
  match c with
  | [] => None
  | s :: r =>
      if (fim <=? i)%nat then None
      else match rfind_hifen r (S i) fim with
           | Some j => Some j
           | None => if String.eqb s "-" then Some i else None
           end
  end.

(** [_handle_long_word] with [break_long_words] and [break_on_hyphens]:
    returns the piece put on the line and the rest of the chunk. *)
Definition handle_long_word (c : chunk) (cur_len width : nat) : chunk * chunk :=
  let space_left := (width - cur_len)%nat in
  let fim :=
    if (space_left <? List.length c)%nat then
      match rfind_hifen c 0 space_left with
      | Some hyphen =>
          if (0 <? hyphen)%nat
             && existsb (fun s => negb (String.eqb s "-")) (firstn hyphen c)
          then S hyphen else space_left
      | None => space_left
      end
    else space_left in
  (firstn fim c, skipn fim c).

Definition sem_branco_final (cur_line : list chunk) : list chunk :=
  match rev cur_line with
  | u :: antes => if vazio_ou_branco u then rev antes else cur_line
  | [] => cur_line
  end.

(** One round of the outer [while chunks] loop of [_wrap_chunks], entered
    with the chunks [c0 :: r0] still to place: the chunks left and the
    lines after the round. *)
Definition rodada (width : nat) (c0 : chunk) (r0 : list chunk) (lines : list string)
  : list chunk * list string :=
  let chunks := c0 :: r0 in
  let chunks1 :=
    if vazio_ou_branco c0 && negb (Nat.eqb (List.length lines) 0)
    then r0 else chunks in
  let '(cur_line, cur_len, chunks2) := encher chunks1 [] 0%nat width in
  let '(cur_line2, chunks3) :=
    match chunks2 with
    | c :: r =>
        if (width <? List.length c)%nat then
          let '(cabe, sobra) := handle_long_word c cur_len width in
          (cur_line ++ [cabe], sobra :: r)
        else (cur_line, chunks2)
    | [] => (cur_line, chunks2)
    end in
  let cur_line3 := sem_branco_final cur_line2 in
  let lines' :=
    match cur_line3 with
    | [] => lines
    | _ => lines ++ [String.concat "" (List.concat cur_line3)]
    end in
  (chunks3, lines').

(** The outer loop.  Every round takes at least one character off the
    chunks ([rodada_avanca] below), so the number of characters plus one
    is enough fuel. *)
Fixpoint wrap_chunks (fuel : nat) (width : nat) (chunks : list chunk)
                     (lines : list string) : list string :=
  match fuel, chunks with
  | O, _ => lines
  | _, [] => lines
  | S f, c0 :: r0 =>
      let '(chunks3, lines') := rodada width c0 r0 lines in
      wrap_chunks f width chunks3 lines'
  end.

(** [textwrap.fill(text, width)] *)
Definition fill (text : string) (width : nat) : string :=
  let cs := munge_whitespace (PyStr.codepoints text) in
  PyStr.join nl (wrap_chunks (S (List.length cs)) width (split cs) []).

End TextWrap.

Definition wrap (text : string) : string := TextWrap.fill text 88.

(** ** Console and random source

    The module reads lines from standard input, writes to standard output
    and draws from [random].  [Ambiente] holds the lines still to be read,
    everything written so far, and the entropy behind [random]: its [n]-th
    draw is computed from [acaso n].  Standard input is the sequence of
    lines of text it delivers, and an exhausted input makes [input] raise
    [EOFError]; a stream that cannot be decoded and a signal that
    interrupts the program are outside the model. *)

Inductive Excecao := EOFError | IndexError.

Record Ambiente := mkAmbiente {
  entrada : list string;
  saida : list string;
  acaso : nat -> N;
  tiragens : nat
}.

Inductive Resultado (A : Type) :=
| Retorna (a : A) (amb : Ambiente)
| Levanta (e : Excecao) (amb : Ambiente).
Arguments Retorna {A} a amb.
Arguments Levanta {A} e amb.

Definition IO (A : Type) := Ambiente -> Resultado A.

Definition ret {A} (a : A) : IO A := fun amb => Retorna a amb.

Definition bind {A B} (c : IO A) (k : A -> IO B) : IO B :=
  fun amb =>
    match c amb with
    | Retorna a amb' => k a amb'
    | Levanta e amb' => Levanta e amb'
    end.

Definition raise {A} (e : Excecao) : IO A := fun amb => Levanta e amb.

Declare Scope io_scope.
Delimit Scope io_scope with io.
Notation "x <- c ;; k" := (bind c (fun x => k))
  (at level 61, c at next level, right associativity) : io_scope.
Notation "' pat <- c ;; k" := (bind c (fun x => match x with pat => k end))
  (at level 61, pat pattern, c at next level, right associativity) : io_scope.
Notation "c ;;; k" := (bind c (fun _ => k))
  (at level 61, right associativity) : io_scope.
Local Open Scope io_scope.

(** [sys.stdout.write(s)] *)
Definition escrever (s : string) (amb : Ambiente) : Ambiente :=
  mkAmbiente (entrada amb) (saida amb ++ [s])%list (acaso amb) (tiragens amb).

Definition com_entrada (amb : Ambiente) (linhas : list string) : Ambiente :=
  mkAmbiente linhas (saida amb) (acaso amb) (tiragens amb).

(** [print(s)] *)
Definition print (s : string) : IO unit :=
  fun amb => Retorna tt (escrever (s ++ nl) amb).

(** [input(prompt)] *)
Definition input (prompt : string) : IO string :=
  fun amb =>
    let amb' := escrever prompt amb in
    match entrada amb with
    | [] => Levanta EOFError amb'
    | linha :: resto => Retorna linha (com_entrada amb' resto)
    end.

(** [random.randint(a, b)]: an integer of [[a, b]], any of them possible
    ([sorteio_intervalo] and [sorteio_qualquer] below). *)
Definition sorteio (a b : Z) (amb : Ambiente) : Z :=
  a + Z.of_N (acaso amb (tiragens amb)) mod (b - a + 1).

Definition tirar (amb : Ambiente) : Ambiente :=
  mkAmbiente (entrada amb) (saida amb) (acaso amb) (S (tiragens amb)).

Definition randint (a b : Z) : IO Z :=
  fun amb => Retorna (sorteio a b amb) (tirar amb).

(** [lista[i]] with Python's negative indices and [IndexError]. *)
Definition py_index {A} (lista : list A) (i : Z) : IO A :=
  let n := Z.of_nat (List.length lista) in
  let j := if i <? 0 then i + n else i in
  if (0 <=? j) && (j <? n) then
    match nth_error lista (Z.to_nat j) with
    | Some x => ret x
    | None => raise IndexError
    end
  else raise IndexError.

(** ** [int(s)] on a [str]

    [int] first turns every decimal digit of Unicode into its ASCII digit
    and every white space outside ASCII into a space; any other character
    outside ASCII makes the text invalid.  Then white space around the
    number is ignored (the white space of C, so not the separators
    [\x1c] to [\x1f]), a sign may precede the digits, and single
    underscores may separate digits; more than 4300 digits are refused
    (CPython's default limit).  [None] stands for [ValueError]. *)

Definition valor_digito (c : ascii) : option Z :=
  let n := N_of_ascii c in
  if (48 <=? n)%N && (n <=? 57)%N then Some (Z.of_N n - 48) else None.

Fixpoint ler_digitos (s : string) (acc : Z) (apos_digito : bool) : option Z :=
  match s with
  | EmptyString => if apos_digito then Some acc else None
  | String c r =>
      match valor_digito c with
      | Some d => ler_digitos r (10 * acc + d) true
      | None =>
          if Ascii.eqb c "_" && apos_digito then ler_digitos r acc false
          else None
      end
  end.

Fixpoint contar_digitos (s : string) : nat :=
  match s with
  | EmptyString => O
  | String c r =>
      match valor_digito c with
      | Some _ => S (contar_digitos r)
      | None => contar_digitos r
      end
  end.

Definition ler_numero (s : string) : option Z :=
  if (4300 <? contar_digitos s)%nat then None else ler_digitos s 0 false.

(** [_PyUnicode_TransformDecimalAndSpaceToASCII] on one code point. *)
Definition para_ascii (c : string) : string :=
  let n := Unicode.ord c in
  if (n <? 127)%N then c
  else if Unicode.isspace n then " "
  else match Unicode.decimal n with
       | Some d => String (ascii_of_N (48 + d)) EmptyString
       | None => "?"
       end.

Definition py_int (s : string) : option Z :=
  let cs := map para_ascii (PyStr.codepoints s) in
  match String.concat ""
          (PyStr.rstrip_se PyStr.espaco_c (PyStr.lstrip_se PyStr.espaco_c cs)) with
  | String "+" r => ler_numero r
  | String "-" r => option_map Z.opp (ler_numero r)
  | t => ler_numero t
  end.

(** ** [Personagem.epilogo] *)

Definition destino_lenda : string :=
  "Você se torna uma lenda viva, venerado em canções e invocado"
  ++ " como patrono de heróis por gerações.".

Definition destino_memoria : string :=
  "Sua jornada foi marcada por vitórias e amizades sinceras;"
  ++ " seu nome permanece em memória nas guildas locais.".

Definition destino_equilibrio : string :=
  "Você encontra um equilíbrio delicado entre desafios e glórias,"
  ++ " levando uma vida tranquila mas cheia de histórias para contar.".

Definition destino_resistencia : string :=
  "As cicatrizes acumuladas cobram seu preço. Ainda assim,"
  ++ " você segue firme, provando que coragem também é resistir.".

(** The [if]/[elif] chain that sets [destino]. *)
Definition epilogo_destino (p : Personagem) : string :=
  let diferenca := gloria p - cicatrizes p in
  if 3 <=? diferenca then destino_lenda
  else if 1 <=? diferenca then destino_memoria
  else if diferenca =? 0 then destino_equilibrio
  else destino_resistencia.

(** One entry of the attribute listing: [f"{chave.capitalize()}: {valor}"] *)
Definition entrada_resumo (chave : string) (valor : Z) : string :=
  PyStr.capitalize chave ++ ": " ++ PyStr.str valor.

Definition resumo_atributos (p : Personagem) : string :=
  PyStr.join ", "
    (map (fun '(chave, valor) => entrada_resumo chave valor)
         (dict_items (atributos p))).

(** The f-string handed to [wrap], with the two local variables it
    interpolates. *)
Definition epilogo_fstring (p : Personagem) (destino resumo : string) : string :=
  "No fim da aventura, " ++ nome p ++ " registra " ++ PyStr.str (gloria p)
  ++ " feitos gloriosos" ++ " e " ++ PyStr.str (cicatrizes p)
  ++ " cicatrizes memoráveis. " ++ destino ++ " A síntese do seu"
  ++ " potencial: " ++ resumo ++ ".".

Definition epilogo (p : Personagem) : string :=
  wrap (epilogo_fstring p (epilogo_destino p) (resumo_atributos p)).

(** ** [solicitar_indice] and [solicitar_nome]

    Both are [while True] loops around [input].  Every round reads one
    line, so the loops are written by recursion on the lines still to be
    read; [solicitar_indice_eq] and [solicitar_nome_eq] below give them
    back in the shape of the Python loop body. *)

Definition pedido_indice : string := nl ++ "Escolha uma opção: ".
Definition aviso_numero : string := "Digite o número da opção desejada.".
Definition aviso_invalida : string := "Opção inválida, tente novamente.".

Fixpoint solicitar_indice_laco (total : Z) (linhas : list string) (amb : Ambiente)
  : Resultado Z :=
  match linhas with
  | [] => Levanta EOFError (escrever pedido_indice amb)
  | linha :: resto =>
      let amb1 := com_entrada (escrever pedido_indice amb) resto in
      match py_int linha with
      | None =>
          solicitar_indice_laco total resto (escrever (aviso_numero ++ nl) amb1)
      | Some n =>
          let escolha := n - 1 in
          if (0 <=? escolha) && (escolha <? total) then Retorna escolha amb1
          else solicitar_indice_laco total resto (escrever (aviso_invalida ++ nl) amb1)
      end
  end.

Definition solicitar_indice (total : Z) : IO Z :=
  fun amb => solicitar_indice_laco total (entrada amb) amb.

Definition pedido_nome : string := "Como você se chama no mundo original? ".
Definition aviso_nome : string :=
  "Um herói precisa de um nome, nem que seja emprestado!".

Fixpoint solicitar_nome_laco (linhas : list string) (amb : Ambiente)
  : Resultado string :=
  match linhas with
  | [] => Levanta EOFError (escrever pedido_nome amb)
  | linha :: resto =>
      let amb1 := com_entrada (escrever pedido_nome amb) resto in
      let nome := PyStr.strip linha in
      match nome with
      | EmptyString => solicitar_nome_laco resto (escrever (aviso_nome ++ nl) amb1)
      | _ => Retorna nome amb1
      end
  end.

Definition solicitar_nome : IO string :=
  fun amb => solicitar_nome_laco (entrada amb) amb.

(** [enumerate(l, start=inicio)] *)
Fixpoint enumerate {A} (l : list A) (inicio : Z) : list (Z * A) :=
  match l with
  | [] => []
  | x :: r => (inicio, x) :: enumerate r (inicio + 1)
  end.

(** [for x in l: corpo(x)] for a body that returns nothing. *)
Fixpoint para_cada {A} (l : list A) (corpo : A -> IO unit) : IO unit :=
  match l with
  | [] => ret tt
  | x :: r => corpo x ;;; para_cada r corpo
  end.

Definition apresentar_opcoes (titulo : string) (opcoes : list Escolha) : IO Escolha :=
  print (nl ++ "--- " ++ titulo ++ " ---") ;;;
  para_cada (enumerate opcoes 1)
    (fun '(indice, opcao) =>
       print ("  " ++ PyStr.str indice ++ ". " ++ Escolha_apresentar opcao)) ;;;
  indice <- solicitar_indice (Z.of_nat (List.length opcoes)) ;;
  py_index opcoes indice.

(** ** [Evento] *)

Record Evento := mkEvento {
  titulo : string;
  descricao : string;
  escolhas : list (string * string * string)
}.

Definition Evento_apresentar (ev : Evento) : string :=
  let cabecalho := nl ++ "=== " ++ titulo ev ++ " ===" ++ nl ++ wrap (descricao ev) ++ nl in
  let opcoes :=
    map (fun '(indice, (identificador, texto, _resultado)) =>
           "  " ++ PyStr.str indice ++ ". " ++ texto ++ " [" ++ identificador ++ "]")
        (enumerate (escolhas ev) 1) in
  cabecalho ++ PyStr.join nl opcoes.

Definition texto_gloria (bonus : Z) : string :=
  "O mundo sorri para você. Seus aliados celebram, e o deus Gem"
  ++ " concede uma bênção adicional de " ++ PyStr.str bonus ++ " pontos de inspiração.".

Definition texto_cicatriz (penalidade : Z) : string :=
  "O desafio cobra seu preço; uma nova cicatriz surge, mas também"
  ++ " deixa lições que reforçam sua determinação (" ++ PyStr.str_sinal penalidade ++ ").".

Definition texto_mistico (retorno : Z) : string :=
  "Seu poder místico pulsa intensamente, revelando segredos antigos."
  ++ " Você acumula " ++ PyStr.str retorno ++ " ecos arcanos e aperfeiçoa sua mana.".

Definition texto_neutro : string :=
  "As engrenagens do destino giram silenciosamente dessa vez.".

(** [Evento._narrativa]: the text, and the character as the call leaves it. *)
Definition _narrativa (resultado : string) (personagem : Personagem)
  : IO (string * Personagem) :=
  let sorte := dict_get_or (atributos personagem) "sorte" 0 in
  let mana := dict_get_or (atributos personagem) "mana" 0 in
  let carisma := dict_get_or (atributos personagem) "carisma" 0 in
  let vigor := dict_get_or (atributos personagem) "vigor" 0 in
  if String.eqb resultado "gloria" then
    r <- randint 0 2 ;;
    let bonus := r + Z.max sorte carisma / 2 in
    ret (texto_gloria bonus, personagem)
  else if String.eqb resultado "cicatriz" then
    r <- randint 0 2 ;;
    let penalidade := r - Z.min vigor sorte / 3 in
    ret (texto_cicatriz penalidade, personagem)
  else if String.eqb resultado "mistico" then
    r <- randint 1 6 ;;
    let retorno := r + mana in
    let personagem' :=
      com_atributos personagem
        (dict_set (atributos personagem) "mana"
                  (dict_get_or (atributos personagem) "mana" 0 + 1)) in
    ret (texto_mistico retorno, personagem')
  else ret (texto_neutro, personagem).

(** [Evento.resolver] *)
Definition resolver (ev : Evento) (personagem : Personagem)
  : IO (string * string * Personagem) :=
  indice <- solicitar_indice (Z.of_nat (List.length (escolhas ev))) ;;
  '(identificador, texto, resultado) <- py_index (escolhas ev) indice ;;
  '(narrativa, personagem') <- _narrativa resultado personagem ;;
  ret (resultado,
       wrap ("Você opta por " ++ PyStr.lower texto ++ ". " ++ narrativa),
       personagem').

(** [Personagem.resolver_evento] *)
Definition resolver_evento (personagem : Personagem) (ev : Evento)
  : IO (string * Personagem) :=
  '(resultado, descricao, p1) <- resolver ev personagem ;;
  let p2 :=
    if String.eqb resultado "gloria" then com_gloria p1 (gloria p1 + 1)
    else if String.eqb resultado "cicatriz" then com_cicatrizes p1 (cicatrizes p1 + 1)
    else p1 in
  ret (descricao, p2).

(** ** The catalogues *)

Definition MUNDOS : list Escolha := [
  mkEscolha "Reino de Aerilon"
    "Um mundo onde cidades flutuam e a magia alimenta as rotas comerciais."
    [("mana", 2); ("carisma", 1)];
  mkEscolha "Império Ferromar"
    "Terras forjadas pelo aço e pelo vapor, onde a disciplina fala mais alto."
    [("vigor", 2)];
  mkEscolha "Arquipélago de Lúmen"
    "Ilhas misteriosas protegidas por espíritos ancestrais."
    [("sorte", 2); ("mana", 1)]
].

Definition ORIGENS : list Escolha := [
  mkEscolha "Filho de um Artífice"
    "Você renasce em uma família que domina a tecnologia arcana."
    [("mana", 1); ("vigor", 1)];
  mkEscolha "Herdeiro de Guilda"
    "Uma guilda influente o adota como protegido especial do deus Gem."
    [("carisma", 2)];
  mkEscolha "Caçador Errante"
    "Você desperta em uma caravana que atravessa territórios selvagens."
    [("vigor", 1); ("sorte", 1)]
].

Definition PODERES : list Escolha := [
  mkEscolha "Forja Estelar"
    "Capaz de invocar armas moldadas com energia celeste."
    [("vigor", 1); ("mana", 2)];
  mkEscolha "Eco do Tempo"
    "Permite antecipar possibilidades futuras e evitá-las ou provocá-las."
    [("sorte", 2)];
  mkEscolha "Lira do Coração"
    "Música encantada que inspira aliados e confunde inimigos."
    [("carisma", 2); ("mana", 1)]
].

Definition LEGADOS : list Escolha := [
  mkEscolha "Guardião Celeste"
    "Você carrega uma promessa de proteger os indefesos em nome de Gem."
    [("carisma", 1); ("vigor", 1)];
  mkEscolha "Sábio Errante"
    "O desejo insaciável por conhecimento o guia por bibliotecas vivas."
    [("mana", 1); ("sorte", 1)];
  mkEscolha "Desafiante do Destino"
    "Você promete confrontar as engrenagens do mundo e vencê-las."
    [("vigor", 1); ("sorte", 1)]
].

Definition EVENTOS : list Evento := [
  mkEvento "Festival da Reencarnação"
    "O povo celebra sua chegada e o deus Gem oferece um desafio surpresa."
    [("gloria", "Exibir sua Forja Estelar em um duelo amistoso", "gloria");
     ("caridade", "Distribuir bênçãos nas feiras com a Lira do Coração", "mistico");
     ("humildade", "Ajudar discretamente nas barracas comunitárias", "cicatriz")];
  mkEvento "Biblioteca Serpentina"
    "Um labirinto de pergaminhos vivos promete segredos antigos."
    [("estudo", "Mergulhar nos manuscritos brilhantes", "mistico");
     ("atalho", "Seguir um espírito guia até uma sala proibida", "gloria");
     ("retirada", "Recuar ao sentir uma presença hostil", "cicatriz")];
  mkEvento "Provação do Crepúsculo"
    "Um titã elemental desperta ameaçando o povoado que o acolheu."
    [("combate", "Atacar o titã de frente com coragem", "gloria");
     ("estrategia", "Coordenar uma retirada ordenada", "cicatriz");
     ("selo", "Canalizar mana para selar a criatura", "mistico")]
].

Definition INTRODUCAO : string :=
  wrap ("Um acidente improvável interrompe sua vida no mundo original. No vazio"
        ++ " entre realidades, você encontra Gem, o deus que gerencia reencarnações."
        ++ " Ele sorri e oferece uma nova chance de viver em um reino fantástico.").

Definition SAUDACAO_DEUS : string :=
  wrap ("Saudações, viajante perdido. Eu sou Gem, o tecelão de destinos."
        ++ " Escolha sabiamente onde renascer, quais poderes dominar e que legado"
        ++ " pretende construir. Cada decisão moldará a história que iremos contar.").

(** ** The run *)

Definition introducao : IO unit :=
  print (PyStr.repetir "=" 88) ;;;
  print (PyStr.center "BEM-VINDO AO SIMULADOR DE ISEKAI DE GEM" 88) ;;;
  print (PyStr.repetir "=" 88) ;;;
  print INTRODUCAO ;;;
  print "" ;;;
  print SAUDACAO_DEUS.

Definition preparar_personagem : IO Personagem :=
  nome <- solicitar_nome ;;
  mundo <- apresentar_opcoes "Escolha seu novo mundo" MUNDOS ;;
  origem <- apresentar_opcoes "Qual será sua nova origem?" ORIGENS ;;
  poder <- apresentar_opcoes "Qual bênção deseja receber?" PODERES ;;
  legado <- apresentar_opcoes "Qual legado pretende construir?" LEGADOS ;;
  let personagem := novo_personagem nome mundo origem poder legado in
  ret (aplicar_escolhas personagem).

(** The [for evento in EVENTOS] loop of [simular_aventura]. *)
Fixpoint percorrer_eventos (eventos : list Evento) (personagem : Personagem)
  : IO Personagem :=
  match eventos with
  | [] => ret personagem
  | evento :: resto =>
      print (Evento_apresentar evento) ;;;
      '(narrativa, personagem') <- resolver_evento personagem evento ;;
      print narrativa ;;;
      percorrer_eventos resto personagem'
  end.

(** [simular_aventura]; the character is returned as the run leaves it.
    [random.seed()] re-seeds from the system, which the arbitrary [acaso]
    of the environment already accounts for. *)
Definition simular_aventura (personagem : Personagem) : IO Personagem :=
  print (nl ++ "Gem ergue o cetro prateado e os fios do destino começam a brilhar...") ;;;
  final <- percorrer_eventos EVENTOS personagem ;;
  print (nl ++ epilogo final) ;;;
  ret final.

Definition jogar : IO Personagem :=
  introducao ;;;
  personagem <- preparar_personagem ;;
  final <- simular_aventura personagem ;;
  print (nl ++ "Obrigado por compartilhar sua jornada com Gem. Até a próxima reencarnação!") ;;;
  ret final.

(** * Vocabulary of the properties

    Predicates and sample data the statements below are written with. *)

(** ** Aggregation *)

(** The delta an option gives to a key, a missing one counting as 0. *)
Definition delta (e : Escolha) (k : string) : Z :=
  dict_get_or (esc_atributos e) k 0.

Definition soma_deltas (es : list Escolha) (k : string) : Z :=
  fold_right Z.add 0 (map (fun e => delta e k) es).

(** [k in d] *)
Definition tem_chave (d : dict) (k : string) : bool :=
  match dict_get d k with Some _ => true | None => false end.

Definition alguma_tem (es : list Escolha) (k : string) : bool :=
  existsb (fun e => tem_chave (esc_atributos e) k) es.

(** Every option carries a well-formed dictionary. *)
Definition escolhas_ok (es : list Escolha) : Prop :=
  Forall (fun e => dict_ok (esc_atributos e)) es.

(** ** Console *)

(** [amb'] differs from [amb] by what was written only. *)
Definition so_escreve (amb amb' : Ambiente) : Prop :=
  entrada amb' = entrada amb /\ acaso amb' = acaso amb
  /\ tiragens amb' = tiragens amb.

(** The environment after a rejected line: the prompt and the corrective
    message have been written, the line is consumed, nothing else moved. *)
Definition reperguntar (aviso : string) (resto : list string) (amb : Ambiente) : Ambiente :=
  mkAmbiente resto (saida amb ++ [pedido_indice; (aviso ++ nl)%string])%list
             (acaso amb) (tiragens amb).


(** ** Invariant of a run *)

Definition valores_nao_negativos (d : dict) : Prop :=
  forall k v, In (k, v) (dict_items d) -> 0 <= v.

Definition nao_negativo (p : Personagem) : Prop :=
  valores_nao_negativos (atributos p) /\ 0 <= gloria p /\ 0 <= cicatrizes p.

(** The characters a run can go through: the one created from four options
    of the catalogues, and whatever a resolved event turns a reachable
    character into. *)
Inductive alcancavel : Personagem -> Prop :=
| alc_criacao (n : string) (m o pd l : Escolha) :
    In m MUNDOS -> In o ORIGENS -> In pd PODERES -> In l LEGADOS ->
    alcancavel (aplicar_escolhas (novo_personagem n m o pd l))
| alc_evento (p : Personagem) (ev : Evento) (amb : Ambiente)
             (d : string) (p' : Personagem) (amb' : Ambiente) :
    alcancavel p ->
    resolver_evento p ev amb = Retorna (d, p') amb' ->
    alcancavel p'.

(** ** Text up to white space *)

(** The text that a list of code points spells. *)
Definition texto (cs : list string) : string := fold_right String.append "" cs.

(** The code points that are not white space ([str.isspace]). *)
Definition visiveis (cs : list string) : list string :=
  filter (fun c => negb (PyStr.isspace c)) cs.

(** The text without its white space. *)
Definition sem_espacos (s : string) : string := texto (visiveis (PyStr.codepoints s)).

(** No chunk is empty. *)
Definition cheios (chunks : list TextWrap.chunk) : Prop :=
  Forall (fun c => c <> []) chunks.

(** ** Sample data *)

(** A character with given counters and no option. *)
Definition personagem_exemplo (g c : Z) : Personagem :=
  mkPersonagem "Ana" (mkEscolha "" "" []) (mkEscolha "" "" [])
               (mkEscolha "" "" []) (mkEscolha "" "" [])
               atributos_iniciais g c.

(** [MUNDOS[0]], [ORIGENS[2]], [PODERES[2]] and [LEGADOS[1]] *)
Definition aerilon : Escolha := nth 0 MUNDOS (mkEscolha "" "" []).
Definition cacador : Escolha := nth 2 ORIGENS (mkEscolha "" "" []).
Definition lira : Escolha := nth 2 PODERES (mkEscolha "" "" []).
Definition sabio : Escolha := nth 1 LEGADOS (mkEscolha "" "" []).

(** [EVENTOS[0]] *)
Definition festival : Evento := nth 0 EVENTOS (mkEvento "" "" []).

(** An environment with the given lines on standard input, nothing written
    yet, and an entropy that makes every draw the lowest of its interval. *)
Definition ambiente_exemplo (linhas : list string) : Ambiente :=
  mkAmbiente linhas [] (fun _ => 0%N) 0.

(** The character of a player who picks those four options. *)
Definition heroi : Personagem :=
  aplicar_escolhas (novo_personagem "Ana" aerilon cacador lira sabio).


(** ** Vocabulary of the further properties *)

(** A line that the index prompt accepts for a menu of [total] options. *)
Definition linha_valida (total : Z) (linha : string) : bool :=
  match py_int linha with
  | Some n => (1 <=? n) && (n <=? total)
  | None => false
  end.

(** What the index prompt writes for lines it rejects: for each of them
    the prompt and the message that answers the line. *)
Definition avisos_de (rejeitadas : list string) : list string :=
  flat_map (fun l => [pedido_indice;
                      ((match py_int l with
                        | Some _ => aviso_invalida
                        | None => aviso_numero
                        end) ++ nl)%string])
           rejeitadas.

(** A computation that lets no exception through but the [EOFError] of an
    exhausted input. *)
Definition so_EOFError {A} (c : IO A) : Prop :=
  forall amb e amb', c amb = Levanta e amb' -> e = EOFError /\ entrada amb' = [].

(** What a computation returns satisfies [Q]. *)
Definition devolve {A} (c : IO A) (Q : A -> Prop) : Prop :=
  forall amb a amb', c amb = Retorna a amb' -> Q a.

(** What resolving an option tagged [resultado] does to the character. *)
Definition efeito (resultado : string) (p : Personagem) : Personagem :=
  if String.eqb resultado "gloria" then com_gloria p (gloria p + 1)
  else if String.eqb resultado "cicatriz" then com_cicatrizes p (cicatrizes p + 1)
  else if String.eqb resultado "mistico" then
    com_atributos p
      (dict_set (atributos p) "mana" (dict_get_or (atributos p) "mana" 0 + 1))
  else p.

(** The three tags that change the character. *)
Definition marcante (resultado : string) : bool :=
  String.eqb resultado "gloria" || String.eqb resultado "cicatriz"
  || String.eqb resultado "mistico".

(** Glories, scars and mana together: every marking option adds one. *)
Definition feitos (p : Personagem) : Z :=
  gloria p + cicatrizes p + dict_get_or (atributos p) "mana" 0.

(** [d.keys()] *)
Definition dict_keys (d : dict) : list string := map fst d.

(** [s.split("\n")] *)
Fixpoint linhas_de (s : string) : list string :=
  match s with
  | EmptyString => [EmptyString]
  | String c r =>
      if Ascii.eqb c (ascii_of_nat 10) then EmptyString :: linhas_de r
      else match linhas_de r with
           | l :: ls => String c l :: ls
           | [] => [String c EmptyString]
           end
  end.

(** The bytes of a text that start a code point. *)
Fixpoint iniciais (s : string) : nat :=
  match s with
  | EmptyString => O
  | String c r => if PyStr.continuacao c then iniciais r else S (iniciais r)
  end.

(** A code point as [PyStr.codepoints] cuts them: one byte and the
    continuation bytes that follow it. *)
Definition um_codepoint (c : string) : Prop :=
  match c with
  | EmptyString => False
  | String _ r => iniciais r = O
  end.

(** The sum of the deltas that the four options recorded in the character
    give to a key. *)
Definition soma_opcoes (p : Personagem) (k : string) : Z :=
  delta (mundo p) k + delta (origem p) k + delta (poder p) k + delta (legado p) k.

(** The four attribute names, in the order of the [default_factory]. *)
Definition chaves_iniciais : list string := ["vigor"; "mana"; "sorte"; "carisma"].

(** Every option of every event carries a marking tag. *)
Definition todas_marcantes (eventos : list Evento) : Prop :=
  Forall (fun ev => Forall (fun '(_, _, resultado) => marcante resultado = true)
                           (escolhas ev)) eventos.

(** One when the text starts with a continuation byte. *)
Definition peso_inicial (s : string) : nat :=
  if PyStr.comeca_continuacao s then 1%nat else 0%nat.

(** Chunks made of code points. *)
Definition chunks_de_codepoints (chunks : list TextWrap.chunk) : Prop :=
  Forall (Forall um_codepoint) chunks.

(** A line that fits: the text of at most [width] code points. *)
Definition cabe_em (width : nat) (l : string) : Prop :=
  exists cps, l = texto cps /\ (List.length cps <= width)%nat
              /\ Forall um_codepoint cps.

(** A text whose every byte is a character of its own, and none of them
    white space. *)
Fixpoint so_visiveis (s : string) : bool :=
  match s with
  | EmptyString => true
  | String c r =>
      negb (PyStr.continuacao c) && negb (PyStr.isspace (String c EmptyString))
      && so_visiveis r
  end.

(** A code point that starts with the byte that starts its sequence. *)
Definition bom (c : string) : Prop :=
  um_codepoint c /\ PyStr.comeca_continuacao c = false.

(** A list of code points as [PyStr.codepoints] cuts a text: only the
    first may start with a continuation byte. *)
Definition bem_cortada (cs : list string) : Prop :=
  match cs with
  | [] => True
  | c :: r => um_codepoint c /\ Forall bom r
  end.

(** * Properties *)

(** ** Dictionary lemmas *)

Section DictFacts.

Lemma dict_get_set_eq (d : dict) (k : string) (v : Z) :
  dict_get (dict_set d k v) k = Some v.
Proof.
  induction d as [| [k' v'] r IH]; simpl.
  - now rewrite String.eqb_refl.
  - destruct (String.eqb k' k) eqn:E; simpl; rewrite E; auto.
Qed.

Lemma dict_get_set_neq (d : dict) (k k' : string) (v : Z) :
  k <> k' -> dict_get (dict_set d k v) k' = dict_get d k'.
Proof.
  intros Hne. induction d as [| [k0 v0] r IH]; simpl.
  - apply String.eqb_neq in Hne. now rewrite Hne.
  - destruct (String.eqb k0 k) eqn:E; simpl.
    + apply String.eqb_eq in E. subst k0.
      apply String.eqb_neq in Hne. now rewrite Hne.
    + now rewrite IH.
Qed.

Lemma dict_get_or_set_eq (d : dict) (k : string) (v padrao : Z) :
  dict_get_or (dict_set d k v) k padrao = v.
Proof. unfold dict_get_or. now rewrite dict_get_set_eq. Qed.

Lemma dict_get_or_set_neq (d : dict) (k k' : string) (v padrao : Z) :
  k <> k' -> dict_get_or (dict_set d k v) k' padrao = dict_get_or d k' padrao.
Proof. intros. unfold dict_get_or. now rewrite dict_get_set_neq. Qed.

Lemma dict_get_In (d : dict) (k : string) (v : Z) :
  dict_get d k = Some v -> In (k, v) (dict_items d).
Proof.
  induction d as [| [k' v'] r IH]; simpl; [discriminate |].
  destruct (String.eqb k' k) eqn:E.
  - apply String.eqb_eq in E. intros [= ->]. subst. now left.
  - intros H. right. now apply IH.
Qed.

Lemma dict_get_None_not_In (d : dict) (k : string) :
  ~ In k (map fst d) -> dict_get d k = None.
Proof.
  induction d as [| [k' v'] r IH]; simpl; [reflexivity |].
  intros H. destruct (String.eqb k' k) eqn:E.
  - apply String.eqb_eq in E. tauto.
  - apply IH. tauto.
Qed.

(** Every value stored after an assignment was there before or is the
    assigned one. *)
Lemma dict_set_In (d : dict) (k k' : string) (v v' : Z) :
  In (k', v') (dict_set d k v) -> In (k', v') d \/ (k' = k /\ v' = v).
Proof.
  induction d as [| [k0 v0] r IH]; simpl.
  - intros [[= <- <-] | []]. now right.
  - destruct (String.eqb k0 k) eqn:E; simpl.
    + apply String.eqb_eq in E. subst k0.
      intros [[= <- <-] | H]; [now right | left; now right].
    + intros [H | H]; [left; now left |].
      destruct (IH H) as [H' | H']; [left; now right | now right].
Qed.

(** The inner loop adds each delta of the option to the running value. *)
Lemma somar_itens_get (itens : list (string * Z)) :
  NoDup (map fst itens) ->
  forall (a : dict) (k : string),
    dict_get (somar_itens a itens) k =
    match dict_get itens k with
    | Some v => Some (dict_get_or a k 0 + v)
    | None => dict_get a k
    end.
Proof.
  unfold somar_itens.
  induction itens as [| [k0 v0] r IH]; intros Hnd a k; simpl; [reflexivity |].
  inversion Hnd as [| ? ? Hnotin Hnd']; subst.
  rewrite (IH Hnd').
  destruct (String.eqb k0 k) eqn:E.
  - apply String.eqb_eq in E. subst k0.
    rewrite (dict_get_None_not_In r k Hnotin).
    now rewrite dict_get_set_eq.
  - apply String.eqb_neq in E.
    rewrite dict_get_or_set_neq by assumption.
    now rewrite dict_get_set_neq by assumption.
Qed.

End DictFacts.

(** ** Attribute aggregation *)

Section Agregacao.

Lemma somar_escolhas_get (es : list Escolha) :
  escolhas_ok es ->
  forall (a : dict) (k : string),
    dict_get (somar_escolhas a es) k =
    if tem_chave a k || alguma_tem es k
    then Some (dict_get_or a k 0 + soma_deltas es k)
    else None.
Proof.
  unfold somar_escolhas, escolhas_ok.
  induction es as [| e r IH]; intros Hok a k; simpl.
  - unfold tem_chave, dict_get_or, soma_deltas. simpl.
    destruct (dict_get a k); simpl; [f_equal; lia | reflexivity].
  - inversion Hok as [| ? ? He Hr]; subst.
    rewrite (IH Hr). unfold dict_items.
    unfold tem_chave at 1, dict_get_or at 1.
    rewrite (somar_itens_get _ He).
    unfold soma_deltas, delta, tem_chave, dict_get_or. simpl.
    fold (soma_deltas r k).
    destruct (dict_get (esc_atributos e) k) as [v |]; simpl.
    + rewrite Bool.orb_true_r. f_equal.
      unfold delta, dict_get_or. destruct (dict_get a k); lia.
    + destruct (dict_get a k); simpl; [f_equal; lia |].
      destruct (alguma_tem r k); [f_equal; lia | reflexivity].
Qed.

Lemma soma_deltas_perm (es es' : list Escolha) (k : string) :
  Permutation es es' -> soma_deltas es k = soma_deltas es' k.
Proof.
  unfold soma_deltas.
  induction 1; simpl; lia.
Qed.

Lemma alguma_tem_perm (es es' : list Escolha) (k : string) :
  Permutation es es' -> alguma_tem es k = alguma_tem es' k.
Proof.
  unfold alguma_tem.
  induction 1; simpl.
  - reflexivity.
  - now rewrite IHPermutation.
  - now rewrite !Bool.orb_assoc, (Bool.orb_comm (tem_chave _ k)).
  - congruence.
Qed.

Lemma escolhas_ok_perm (es es' : list Escolha) :
  Permutation es es' -> escolhas_ok es -> escolhas_ok es'.
Proof. intros Hp. unfold escolhas_ok. now apply Permutation_Forall. Qed.

(** Folding the same options in another order gives an equal mapping. *)
Lemma somar_escolhas_perm (a : dict) (es es' : list Escolha) :
  escolhas_ok es -> Permutation es es' ->
  dict_eq (somar_escolhas a es) (somar_escolhas a es').
Proof.
  intros Hok Hp k.
  rewrite (somar_escolhas_get es Hok).
  rewrite (somar_escolhas_get es' (escolhas_ok_perm _ _ Hp Hok)).
  now rewrite (soma_deltas_perm _ _ k Hp), (alguma_tem_perm _ _ k Hp).
Qed.

End Agregacao.

(** ** Console facts *)

Section Console.

Lemma sorteio_intervalo (a b : Z) (amb : Ambiente) :
  a <= b -> a <= sorteio a b amb <= b.
Proof.
  intros Hab. unfold sorteio.
  pose proof (Z.mod_pos_bound (Z.of_N (acaso amb (tiragens amb))) (b - a + 1)).
  lia.
Qed.

(** Every integer of the interval is drawn for some entropy. *)
Lemma sorteio_qualquer (a b r : Z) (e s : list string) (n : nat) :
  a <= r <= b ->
  sorteio a b (mkAmbiente e s (fun _ => Z.to_N (r - a)) n) = r.
Proof.
  intros Hr. unfold sorteio. simpl.
  rewrite Z2N.id by lia. rewrite Z.mod_small by lia. lia.
Qed.

Lemma so_escreve_refl (amb : Ambiente) : so_escreve amb amb.
Proof. now repeat split. Qed.

Lemma so_escreve_trans (a b c : Ambiente) :
  so_escreve a b -> so_escreve b c -> so_escreve a c.
Proof. unfold so_escreve. intuition congruence. Qed.

Lemma print_so_escreve (s : string) (amb : Ambiente) :
  exists amb', print s amb = Retorna tt amb' /\ so_escreve amb amb'.
Proof. eexists. split; [reflexivity | now repeat split]. Qed.

Lemma para_cada_so_escreve {A} (corpo : A -> IO unit) :
  (forall x amb, exists amb', corpo x amb = Retorna tt amb' /\ so_escreve amb amb') ->
  forall l amb,
    exists amb', para_cada l corpo amb = Retorna tt amb' /\ so_escreve amb amb'.
Proof.
  intros Hc. induction l as [| x r IH]; intros amb; simpl.
  - exists amb. split; [reflexivity | apply so_escreve_refl].
  - destruct (Hc x amb) as (amb1 & E1 & S1).
    destruct (IH amb1) as (amb2 & E2 & S2).
    exists amb2. unfold bind. rewrite E1. split; [assumption |].
    eapply so_escreve_trans; eassumption.
Qed.

Lemma py_index_ok {A} (lista : list A) (i : Z) :
  0 <= i < Z.of_nat (List.length lista) ->
  exists x, nth_error lista (Z.to_nat i) = Some x /\ py_index lista i = ret x.
Proof.
  intros Hi. unfold py_index.
  replace (i <? 0) with false by lia.
  replace ((0 <=? i) && (i <? Z.of_nat (List.length lista))) with true by lia.
  destruct (nth_error lista (Z.to_nat i)) as [x |] eqn:E.
  - now exists x.
  - apply nth_error_None in E. lia.
Qed.

(** The recursion on the pending lines is the [while True] loop: one
    round reads a line with [input], and either returns or prints the
    corrective message and goes round again. *)
Lemma solicitar_indice_eq (total : Z) (amb : Ambiente) :
  solicitar_indice total amb =
  (linha <- input pedido_indice ;;
   match py_int linha with
   | None => print aviso_numero ;;; solicitar_indice total
   | Some n =>
       let escolha := n - 1 in
       if (0 <=? escolha) && (escolha <? total) then ret escolha
       else print aviso_invalida ;;; solicitar_indice total
   end) amb.
Proof.
  unfold solicitar_indice, bind, input.
  destruct (entrada amb) as [| linha resto]; simpl; [reflexivity |].
  destruct (py_int linha) as [n |]; simpl; [| reflexivity].
  destruct ((0 <=? n - 1) && (n - 1 <? total)); reflexivity.
Qed.

Lemma solicitar_nome_eq (amb : Ambiente) :
  solicitar_nome amb =
  (linha <- input pedido_nome ;;
   match PyStr.strip linha with
   | EmptyString => print aviso_nome ;;; solicitar_nome
   | nome => ret nome
   end) amb.
Proof.
  unfold solicitar_nome, bind, input.
  destruct (entrada amb) as [| linha resto]; simpl; [reflexivity |].
  destruct (PyStr.strip linha); reflexivity.
Qed.

(** The prompt loop either returns an index of the menu or lets the
    [EOFError] of an exhausted input through; nothing else. *)
Lemma solicitar_indice_laco_resultado (total : Z) (linhas : list string) :
  forall amb,
    (exists i amb', solicitar_indice_laco total linhas amb = Retorna i amb'
                    /\ 0 <= i < total
                    /\ acaso amb' = acaso amb /\ tiragens amb' = tiragens amb)
    \/ (exists amb', solicitar_indice_laco total linhas amb = Levanta EOFError amb'
                     /\ acaso amb' = acaso amb /\ tiragens amb' = tiragens amb).
Proof.
  induction linhas as [| linha resto IH]; intros amb;
    cbn [solicitar_indice_laco].
  - right. eexists. split; [reflexivity | now split].
  - set (amb1 := com_entrada (escrever pedido_indice amb) resto).
    assert (Hvolta : forall aviso,
               let amb2 := escrever aviso amb1 in
               (exists i amb', solicitar_indice_laco total resto amb2 = Retorna i amb'
                               /\ 0 <= i < total
                               /\ acaso amb' = acaso amb /\ tiragens amb' = tiragens amb)
               \/ (exists amb', solicitar_indice_laco total resto amb2 = Levanta EOFError amb'
                                /\ acaso amb' = acaso amb /\ tiragens amb' = tiragens amb))
      by (intros aviso; exact (IH (escrever aviso amb1))).
    destruct (py_int linha) as [n |]; [| apply Hvolta].
    destruct ((0 <=? n - 1) && (n - 1 <? total)) eqn:E; [| apply Hvolta].
    left. exists (n - 1), amb1. split; [reflexivity |].
    split; [lia | now split].
Qed.

Lemma solicitar_indice_intervalo (total i : Z) (amb amb' : Ambiente) :
  solicitar_indice total amb = Retorna i amb' ->
  0 <= i < total /\ acaso amb' = acaso amb /\ tiragens amb' = tiragens amb.
Proof.
  unfold solicitar_indice. intros H.
  destruct (solicitar_indice_laco_resultado total (entrada amb) amb)
    as [(j & a & E & Hj & Ha) | (a & E & _)]; rewrite E in H.
  - injection H as <- <-. now split.
  - discriminate.
Qed.

End Console.

(** ** Texts within texts *)

Section Contem.

Lemma prefix_refl (t : string) : String.prefix t t = true.
Proof.
  induction t as [| c t IH]; simpl; [reflexivity |].
  destruct (ascii_dec c c); [exact IH | contradiction].
Qed.

Lemma prefix_append (t s u : string) :
  String.prefix t s = true -> String.prefix t (s ++ u) = true.
Proof.
  revert s. induction t as [| c t IH]; intros s H.
  - destruct (s ++ u); reflexivity.
  - destruct s as [| c' s]; simpl in *; [discriminate |].
    destruct (ascii_dec c c'); [now apply IH | discriminate].
Qed.

Lemma contem_refl (t : string) : PyStr.contem t t = true.
Proof.
  destruct t as [| c t]; cbn [PyStr.contem]; [reflexivity |].
  now rewrite prefix_refl.
Qed.

Lemma contem_append_r (s t u : string) :
  PyStr.contem s t = true -> PyStr.contem (s ++ u) t = true.
Proof.
  induction s as [| c s IH]; cbn [PyStr.contem String.append].
  - rewrite Bool.orb_false_r. intros H.
    destruct t; [| discriminate H].
    destruct u; reflexivity.
  - intros H. apply Bool.orb_true_iff in H as [H | H].
    + apply (prefix_append _ _ u) in H. cbn [String.append] in H. now rewrite H.
    + rewrite (IH H). apply Bool.orb_true_r.
Qed.

Lemma contem_append_l (s t u : string) :
  PyStr.contem s t = true -> PyStr.contem (u ++ s) t = true.
Proof.
  intros H. induction u as [| c u IH]; cbn [PyStr.contem String.append]; [exact H |].
  rewrite IH. apply Bool.orb_true_r.
Qed.

Lemma contem_join (sep x : string) (partes : list string) :
  In x partes -> PyStr.contem (PyStr.join sep partes) x = true.
Proof.
  induction partes as [| p r IH]; [contradiction |].
  intros [-> | Hin].
  - destruct r; cbn [PyStr.join].
    + apply contem_refl.
    + apply contem_append_r, contem_refl.
  - destruct r as [| q r]; [contradiction |].
    cbn [PyStr.join]. do 2 apply contem_append_l. now apply IH.
Qed.

End Contem.

(** ** Code points of a text *)

Section CodePoints.

Local Open Scope list_scope.
Local Open Scope nat_scope.

Lemma append_vazio_r (s : string) : (s ++ "")%string = s.
Proof. induction s as [| c s IH]; simpl; [reflexivity | now rewrite IH]. Qed.

Lemma append_assoc (a b c : string) :
  ((a ++ b) ++ c)%string = (a ++ (b ++ c))%string.
Proof. induction a as [| x a IH]; simpl; [reflexivity | now rewrite IH]. Qed.

Lemma texto_app (a b : list string) : texto (a ++ b) = (texto a ++ texto b)%string.
Proof.
  induction a as [| x a IH]; simpl; [reflexivity |].
  now rewrite IH, append_assoc.
Qed.

Lemma concat_vazio_texto (cs : list string) : String.concat "" cs = texto cs.
Proof.
  induction cs as [| x [| y r] IH]; [reflexivity | |].
  - simpl. now rewrite append_vazio_r.
  - change (String.concat "" (x :: y :: r)) with (x ++ "" ++ String.concat "" (y :: r))%string.
    rewrite IH. reflexivity.
Qed.

Lemma texto_codepoints (s : string) : texto (PyStr.codepoints s) = s.
Proof.
  induction s as [| c s IH]; [reflexivity |].
  cbn [PyStr.codepoints].
  destruct (PyStr.codepoints s) as [| t ts]; simpl in *.
  - now rewrite <- IH.
  - destruct (PyStr.comeca_continuacao t); simpl; now rewrite <- IH.
Qed.

Lemma codepoints_cons (c : ascii) (r : string) :
  PyStr.codepoints (String c r)
  = match PyStr.codepoints r with
    | t :: ts =>
        if PyStr.comeca_continuacao t then String c t :: ts
        else String c EmptyString :: t :: ts
    | [] => [String c EmptyString]
    end.
Proof. reflexivity. Qed.

Lemma codepoints_cabeca (s : string) :
  match PyStr.codepoints s with
  | [] => s = ""%string
  | t :: _ => PyStr.comeca_continuacao t = PyStr.comeca_continuacao s
  end.
Proof.
  destruct s as [| c r]; [reflexivity |].
  cbn [PyStr.codepoints].
  destruct (PyStr.codepoints r) as [| t ts]; [reflexivity |].
  destruct (PyStr.comeca_continuacao t); reflexivity.
Qed.

Lemma codepoints_um_codepoint (s : string) :
  Forall um_codepoint (PyStr.codepoints s).
Proof.
  induction s as [| c r IH]; [constructor |].
  cbn [PyStr.codepoints].
  destruct (PyStr.codepoints r) as [| t ts]; [repeat constructor |].
  inversion IH as [| ? ? Ht Hts]; subst.
  destruct (PyStr.comeca_continuacao t) eqn:E.
  - constructor; [| exact Hts].
    destruct t as [| b u]; [discriminate E |].
    cbn [um_codepoint PyStr.comeca_continuacao iniciais] in *.
    now rewrite E.
  - constructor; [reflexivity | exact IH].
Qed.

(** A byte, its continuation bytes, and a text that starts a new code
    point. *)
Lemma codepoints_cons_cauda (t u : string) :
  iniciais t = 0 -> PyStr.comeca_continuacao u = false ->
  forall a, PyStr.codepoints (String a (t ++ u)) = String a t :: PyStr.codepoints u.
Proof.
  intros Ht Hu. induction t as [| b t IH]; intros a.
  - cbn [String.append]. rewrite codepoints_cons.
    pose proof (codepoints_cabeca u) as Hc.
    destruct (PyStr.codepoints u) as [| x xs]; [reflexivity |].
    now rewrite Hc, Hu.
  - cbn [iniciais] in Ht. destruct (PyStr.continuacao b) eqn:Eb; [| discriminate].
    cbn [String.append]. rewrite codepoints_cons, (IH Ht b).
    cbn [PyStr.comeca_continuacao]. now rewrite Eb.
Qed.

Lemma bons_bem_cortada (cs : list string) : Forall bom cs -> bem_cortada cs.
Proof.
  intros H. destruct cs as [| c r]; [exact I |].
  inversion H as [| ? ? [Hc _] Hr]; subst. now split.
Qed.

Lemma bem_cortada_app (a b : list string) :
  bem_cortada a -> Forall bom b -> bem_cortada (a ++ b).
Proof.
  destruct a as [| c r]; [intros _; apply bons_bem_cortada |].
  intros [Hc Hr] Hb. split; [exact Hc |]. apply Forall_app. now split.
Qed.

Lemma bem_cortada_prefixo (a b : list string) : bem_cortada (a ++ b) -> bem_cortada a.
Proof.
  destruct a as [| c r]; [easy |].
  intros [Hc Hr]. apply Forall_app in Hr. split; tauto.
Qed.

(** What follows the first code point starts every code point anew. *)
Lemma bem_cortada_resto (a b : list string) :
  a <> [] -> bem_cortada (a ++ b) -> Forall bom b.
Proof.
  destruct a as [| c r]; [contradiction |].
  intros _ [_ Hr]. apply Forall_app in Hr. tauto.
Qed.

Lemma bem_cortada_sufixo (a b : list string) : bem_cortada (a ++ b) -> bem_cortada b.
Proof.
  destruct a as [| c r]; [easy |].
  intros H. apply bons_bem_cortada. eapply bem_cortada_resto; [| exact H]. discriminate.
Qed.

Lemma codepoints_bem_cortada (s : string) : bem_cortada (PyStr.codepoints s).
Proof.
  induction s as [| c r IH]; [exact I |].
  rewrite codepoints_cons.
  destruct (PyStr.codepoints r) as [| t ts]; [now split |].
  destruct IH as [Ht Hts].
  destruct (PyStr.comeca_continuacao t) eqn:E.
  - split; [| exact Hts].
    destruct t as [| b u]; [discriminate E |].
    cbn [um_codepoint PyStr.comeca_continuacao iniciais] in *.
    now rewrite E.
  - split; [reflexivity |]. constructor; [now split | exact Hts].
Qed.

Lemma comeca_texto_bons (cs : list string) :
  Forall bom cs -> PyStr.comeca_continuacao (texto cs) = false.
Proof.
  intros H. destruct cs as [| c r]; [reflexivity |].
  inversion H as [| ? ? [Hc Hi] _]; subst.
  destruct c as [| a t]; [contradiction |]. exact Hi.
Qed.

Lemma codepoints_texto_bons (cs : list string) :
  Forall bom cs -> PyStr.codepoints (texto cs) = cs.
Proof.
  induction 1 as [| c r [Hc _] Hr IH]; [reflexivity |].
  destruct c as [| a t]; [contradiction |].
  cbn [texto fold_right]. fold (texto r). cbn [String.append].
  rewrite (codepoints_cons_cauda t (texto r) Hc (comeca_texto_bons r Hr)).
  now rewrite IH.
Qed.

(** Cutting the text that a well-cut list spells gives the list back. *)
Lemma codepoints_texto (cs : list string) :
  bem_cortada cs -> PyStr.codepoints (texto cs) = cs.
Proof.
  destruct cs as [| c r]; [reflexivity |].
  intros [Hc Hr]. destruct c as [| a t]; [contradiction |].
  cbn [texto fold_right]. fold (texto r). cbn [String.append].
  rewrite (codepoints_cons_cauda t (texto r) Hc (comeca_texto_bons r Hr)).
  now rewrite codepoints_texto_bons.
Qed.

Lemma codepoints_bons (s : string) :
  PyStr.comeca_continuacao s = false -> Forall bom (PyStr.codepoints s).
Proof.
  intros Hs. pose proof (codepoints_bem_cortada s) as H.
  pose proof (codepoints_cabeca s) as Hc.
  destruct (PyStr.codepoints s) as [| t ts]; [constructor |].
  destruct H as [Ht Hts]. constructor; [| exact Hts].
  split; [exact Ht | congruence].
Qed.

(** The code points of two texts put together, when the second starts a
    code point. *)
Lemma codepoints_app (a b : string) :
  PyStr.comeca_continuacao b = false ->
  PyStr.codepoints (a ++ b) = PyStr.codepoints a ++ PyStr.codepoints b.
Proof.
  intros Hb.
  rewrite <- (texto_codepoints a), <- (texto_codepoints b) at 1.
  rewrite <- texto_app. apply codepoints_texto.
  apply bem_cortada_app; [apply codepoints_bem_cortada | now apply codepoints_bons].
Qed.

Lemma visiveis_app (a b : list string) : visiveis (a ++ b) = visiveis a ++ visiveis b.
Proof. apply filter_app. Qed.

Lemma visiveis_cons (c : string) (r : list string) :
  visiveis (c :: r) = if PyStr.isspace c then visiveis r else c :: visiveis r.
Proof. unfold visiveis. cbn [filter]. now destruct (PyStr.isspace c). Qed.

Lemma sem_espacos_app (a b : string) :
  PyStr.comeca_continuacao b = false ->
  sem_espacos (a ++ b)%string = (sem_espacos a ++ sem_espacos b)%string.
Proof.
  intros Hb. unfold sem_espacos.
  now rewrite (codepoints_app a b Hb), visiveis_app, texto_app.
Qed.

Lemma sem_espacos_texto (cs : list string) :
  bem_cortada cs -> sem_espacos (texto cs) = texto (visiveis cs).
Proof. intros H. unfold sem_espacos. now rewrite codepoints_texto. Qed.

End CodePoints.

(** ** Wrapping changes white space only

    What [textwrap.fill] returns spells the text it was given, white space
    aside: tabs are expanded and white space normalised on the way in,
    chunks cut the text without losing a character, and the lines are made
    of the chunks in order, minus white space at the line ends, with long
    words cut in pieces.  This also shows that the fuel of [wrap_chunks]
    is never used up. *)

Section QuebraDeLinha.

Import TextWrap.
Local Open Scope list_scope.
Local Open Scope nat_scope.

(** *** White space going in: [_munge_whitespace] *)

(** The six characters of [textwrap._whitespace] are white space for
    [str.isspace] too. *)
Lemma branco_isspace (c : string) : branco c = true -> PyStr.isspace c = true.
Proof.
  destruct c as [| a [| b r]]; try discriminate.
  unfold branco, PyStr.isspace, Unicode.ord. cbn [String.length].
  set (n := N_of_ascii a). intros H.
  assert (Hn : (n = 9 \/ n = 10 \/ n = 11 \/ n = 12 \/ n = 13 \/ n = 32)%N).
  { apply Bool.orb_true_iff in H as [H | H].
    - apply andb_prop in H as [H9 H13].
      apply N.leb_le in H9, H13. lia.
    - apply N.eqb_eq in H. lia. }
  destruct Hn as [-> | [-> | [-> | [-> | [-> | ->]]]]]; reflexivity.
Qed.

Lemma visiveis_repeat_espaco (n : nat) : visiveis (repeat " "%string n) = [].
Proof. induction n as [| n IH]; [reflexivity | exact IH]. Qed.

Lemma visiveis_expandtabs (cs : list string) :
  forall col, visiveis (expandtabs cs col) = visiveis cs.
Proof.
  induction cs as [| c r IH]; intros col; [reflexivity |].
  cbn [expandtabs].
  destruct (String.eqb c tab) eqn:Et.
  - apply String.eqb_eq in Et. subst c.
    rewrite visiveis_app, visiveis_repeat_espaco, IH. reflexivity.
  - destruct (String.eqb c nl || String.eqb c cr);
      rewrite !visiveis_cons, IH; reflexivity.
Qed.

Lemma visiveis_munge (cs : list string) :
  visiveis (munge_whitespace cs) = visiveis cs.
Proof.
  unfold munge_whitespace. rewrite <- (visiveis_expandtabs cs 0).
  induction (expandtabs cs 0) as [| c r IH]; [reflexivity |].
  cbn [map]. rewrite !visiveis_cons, IH.
  destruct (branco c) eqn:E; [| reflexivity].
  now rewrite (branco_isspace c E).
Qed.

Lemma expandtabs_bons (cs : list string) :
  Forall bom cs -> forall col, Forall bom (expandtabs cs col).
Proof.
  induction 1 as [| c r Hc Hr IH]; intros col; cbn [expandtabs]; [constructor |].
  destruct (String.eqb c tab).
  - apply Forall_app. split; [| apply IH].
    apply Forall_forall. intros x Hx. apply repeat_spec in Hx. now subst x.
  - destruct (String.eqb c nl || String.eqb c cr); constructor; auto.
Qed.

Lemma munge_bem_cortada (cs : list string) :
  bem_cortada cs -> bem_cortada (munge_whitespace cs).
Proof.
  unfold munge_whitespace.
  assert (Hmap : forall l, Forall bom l ->
                           Forall bom (map (fun c => if branco c then " "%string else c) l)).
  { intros l Hl. apply Forall_map. eapply Forall_impl; [| exact Hl].
    intros c Hc. destruct (branco c); [now split | exact Hc]. }
  destruct cs as [| c r]; [easy |]. intros [Hc Hr].
  cbn [expandtabs]. destruct (String.eqb c tab).
  - apply bons_bem_cortada, Hmap. apply Forall_app. split; [| now apply expandtabs_bons].
    apply Forall_forall. intros x Hx. apply repeat_spec in Hx. now subst x.
  - assert (H : forall col, bem_cortada (map (fun c => if branco c then " "%string else c)
                                             (c :: expandtabs r col))).
    { intros col. cbn [map]. split; [| apply Hmap; now apply expandtabs_bons].
      destruct (branco c); [reflexivity | exact Hc]. }
    destruct (String.eqb c nl || String.eqb c cr); apply H.
Qed.

(** *** Chunks: [_split] cuts the text and loses nothing *)

Lemma split_desde_concat (cs : list string) :
  forall antes atual, List.concat (split_desde antes atual cs) = atual ++ cs.
Proof.
  induction cs as [| c r IH]; intros antes atual; cbn [split_desde].
  - destruct atual; simpl; [reflexivity | now rewrite app_nil_r].
  - destruct (fronteira antes (c :: r)); [cbn [List.concat] |]; rewrite IH.
    + reflexivity.
    + now rewrite <- app_assoc.
Qed.

Lemma split_desde_cheios (cs : list string) :
  forall antes atual,
    (atual <> [] \/ antes = []) -> cheios (split_desde antes atual cs).
Proof.
  induction cs as [| c r IH]; intros antes atual H; cbn [split_desde].
  - destruct atual; constructor; [discriminate | constructor].
  - destruct (fronteira antes (c :: r)) eqn:F.
    + constructor.
      * destruct H as [H | ->]; [exact H | discriminate F].
      * apply IH. left. discriminate.
    + apply IH. left. destruct atual; discriminate.
Qed.

(** *** Lines: [_wrap_chunks] *)

Lemma encher_particao (chunks : list chunk) (width : nat) :
  forall cur_line cur_len cur_line' cur_len' resto,
    encher chunks cur_line cur_len width = (cur_line', cur_len', resto) ->
    exists postos, cur_line' = cur_line ++ postos /\ chunks = postos ++ resto
                   /\ (postos = [] ->
                       match chunks with
                       | c :: _ => width < cur_len + List.length c
                       | [] => True
                       end).
Proof.
  induction chunks as [| c r IH]; intros cl n cl' n' resto; cbn [encher].
  - intros [= <- <- <-]. exists []. now rewrite app_nil_r.
  - destruct (n + List.length c <=? width)%nat eqn:E.
    + intros H. destruct (IH _ _ _ _ _ H) as (postos & -> & -> & _).
      exists (c :: postos). rewrite <- app_assoc. repeat split. discriminate.
    + intros [= <- <- <-]. exists []. rewrite app_nil_r. repeat split.
      intros _. apply Nat.leb_gt in E. exact E.
Qed.

Lemma rfind_hifen_limite (c : chunk) :
  forall i fim j, rfind_hifen c i fim = Some j -> j < fim.
Proof.
  induction c as [| s r IH]; intros i fim j; cbn [rfind_hifen]; [discriminate |].
  destruct (fim <=? i)%nat eqn:E; [discriminate |].
  destruct (rfind_hifen r (S i) fim) as [k |] eqn:R.
  - intros [= <-]. eapply IH; exact R.
  - destruct (String.eqb s "-"); [| discriminate].
    intros [= <-]. now apply Nat.leb_gt in E.
Qed.

Lemma handle_long_word_corte (c : chunk) (cur_len width : nat) :
  exists fim,
    handle_long_word c cur_len width = (firstn fim c, skipn fim c)
    /\ fim <= width - cur_len
    /\ (cur_len = 0 -> 1 <= width -> 1 <= fim).
Proof.
  unfold handle_long_word.
  set (space_left := width - cur_len).
  destruct (space_left <? List.length c)%nat;
    [| exists space_left; repeat split; lia].
  destruct (rfind_hifen c 0 space_left) as [hyphen |] eqn:R;
    [| exists space_left; repeat split; lia].
  apply rfind_hifen_limite in R.
  destruct ((0 <? hyphen)%nat && _);
    [exists (S hyphen) | exists space_left]; repeat split; lia.
Qed.

Lemma vazio_ou_branco_visiveis (c : chunk) :
  vazio_ou_branco c = true -> visiveis c = [].
Proof.
  unfold vazio_ou_branco.
  induction c as [| s r IH]; [reflexivity |].
  cbn [forallb]. intros H. apply andb_prop in H as [Hs Hr].
  now rewrite visiveis_cons, Hs, IH.
Qed.

Lemma sem_branco_final_visiveis (cur_line : list chunk) :
  visiveis (List.concat (sem_branco_final cur_line)) = visiveis (List.concat cur_line).
Proof.
  unfold sem_branco_final.
  destruct (rev cur_line) as [| u antes] eqn:R; [reflexivity |].
  destruct (vazio_ou_branco u) eqn:V; [| reflexivity].
  apply (f_equal (@rev chunk)) in R. rewrite rev_involutive in R.
  rewrite R. cbn [rev]. rewrite concat_app, visiveis_app.
  cbn [List.concat]. rewrite app_nil_r.
  now rewrite (vazio_ou_branco_visiveis u V), app_nil_r.
Qed.

Lemma sem_branco_final_prefixo (cur_line : list chunk) :
  exists fim, cur_line = sem_branco_final cur_line ++ fim.
Proof.
  unfold sem_branco_final.
  destruct (rev cur_line) as [| u antes] eqn:R; [exists []; now rewrite app_nil_r |].
  destruct (vazio_ou_branco u); [| exists []; now rewrite app_nil_r].
  exists [u]. apply (f_equal (@rev chunk)) in R.
  rewrite rev_involutive in R. exact R.
Qed.

Lemma join_nl_mais (lines : list string) (x : string) :
  lines <> [] ->
  PyStr.join nl (lines ++ [x]) = (PyStr.join nl lines ++ nl ++ x)%string.
Proof.
  induction lines as [| p [| q r] IH]; [contradiction | reflexivity |].
  intros _.
  change (PyStr.join nl ((p :: q :: r) ++ [x]))
    with (p ++ nl ++ PyStr.join nl ((q :: r) ++ [x]))%string.
  rewrite IH by discriminate. cbn [PyStr.join].
  now rewrite !append_assoc.
Qed.

(** A new line on the lines written so far. *)
Lemma sem_espacos_join_nl (lines : list string) (x : list string) :
  (lines = [] -> bem_cortada x) -> (lines <> [] -> Forall bom x) ->
  sem_espacos (PyStr.join nl (lines ++ [texto x]))
  = (sem_espacos (PyStr.join nl lines) ++ texto (visiveis x))%string.
Proof.
  intros H0 H1. destruct lines as [| p r].
  - cbn [app PyStr.join]. now rewrite sem_espacos_texto by auto.
  - assert (Hx : Forall bom x) by (apply H1; discriminate).
    rewrite join_nl_mais by discriminate.
    rewrite sem_espacos_app by reflexivity.
    rewrite sem_espacos_app by now apply comeca_texto_bons.
    rewrite sem_espacos_texto by now apply bons_bem_cortada.
    reflexivity.
Qed.

(** One round keeps the chunks non-empty, takes at least one character
    off them, and moves the rest of what it consumed, white space aside,
    onto the lines. *)
Lemma rodada_avanca (width : nat) (c0 : chunk) (r0 : list chunk)
      (lines : list string) (chunks3 : list chunk) (lines' : list string) :
  1 <= width ->
  cheios (c0 :: r0) ->
  bem_cortada (List.concat (c0 :: r0)) ->
  (lines <> [] -> Forall bom (List.concat (c0 :: r0))) ->
  rodada width c0 r0 lines = (chunks3, lines') ->
  cheios chunks3
  /\ List.length (List.concat chunks3) < List.length (List.concat (c0 :: r0))
  /\ Forall bom (List.concat chunks3)
  /\ (sem_espacos (PyStr.join nl lines') ++ texto (visiveis (List.concat chunks3)))%string
     = (sem_espacos (PyStr.join nl lines)
        ++ texto (visiveis (List.concat (c0 :: r0))))%string.
Proof.
  intros Hw Hch Hbc Hbons. unfold rodada.
  set (chunks1 := if vazio_ou_branco c0 && negb (Nat.eqb (List.length lines) 0)
                  then r0 else c0 :: r0).
  assert (H1 : cheios chunks1
               /\ visiveis (List.concat chunks1) = visiveis (List.concat (c0 :: r0))
               /\ (chunks1 = r0 \/ chunks1 = c0 :: r0)).
  { unfold chunks1.
    destruct (vazio_ou_branco c0) eqn:V; cbn [andb];
      [destruct (negb _) |]; try (split; [exact Hch | split; [reflexivity | now right]]).
    split; [now inversion Hch |]. split; [| now left].
    cbn [List.concat]. rewrite visiveis_app.
    now rewrite (vazio_ou_branco_visiveis c0 V). }
  destruct H1 as (Hch1 & Hsk1 & Hcase). clearbody chunks1.
  destruct (encher chunks1 [] 0 width) as [[cur_line cur_len] chunks2] eqn:E.
  destruct (encher_particao _ _ _ _ _ _ _ E) as (postos & Hcl & Hc1 & Hnada).
  cbn [app] in Hcl. subst cur_line.
  (* the long word, if the next chunk is one *)
  set (par := match chunks2 with
              | c :: r =>
                  if (width <? List.length c)%nat
                  then let '(cabe, sobra) := handle_long_word c cur_len width in
                       (postos ++ [cabe], sobra :: r)
                  else (postos, chunks2)
              | [] => (postos, chunks2)
              end).
  assert (H2 : cheios (snd par)
               /\ List.concat (fst par) ++ List.concat (snd par) = List.concat chunks1
               /\ (chunks1 = c0 :: r0 -> 1 <= List.length (List.concat (fst par)))).
  { assert (Hch2 : cheios chunks2).
    { rewrite Hc1 in Hch1. unfold cheios in *. rewrite Forall_app in Hch1. tauto. }
    assert (Hpostos : chunks1 = c0 :: r0 -> postos <> [] ->
                      1 <= List.length (List.concat postos)).
    { intros Hc Hp. rewrite Hc in Hc1.
      destruct postos as [| q postos]; [contradiction |].
      cbn [app] in Hc1. injection Hc1 as <- _. inversion Hch as [| ? ? Hc0 _]; subst.
      cbn [List.concat]. rewrite length_app.
      destruct c0; [contradiction | simpl; lia]. }
    unfold par. destruct chunks2 as [| c r].
    - cbn [fst snd]. split; [constructor |].
      split; [now rewrite Hc1, concat_app |].
      intros Hc. apply Hpostos; [exact Hc |].
      intros ->. rewrite Hc in Hc1. discriminate.
    - destruct (width <? List.length c)%nat eqn:L.
      + apply Nat.ltb_lt in L.
        destruct (handle_long_word_corte c cur_len width) as (fim & -> & Hfim & Hfim1).
        cbn [fst snd]. split; [| split].
        * constructor; [| now inversion Hch2].
          intros Hs. apply (f_equal (@List.length string)) in Hs.
          rewrite length_skipn in Hs. simpl in Hs. lia.
        * rewrite Hc1, !concat_app. cbn [List.concat].
          rewrite !app_nil_r, <- !app_assoc. f_equal.
          rewrite app_assoc. now rewrite firstn_skipn.
        * intros Hc. rewrite concat_app, length_app. cbn [List.concat].
          rewrite app_nil_r, length_firstn.
          destruct postos as [| q postos].
          -- (* nothing fitted: the line is empty and the word is cut *)
             assert (cur_len = 0).
             { cbn [encher] in E. rewrite Hc1 in E. cbn [app encher] in E.
               destruct (0 + List.length c <=? width)%nat eqn:F.
               - apply Nat.leb_le in F. lia.
               - inversion E; reflexivity. }
             specialize (Hfim1 H Hw). simpl. lia.
          -- pose proof (Hpostos Hc ltac:(discriminate)). lia.
      + cbn [fst snd]. split; [exact Hch2 |].
        split; [now rewrite Hc1, concat_app |].
        intros Hc. apply Hpostos; [exact Hc |].
        intros ->. cbn [app] in Hc1. subst chunks1.
        specialize (Hnada eq_refl). cbn in Hnada.
        assert (cur_len = 0).
        { cbn [encher] in E.
          destruct (0 + List.length c <=? width)%nat eqn:F.
          - apply Nat.leb_le in F. simpl in Hnada. lia.
          - inversion E; reflexivity. }
        apply Nat.ltb_ge in L. simpl in Hnada. lia. }
  fold par. destruct par as [cur_line2 chunks3'] eqn:P. cbn [fst snd] in H2.
  destruct H2 as (Hch3 & Hcat & Hprog).
  intros [= <- <-].
  (* what the round consumed, in front of what it left *)
  assert (Hpre : exists pre, pre <> []
                             /\ List.concat (c0 :: r0) = pre ++ List.concat chunks3').
  { destruct Hcase as [Hc | Hc].
    - exists (c0 ++ List.concat cur_line2). split.
      + inversion Hch as [| ? ? Hc0 _]; subst. destruct c0; [contradiction | discriminate].
      + cbn [List.concat]. rewrite <- app_assoc, Hcat, Hc. reflexivity.
    - exists (List.concat cur_line2). split.
      + specialize (Hprog Hc). intros Hn. rewrite Hn in Hprog. simpl in Hprog. lia.
      + now rewrite Hcat, Hc. }
  destruct Hpre as (pre & Hpre0 & Hpre).
  (* the code points of the line are those of the text, in their places *)
  assert (Hlinha1 : bem_cortada (List.concat (sem_branco_final cur_line2))
                    /\ (lines <> [] ->
                        Forall bom (List.concat (sem_branco_final cur_line2)))).
  { destruct (sem_branco_final_prefixo cur_line2) as (fim & Hfim).
    assert (Hde : exists a b, List.concat (c0 :: r0)
                              = a ++ List.concat (sem_branco_final cur_line2) ++ b).
    { destruct Hcase as [Hc | Hc].
      - exists c0, (List.concat fim ++ List.concat chunks3').
        cbn [List.concat]. rewrite <- Hc, <- Hcat. rewrite Hfim at 1.
        now rewrite concat_app, <- app_assoc.
      - exists [], (List.concat fim ++ List.concat chunks3').
        cbn [app]. rewrite <- Hc, <- Hcat. rewrite Hfim at 1.
        now rewrite concat_app, <- app_assoc. }
    destruct Hde as (a & b & Hde). split.
    - rewrite Hde in Hbc.
      apply bem_cortada_sufixo in Hbc. now apply bem_cortada_prefixo in Hbc.
    - intros Hl. specialize (Hbons Hl). rewrite Hde in Hbons.
      apply Forall_app in Hbons as [_ Hbons]. now apply Forall_app in Hbons as [Hbons _]. }
  destruct Hlinha1 as (Hl1 & Hl2).
  split; [exact Hch3 |]. split; [| split].
  - rewrite Hpre, length_app. destruct pre; [contradiction | simpl; lia].
  - rewrite Hpre in Hbc. now apply bem_cortada_resto in Hbc.
  - rewrite <- Hsk1.
    assert (Hl : sem_espacos
                   (PyStr.join nl
                      match sem_branco_final cur_line2 with
                      | [] => lines
                      | _ :: _ => lines ++ [String.concat "" (List.concat (sem_branco_final cur_line2))]
                      end)
                 = (sem_espacos (PyStr.join nl lines)
                    ++ texto (visiveis (List.concat cur_line2)))%string).
    { rewrite <- (sem_branco_final_visiveis cur_line2).
      destruct (sem_branco_final cur_line2) as [| x xs] eqn:S3.
      - cbn [List.concat visiveis filter texto fold_right]. now rewrite append_vazio_r.
      - rewrite concat_vazio_texto. apply sem_espacos_join_nl; [intros _; exact Hl1 | exact Hl2]. }
    rewrite Hl, append_assoc. f_equal.
    now rewrite <- texto_app, <- visiveis_app, Hcat.
Qed.

(** With one unit of fuel per character and one to spare the loop runs to
    the end: every character that is not white space is on the lines, in
    order. *)
Lemma wrap_chunks_sem_espacos (width : nat) :
  1 <= width ->
  forall fuel chunks lines,
    cheios chunks ->
    bem_cortada (List.concat chunks) ->
    (lines <> [] -> Forall bom (List.concat chunks)) ->
    List.length (List.concat chunks) < fuel ->
    sem_espacos (PyStr.join nl (wrap_chunks fuel width chunks lines))
    = (sem_espacos (PyStr.join nl lines) ++ texto (visiveis (List.concat chunks)))%string.
Proof.
  intros Hw. induction fuel as [| f IH]; intros chunks lines Hch Hbc Hb Hf; [lia |].
  destruct chunks as [| c0 r0].
  - cbn [wrap_chunks]. now rewrite append_vazio_r.
  - cbn [wrap_chunks].
    destruct (rodada width c0 r0 lines) as [chunks3 lines'] eqn:R.
    destruct (rodada_avanca _ _ _ _ _ _ Hw Hch Hbc Hb R) as (Hch3 & Hlt & Hb3 & Hsk).
    rewrite IH; [exact Hsk | exact Hch3 | now apply bons_bem_cortada | auto | lia].
Qed.

(** Wrapping changes white space only. *)
Lemma fill_sem_espacos (text : string) (width : nat) :
  1 <= width -> sem_espacos (fill text width) = sem_espacos text.
Proof.
  intros Hw. unfold fill.
  set (cs := munge_whitespace (PyStr.codepoints text)).
  assert (Hcat : List.concat (split cs) = cs).
  { unfold split. now rewrite split_desde_concat. }
  rewrite wrap_chunks_sem_espacos.
  - cbn [PyStr.join]. rewrite Hcat. unfold cs.
    now rewrite visiveis_munge.
  - exact Hw.
  - apply split_desde_cheios. now right.
  - rewrite Hcat. apply munge_bem_cortada, codepoints_bem_cortada.
  - intros H. now contradiction H.
  - rewrite Hcat. lia.
Qed.

End QuebraDeLinha.

Lemma wrap_sem_espacos (text : string) : sem_espacos (wrap text) = sem_espacos text.
Proof. unfold wrap. apply fill_sem_espacos. lia. Qed.

(** *** Numbers in a text *)

Lemma so_visiveis_sem_espacos (s : string) :
  so_visiveis s = true ->
  sem_espacos s = s /\ PyStr.comeca_continuacao s = false.
Proof.
  induction s as [| c r IH]; [now split |].
  cbn [so_visiveis]. intros H.
  apply andb_prop in H as [H Hr]. apply andb_prop in H as [Hc Hs].
  apply Bool.negb_true_iff in Hc, Hs.
  destruct (IH Hr) as [IHs IHc]. split; [| exact Hc].
  unfold sem_espacos in *. rewrite codepoints_cons.
  pose proof (codepoints_cabeca r) as Hcab.
  destruct (PyStr.codepoints r) as [| t ts].
  - subst r. rewrite visiveis_cons, Hs. reflexivity.
  - rewrite Hcab, IHc, visiveis_cons, Hs.
    cbn [texto fold_right String.append]. fold (texto (visiveis (t :: ts))).
    now rewrite IHs.
Qed.

Lemma digitos_so_visiveis (d : Decimal.uint) :
  so_visiveis (NilEmpty.string_of_uint d) = true.
Proof.
  induction d as [| d IH | d IH | d IH | d IH | d IH | d IH | d IH | d IH | d IH | d IH];
    [reflexivity | ..];
    cbn [NilEmpty.string_of_uint so_visiveis]; rewrite IH; reflexivity.
Qed.

Lemma str_so_visiveis (n : Z) : so_visiveis (PyStr.str n) = true.
Proof.
  unfold PyStr.str, NilZero.string_of_int, NilZero.string_of_uint.
  destruct (Z.to_int n) as [d | d].
  - destruct d; try reflexivity; apply digitos_so_visiveis.
  - cbn [so_visiveis].
    destruct d; try reflexivity;
      match goal with
      | |- context [NilEmpty.string_of_uint ?x] =>
          rewrite (digitos_so_visiveis x); reflexivity
      end.
Qed.

Lemma str_nao_vazio (n : Z) : PyStr.str n <> "".
Proof.
  unfold PyStr.str, NilZero.string_of_int, NilZero.string_of_uint.
  destruct (Z.to_int n) as [d | d]; [| discriminate].
  destruct d; discriminate.
Qed.

(** A number written in a text is left as it is. *)
Lemma sem_espacos_str (n : Z) : sem_espacos (PyStr.str n) = PyStr.str n.
Proof. apply so_visiveis_sem_espacos, str_so_visiveis. Qed.

Lemma comeca_str (n : Z) (u : string) :
  PyStr.comeca_continuacao (PyStr.str n ++ u) = false.
Proof.
  pose proof (proj2 (so_visiveis_sem_espacos _ (str_so_visiveis n))) as H.
  pose proof (str_nao_vazio n) as Hn.
  destruct (PyStr.str n); [contradiction | exact H].
Qed.

(** *** The narratives, white space aside *)

(** The text of a resolved option, white space aside: the sentence about
    the choice, then the narrative. *)
Lemma resolvido_sem_espacos (texto narrativa : string) :
  PyStr.comeca_continuacao narrativa = false ->
  sem_espacos (wrap ("Você opta por " ++ PyStr.lower texto ++ ". " ++ narrativa))
  = sem_espacos ("Você opta por " ++ PyStr.lower texto ++ ". ") ++ sem_espacos narrativa.
Proof.
  intros H. rewrite wrap_sem_espacos.
  replace ("Você opta por " ++ PyStr.lower texto ++ ". " ++ narrativa)
    with (("Você opta por " ++ PyStr.lower texto ++ ". ") ++ narrativa)
    by (rewrite !append_assoc; reflexivity).
  now apply sem_espacos_app.
Qed.

(** ** Epilogue tiers *)

(** The four narrative templates are pairwise different texts. *)
Lemma destinos_distintos :
  NoDup [destino_lenda; destino_memoria; destino_equilibrio; destino_resistencia].
Proof.
  repeat constructor; simpl; intuition discriminate.
Qed.

(** C1.  The epilogue is the wrapped f-string built around the template
    that the difference [gloria - cicatrizes] selects: the legend text from
    3 upwards, the fond-memory text for 1 and 2, the balance text for 0 and
    the resilience text below 0.  White space aside (the text is wrapped),
    the epilogue reads: the opening sentence with the name and the two
    counters, then the selected text, then the listing. *)
Theorem epilogo_destino_por_limiar (p : Personagem) :
  let diferenca := gloria p - cicatrizes p in
  let antes :=
    sem_espacos
      ("No fim da aventura, " ++ nome p ++ " registra " ++ PyStr.str (gloria p)
       ++ " feitos gloriosos e " ++ PyStr.str (cicatrizes p)
       ++ " cicatrizes memoráveis. ") in
  let depois :=
    sem_espacos (" A síntese do seu potencial: " ++ resumo_atributos p ++ ".") in
  epilogo p = wrap (epilogo_fstring p (epilogo_destino p) (resumo_atributos p))
  /\ (3 <= diferenca ->
      epilogo_destino p = destino_lenda
      /\ sem_espacos (epilogo p)
         = antes
           ++ "Vocêsetornaumalendaviva,veneradoemcançõeseinvocadocomopatronodeheróisporgerações."
           ++ depois)
  /\ (1 <= diferenca < 3 ->
      epilogo_destino p = destino_memoria
      /\ sem_espacos (epilogo p)
         = antes
           ++ "Suajornadafoimarcadaporvitóriaseamizadessinceras;seunomepermaneceemmemórianasguildaslocais."
           ++ depois)
  /\ (diferenca = 0 ->
      epilogo_destino p = destino_equilibrio
      /\ sem_espacos (epilogo p)
         = antes
           ++ "Vocêencontraumequilíbriodelicadoentredesafioseglórias,levandoumavidatranquilamascheiadehistóriasparacontar."
           ++ depois)
  /\ (diferenca < 0 ->
      epilogo_destino p = destino_resistencia
      /\ sem_espacos (epilogo p)
         = antes
           ++ "Ascicatrizesacumuladascobramseupreço.Aindaassim,vocêseguefirme,provandoquecoragemtambéméresistir."
           ++ depois).
Proof.
  intros diferenca antes depois.
  assert (Hl : 3 <= diferenca -> epilogo_destino p = destino_lenda).
  { intros H. unfold epilogo_destino. fold diferenca.
    replace (3 <=? diferenca) with true by lia. reflexivity. }
  assert (Hm : 1 <= diferenca < 3 -> epilogo_destino p = destino_memoria).
  { intros H. unfold epilogo_destino. fold diferenca.
    replace (3 <=? diferenca) with false by lia.
    replace (1 <=? diferenca) with true by lia. reflexivity. }
  assert (He : diferenca = 0 -> epilogo_destino p = destino_equilibrio).
  { intros H. unfold epilogo_destino. fold diferenca.
    replace (3 <=? diferenca) with false by lia.
    replace (1 <=? diferenca) with false by lia.
    replace (diferenca =? 0) with true by lia. reflexivity. }
  assert (Hr : diferenca < 0 -> epilogo_destino p = destino_resistencia).
  { intros H. unfold epilogo_destino. fold diferenca.
    replace (3 <=? diferenca) with false by lia.
    replace (1 <=? diferenca) with false by lia.
    replace (diferenca =? 0) with false by lia. reflexivity. }
  (* white space aside, the epilogue is its three parts *)
  assert (Hpartes : forall destino,
             epilogo_destino p = destino ->
             PyStr.comeca_continuacao destino = false ->
             sem_espacos (epilogo p) = antes ++ sem_espacos destino ++ depois).
  { intros destino Hd Hc. unfold epilogo, antes, depois.
    rewrite wrap_sem_espacos, Hd.
    replace (epilogo_fstring p destino (resumo_atributos p))
      with (("No fim da aventura, " ++ nome p ++ " registra " ++ PyStr.str (gloria p)
             ++ " feitos gloriosos e " ++ PyStr.str (cicatrizes p)
             ++ " cicatrizes memoráveis. ")
            ++ destino ++ " A síntese do seu potencial: " ++ resumo_atributos p ++ ".")
      by (unfold epilogo_fstring; rewrite !append_assoc; reflexivity).
    rewrite (sem_espacos_app _ (destino ++ _)).
    - now rewrite (sem_espacos_app destino) by reflexivity.
    - destruct destino; [reflexivity | exact Hc]. }
  split; [reflexivity |].
  split; [| split; [| split]]; intros H.
  - split; [exact (Hl H) |]. exact (Hpartes _ (Hl H) eq_refl).
  - split; [exact (Hm H) |]. exact (Hpartes _ (Hm H) eq_refl).
  - split; [exact (He H) |]. exact (Hpartes _ (He H) eq_refl).
  - split; [exact (Hr H) |]. exact (Hpartes _ (Hr H) eq_refl).
Qed.

(** Four characters, one per tier: 4 glories against 1 scar, 2 against 1,
    2 against 2, and 0 against 1. *)
Lemma epilogo_destino_por_limiar_exemplos :
  (epilogo_destino (personagem_exemplo 4 1) = destino_lenda
   /\ sem_espacos (epilogo (personagem_exemplo 4 1))
      = "Nofimdaaventura,Anaregistra4feitosgloriosose1cicatrizesmemoráveis."
        ++ "Vocêsetornaumalendaviva,veneradoemcançõeseinvocadocomopatronodeheróisporgerações."
        ++ "Asíntesedoseupotencial:Vigor:0,Mana:0,Sorte:0,Carisma:0.")
  /\ epilogo_destino (personagem_exemplo 2 1) = destino_memoria
  /\ epilogo_destino (personagem_exemplo 2 2) = destino_equilibrio
  /\ epilogo_destino (personagem_exemplo 0 1) = destino_resistencia.
Proof.
  split; [| split; [| split]].
  - apply (epilogo_destino_por_limiar (personagem_exemplo 4 1)). simpl. lia.
  - apply (epilogo_destino_por_limiar (personagem_exemplo 2 1)). simpl. lia.
  - apply (epilogo_destino_por_limiar (personagem_exemplo 2 2)). simpl. lia.
  - apply (epilogo_destino_por_limiar (personagem_exemplo 0 1)). simpl. lia.
Defined.

(** ** Character creation *)

Lemma atributos_iniciais_zero (k : string) :
  dict_get_or atributos_iniciais k 0 = 0.
Proof.
  unfold dict_get_or, atributos_iniciais. cbn [dict_get].
  repeat match goal with
         | |- context [String.eqb ?a k] => destruct (String.eqb a k)
         end; reflexivity.
Qed.

Lemma soma_deltas_ausente (es : list Escolha) (k : string) :
  alguma_tem es k = false -> soma_deltas es k = 0.
Proof.
  unfold alguma_tem, soma_deltas, delta, tem_chave, dict_get_or.
  induction es as [| e r IH]; simpl; [reflexivity |].
  destruct (dict_get (esc_atributos e) k); simpl; [discriminate |].
  intros H. now rewrite IH.
Qed.

Lemma criacao_get_or (n : string) (es4 : Escolha * Escolha * Escolha * Escolha) (k : string) :
  let '(m, o, pd, l) := es4 in
  escolhas_ok [m; o; pd; l] ->
  dict_get_or (atributos (aplicar_escolhas (novo_personagem n m o pd l))) k 0
  = soma_deltas [m; o; pd; l] k.
Proof.
  destruct es4 as [[[m o] pd] l]. intros Hok.
  unfold aplicar_escolhas. cbn [atributos com_atributos novo_personagem mundo origem poder legado].
  unfold dict_get_or at 1.
  rewrite (somar_escolhas_get _ Hok).
  destruct (tem_chave atributos_iniciais k || alguma_tem [m; o; pd; l] k) eqn:E.
  - rewrite atributos_iniciais_zero. lia.
  - apply Bool.orb_false_elim in E as [_ E].
    now rewrite soma_deltas_ausente.
Qed.

(** C5.  After creation the value of every key is the sum of the deltas
    the four chosen options give to it (a missing delta counting as 0), and
    creating the character from the same four options taken in any other
    order gives an equal attribute mapping. *)
Theorem aplicar_escolhas_soma_comutativa
  (n : string) (m o pd l : Escolha) :
  escolhas_ok [m; o; pd; l] ->
  let p := aplicar_escolhas (novo_personagem n m o pd l) in
  (forall k, dict_get_or (atributos p) k 0
             = delta m k + delta o k + delta pd k + delta l k)
  /\ (forall m' o' pd' l',
         Permutation [m; o; pd; l] [m'; o'; pd'; l'] ->
         dict_eq (atributos p)
                 (atributos (aplicar_escolhas (novo_personagem n m' o' pd' l')))).
Proof.
  intros Hok p. split.
  - intros k. unfold p.
    rewrite (criacao_get_or n (m, o, pd, l) k Hok).
    unfold soma_deltas. simpl. lia.
  - intros m' o' pd' l' Hp. unfold p, aplicar_escolhas.
    cbn [atributos com_atributos novo_personagem mundo origem poder legado].
    now apply somar_escolhas_perm.
Qed.

Lemma catalogo_exemplo_ok : escolhas_ok [aerilon; cacador; lira; sabio].
Proof.
  repeat constructor; simpl; intuition discriminate.
Qed.

(** The sum for a character of Aerilon, wandering hunter, lyre and sage,
    and the same mapping when the four are taken in reverse. *)
Lemma aplicar_escolhas_soma_comutativa_exemplo :
  let p := aplicar_escolhas (novo_personagem "Ana" aerilon cacador lira sabio) in
  (forall k, dict_get_or (atributos p) k 0
             = delta aerilon k + delta cacador k + delta lira k + delta sabio k)
  /\ dict_eq (atributos p)
             (atributos (aplicar_escolhas (novo_personagem "Ana" sabio lira cacador aerilon))).
Proof.
  pose proof (aplicar_escolhas_soma_comutativa
                "Ana" aerilon cacador lira sabio catalogo_exemplo_ok) as [Hs Hp].
  split; [exact Hs |].
  apply Hp.
  change [sabio; lira; cacador; aerilon] with (rev [aerilon; cacador; lira; sabio]).
  apply Permutation_rev.
Defined.

(** ** Menu selection *)

Lemma solicitar_indice_valida (total i : Z) (amb : Ambiente) (linha : string)
      (resto : list string) :
  entrada amb = linha :: resto -> py_int linha = Some i -> 1 <= i <= total ->
  solicitar_indice total amb
  = Retorna (i - 1) (com_entrada (escrever pedido_indice amb) resto).
Proof.
  intros He Hi Hr. unfold solicitar_indice. rewrite He.
  cbn [solicitar_indice_laco]. rewrite Hi.
  replace ((0 <=? i - 1) && (i - 1 <? total)) with true by lia.
  reflexivity.
Qed.

(** C6.  When the line the player enters reads as an integer [i] with
    [1 <= i <= len(opcoes)], the prompt returns [i - 1] having consumed
    that one line, and [apresentar_opcoes] returns the option at position
    [i - 1] of the menu. *)
Theorem apresentar_opcoes_indice_valido
  (titulo : string) (opcoes : list Escolha) (amb : Ambiente)
  (linha : string) (resto : list string) (i : Z) :
  entrada amb = linha :: resto ->
  py_int linha = Some i ->
  1 <= i <= Z.of_nat (List.length opcoes) ->
  solicitar_indice (Z.of_nat (List.length opcoes)) amb
  = Retorna (i - 1) (com_entrada (escrever pedido_indice amb) resto)
  /\ exists opcao amb',
      nth_error opcoes (Z.to_nat (i - 1)) = Some opcao
      /\ apresentar_opcoes titulo opcoes amb = Retorna opcao amb'
      /\ entrada amb' = resto.
Proof.
  intros He Hi Hr. split; [now apply solicitar_indice_valida with linha |].
  unfold apresentar_opcoes, bind at 1.
  destruct (print_so_escreve (nl ++ "--- " ++ titulo ++ " ---") amb)
    as (amb1 & E1 & S1).
  rewrite E1. unfold bind at 1.
  match goal with
  | |- context [para_cada ?l ?f amb1] =>
      destruct (para_cada_so_escreve f
                  (fun x a => let '(indice, opcao) as x' := x
                                return exists amb', f x' a = Retorna tt amb' /\ so_escreve a amb'
                              in print_so_escreve _ a) l amb1)
        as (amb2 & E2 & S2)
  end.
  rewrite E2. unfold bind at 1.
  assert (He2 : entrada amb2 = linha :: resto).
  { destruct S1 as (H1 & _), S2 as (H2 & _). congruence. }
  rewrite (solicitar_indice_valida _ i amb2 linha resto He2 Hi Hr).
  destruct (py_index_ok opcoes (i - 1)) as (opcao & Hn & Hx); [lia |].
  exists opcao. eexists. rewrite Hx. unfold ret.
  split; [exact Hn | split; reflexivity].
Qed.

(** Entering [2] at the menu of worlds returns the second world. *)
Lemma apresentar_opcoes_indice_valido_exemplo :
  solicitar_indice 3 (ambiente_exemplo ["2"; "1"])
  = Retorna 1 (com_entrada (escrever pedido_indice (ambiente_exemplo ["2"; "1"])) ["1"])
  /\ exists opcao amb',
      nth_error MUNDOS 1 = Some opcao
      /\ apresentar_opcoes "Escolha seu novo mundo" MUNDOS (ambiente_exemplo ["2"; "1"])
         = Retorna opcao amb'
      /\ entrada amb' = ["1"].
Proof.
  apply (apresentar_opcoes_indice_valido
           "Escolha seu novo mundo" MUNDOS (ambiente_exemplo ["2"; "1"]) "2" ["1"] 2).
  - reflexivity.
  - reflexivity.
  - simpl. lia.
Defined.

(** ** Invalid input *)

(** An exhausted input is not handled: after a non-numeric line and an
    out-of-range one, both answered by their message and a new prompt, the
    third [input] raises [EOFError] and the loop lets it through. *)
Lemma solicitar_indice_propaga_EOFError :
  solicitar_indice 3 (ambiente_exemplo ["abc"; "7"])
  = Levanta EOFError
      (mkAmbiente []
         [pedido_indice; aviso_numero ++ nl;
          pedido_indice; aviso_invalida ++ nl;
          pedido_indice]
         (fun _ => 0%N) 0).
Proof. reflexivity. Qed.

(** C7, as the code has it.  A line that does not read as an integer, or
    reads as one outside [[1, total]], makes the loop write the matching
    corrective message and prompt again on the rest of the input, the
    random source untouched.  On every input the loop ends in one of two
    ways: it returns an index of [[0, total)], or the input ran out before
    a valid line and the [EOFError] of [input] goes through. *)
Theorem solicitar_indice_entrada_invalida (total : Z) (amb : Ambiente) :
  (forall linha resto,
      entrada amb = linha :: resto ->
      (py_int linha = None ->
       solicitar_indice total amb
       = solicitar_indice total (reperguntar aviso_numero resto amb))
      /\ (forall n, py_int linha = Some n -> ~ (1 <= n <= total) ->
          solicitar_indice total amb
          = solicitar_indice total (reperguntar aviso_invalida resto amb)))
  /\ ((exists i amb', solicitar_indice total amb = Retorna i amb'
                      /\ 0 <= i < total
                      /\ acaso amb' = acaso amb /\ tiragens amb' = tiragens amb)
      \/ (exists amb', solicitar_indice total amb = Levanta EOFError amb'
                       /\ entrada amb' = []
                       /\ acaso amb' = acaso amb /\ tiragens amb' = tiragens amb)).
Proof.
  split.
  - intros linha resto He. unfold solicitar_indice at 1 3. rewrite He.
    cbn [solicitar_indice_laco]. split.
    + intros Hn. rewrite Hn. unfold solicitar_indice, reperguntar, escrever, com_entrada.
      cbn [entrada saida acaso tiragens]. now rewrite <- app_assoc.
    + intros n Hn Hr. rewrite Hn.
      replace ((0 <=? n - 1) && (n - 1 <? total)) with false by lia.
      unfold solicitar_indice, reperguntar, escrever, com_entrada.
      cbn [entrada saida acaso tiragens]. now rewrite <- app_assoc.
  - unfold solicitar_indice.
    assert (Hfim : forall linhas a a',
               entrada a = linhas ->
               solicitar_indice_laco total linhas a = Levanta EOFError a' ->
               entrada a' = []).
    { induction linhas as [| linha resto IH]; intros a a' Ha;
        cbn [solicitar_indice_laco].
      - intros [= <-]. exact Ha.
      - destruct (py_int linha) as [n |].
        + destruct ((0 <=? n - 1) && (n - 1 <? total)); [discriminate |].
          now apply IH.
        + now apply IH. }
    destruct (solicitar_indice_laco_resultado total (entrada amb) amb)
      as [(i & a & E & Hi & Ha) | (a & E & Ha)].
    + left. now exists i, a.
    + right. exists a. split; [exact E |]. split; [| exact Ha].
      now apply (Hfim (entrada amb) amb a).
Qed.

(** A non-numeric line and then an out-of-range one, each answered by its
    message and a new prompt. *)
Lemma solicitar_indice_entrada_invalida_exemplo :
  solicitar_indice 3 (ambiente_exemplo ["abc"; "7"; "2"])
  = solicitar_indice 3 (reperguntar aviso_numero ["7"; "2"] (ambiente_exemplo ["abc"; "7"; "2"]))
  /\ solicitar_indice 3 (ambiente_exemplo ["7"; "2"])
     = solicitar_indice 3 (reperguntar aviso_invalida ["2"] (ambiente_exemplo ["7"; "2"])).
Proof.
  split.
  - apply (proj1 (solicitar_indice_entrada_invalida 3 (ambiente_exemplo ["abc"; "7"; "2"]))
             "abc" ["7"; "2"] eq_refl).
    reflexivity.
  - apply (proj1 (solicitar_indice_entrada_invalida 3 (ambiente_exemplo ["7"; "2"]))
             "7" ["2"] eq_refl) with (n := 7).
    + reflexivity.
    + lia.
Defined.

(** ** Event resolution *)

Section Resolucao.

Variables (personagem : Personagem) (ev : Evento).
Variables (amb amb1 : Ambiente) (indice : Z).
Variables (identificador texto : string).

Let sorte := dict_get_or (atributos personagem) "sorte" 0.
Let mana := dict_get_or (atributos personagem) "mana" 0.
Let carisma := dict_get_or (atributos personagem) "carisma" 0.
Let vigor := dict_get_or (atributos personagem) "vigor" 0.

(** The player's answer: the prompt returned [indice], leaving [amb1]. *)
Hypothesis Hindice :
  solicitar_indice (Z.of_nat (List.length (escolhas ev))) amb = Retorna indice amb1.

Lemma narrativa_gloria (a : Ambiente) :
  _narrativa "gloria" personagem a
  = Retorna (texto_gloria (sorteio 0 2 a + Z.max sorte carisma / 2), personagem)
            (tirar a).
Proof. reflexivity. Qed.

Lemma narrativa_cicatriz (a : Ambiente) :
  _narrativa "cicatriz" personagem a
  = Retorna (texto_cicatriz (sorteio 0 2 a - Z.min vigor sorte / 3), personagem)
            (tirar a).
Proof. reflexivity. Qed.

Lemma narrativa_mistico (a : Ambiente) :
  _narrativa "mistico" personagem a
  = Retorna (texto_mistico (sorteio 1 6 a + mana),
             com_atributos personagem
               (dict_set (atributos personagem) "mana" (mana + 1)))
            (tirar a).
Proof. reflexivity. Qed.

(** Once the prompt has returned, [Evento.resolver] is the narrative of
    the chosen option's tag, wrapped behind the option's text. *)
Lemma resolver_escolhida (resultado : string) :
  nth_error (escolhas ev) (Z.to_nat indice) = Some (identificador, texto, resultado) ->
  resolver ev personagem amb
  = ('(narrativa, personagem') <- _narrativa resultado personagem ;;
     ret (resultado,
          wrap ("Você opta por " ++ PyStr.lower texto ++ ". " ++ narrativa),
          personagem')) amb1.
Proof.
  intros Hn. unfold resolver, bind at 1. rewrite Hindice.
  destruct (solicitar_indice_intervalo _ _ _ _ Hindice) as (Hi & _).
  destruct (py_index_ok (escolhas ev) indice Hi) as (x & Hx & E).
  rewrite Hn in Hx. injection Hx as <-.
  unfold bind at 1. rewrite E. reflexivity.
Qed.

(** C2.  Choosing an option tagged [mistico] returns the wrapped text
    that reports [r + mana] arcane echoes, [r] being the draw of
    [randint(1, 6)] and [mana] the attribute on entry (0 when missing):
    white space aside, the text is the sentence about the choice followed
    by the mystic narrative with the decimal of [r + mana] in it.
    Afterwards the mana attribute is [mana + 1], every other attribute is
    as before, and neither counter has moved. *)
Theorem resolver_evento_mistico :
  nth_error (escolhas ev) (Z.to_nat indice) = Some (identificador, texto, "mistico") ->
  let r := sorteio 1 6 amb1 in
  exists descricao personagem',
    resolver_evento personagem ev amb = Retorna (descricao, personagem') (tirar amb1)
    /\ descricao
       = wrap ("Você opta por " ++ PyStr.lower texto ++ ". " ++ texto_mistico (r + mana))
    /\ sem_espacos descricao
       = sem_espacos ("Você opta por " ++ PyStr.lower texto ++ ". ")
         ++ "Seupodermísticopulsaintensamente,revelandosegredosantigos.Vocêacumula"
         ++ PyStr.str (r + mana) ++ "ecosarcanoseaperfeiçoasuamana."
    /\ 1 <= r <= 6
    /\ dict_get (atributos personagem') "mana" = Some (mana + 1)
    /\ (forall k, k <> "mana" ->
                  dict_get (atributos personagem') k = dict_get (atributos personagem) k)
    /\ gloria personagem' = gloria personagem
    /\ cicatrizes personagem' = cicatrizes personagem.
Proof.
  intros Hn r.
  exists (wrap ("Você opta por " ++ PyStr.lower texto ++ ". " ++ texto_mistico (r + mana))).
  exists (com_atributos personagem (dict_set (atributos personagem) "mana" (mana + 1))).
  split; [| split; [reflexivity | split]].
  - unfold resolver_evento, bind at 1.
    rewrite (resolver_escolhida _ Hn). unfold bind at 1.
    rewrite narrativa_mistico. reflexivity.
  - rewrite resolvido_sem_espacos by reflexivity. f_equal.
    unfold texto_mistico.
    repeat (rewrite sem_espacos_app by (reflexivity || apply comeca_str)).
    rewrite sem_espacos_str. reflexivity.
  - split; [apply sorteio_intervalo; lia |].
    cbn [atributos com_atributos gloria cicatrizes].
    split; [apply dict_get_set_eq |].
    split; [| split; reflexivity].
    intros k Hk. apply dict_get_set_neq. congruence.
Qed.

(** C3.  Choosing an option tagged [gloria] returns the wrapped text that
    reports a bonus of [r + max(sorte, carisma) // 2], [r] being the draw
    of [randint(0, 2)] and the attributes those on entry (0 when
    missing): white space aside, the text is the sentence about the choice
    followed by the glory narrative with the decimal of the bonus in it.
    The character leaves with [gloria] one higher and nothing else
    changed. *)
Theorem resolver_evento_gloria :
  nth_error (escolhas ev) (Z.to_nat indice) = Some (identificador, texto, "gloria") ->
  let r := sorteio 0 2 amb1 in
  let bonus := r + Z.max sorte carisma / 2 in
  exists descricao personagem',
    resolver_evento personagem ev amb = Retorna (descricao, personagem') (tirar amb1)
    /\ descricao
       = wrap ("Você opta por " ++ PyStr.lower texto ++ ". " ++ texto_gloria bonus)
    /\ sem_espacos descricao
       = sem_espacos ("Você opta por " ++ PyStr.lower texto ++ ". ")
         ++ "Omundosorriparavocê.Seusaliadoscelebram,eodeusGemconcedeumabênçãoadicionalde"
         ++ PyStr.str bonus ++ "pontosdeinspiração."
    /\ 0 <= r <= 2
    /\ gloria personagem' = gloria personagem + 1
    /\ cicatrizes personagem' = cicatrizes personagem
    /\ atributos personagem' = atributos personagem
    /\ nome personagem' = nome personagem.
Proof.
  intros Hn r bonus.
  exists (wrap ("Você opta por " ++ PyStr.lower texto ++ ". " ++ texto_gloria bonus)).
  exists (com_gloria personagem (gloria personagem + 1)).
  split; [| split; [reflexivity | split]].
  - unfold resolver_evento, bind at 1.
    rewrite (resolver_escolhida _ Hn). unfold bind at 1.
    rewrite narrativa_gloria. reflexivity.
  - rewrite resolvido_sem_espacos by reflexivity. f_equal.
    unfold texto_gloria.
    repeat (rewrite sem_espacos_app by (reflexivity || apply comeca_str)).
    rewrite sem_espacos_str. reflexivity.
  - split; [apply sorteio_intervalo; lia |]. repeat split.
Qed.


End Resolucao.

(** C10.  In the [mistico] branch the echo is computed before the
    increment: with [m] the mana on entry (0 when missing) and [r] the draw
    of [randint(1, 6)], the narrative is the mystic text with the decimal
    of [r + m] for the echoes, a number between [1 + m] and [6 + m], and
    the mana stored afterwards is [m + 1]. *)
Theorem narrativa_mistico_eco_anterior (personagem : Personagem) (amb : Ambiente) :
  let m := dict_get_or (atributos personagem) "mana" 0 in
  let r := sorteio 1 6 amb in
  exists personagem',
    _narrativa "mistico" personagem amb
    = Retorna ("Seu poder místico pulsa intensamente, revelando segredos antigos."
               ++ " Você acumula " ++ PyStr.str (r + m)
               ++ " ecos arcanos e aperfeiçoa sua mana.",
               personagem')
              (tirar amb)
    /\ 1 <= r <= 6
    /\ 1 + m <= r + m <= 6 + m
    /\ dict_get_or (atributos personagem') "mana" 0 = m + 1.
Proof.
  intros m r.
  exists (com_atributos personagem (dict_set (atributos personagem) "mana" (m + 1))).
  assert (Hr : 1 <= r <= 6) by (apply sorteio_intervalo; lia).
  split; [reflexivity |].
  split; [exact Hr |].
  split; [lia |].
  cbn [atributos com_atributos]. apply dict_get_or_set_eq.
Qed.

(** At the festival, answer 2 is tagged [mistico]: with 4 mana on entry and
    a draw of 1 the text reports 5 echoes and the mana becomes 5. *)
Lemma resolver_evento_mistico_exemplo :
  let amb := ambiente_exemplo ["2"] in
  let amb1 := com_entrada (escrever pedido_indice amb) [] in
  exists descricao personagem',
    resolver_evento heroi festival amb = Retorna (descricao, personagem') (tirar amb1)
    /\ sem_espacos descricao
       = "Vocêoptapordistribuirbênçãosnasfeirascomaliradocoração."
         ++ "Seupodermísticopulsaintensamente,revelandosegredosantigos."
         ++ "Vocêacumula5ecosarcanoseaperfeiçoasuamana."
    /\ dict_get (atributos personagem') "mana" = Some 5
    /\ gloria personagem' = 0 /\ cicatrizes personagem' = 0.
Proof.
  intros amb amb1.
  destruct (resolver_evento_mistico heroi festival amb amb1 1
              "caridade" "Distribuir bênçãos nas feiras com a Lira do Coração"
              eq_refl eq_refl)
    as (d & p' & E & _ & Hs & _ & Hm & _ & Hg & Hc).
  exists d, p'. split; [exact E |]. split; [exact Hs |].
  split; [exact Hm |]. split; assumption.
Defined.

(** Answer 1 is tagged [gloria]: luck 2 and charisma 3 give a bonus of
    [0 + 3 // 2 = 1] for a draw of 0. *)
Lemma resolver_evento_gloria_exemplo :
  let amb := ambiente_exemplo ["1"] in
  let amb1 := com_entrada (escrever pedido_indice amb) [] in
  exists descricao personagem',
    resolver_evento heroi festival amb = Retorna (descricao, personagem') (tirar amb1)
    /\ sem_espacos descricao
       = "Vocêoptaporexibirsuaforjaestelaremumdueloamistoso."
         ++ "Omundosorriparavocê.Seusaliadoscelebram,"
         ++ "eodeusGemconcedeumabênçãoadicionalde1pontosdeinspiração."
    /\ gloria personagem' = 1 /\ cicatrizes personagem' = 0
    /\ atributos personagem' = atributos heroi.
Proof.
  intros amb amb1.
  destruct (resolver_evento_gloria heroi festival amb amb1 0
              "gloria" "Exibir sua Forja Estelar em um duelo amistoso"
              eq_refl eq_refl)
    as (d & p' & E & _ & Hs & _ & Hg & Hc & Ha & _).
  exists d, p'. split; [exact E |]. split; [exact Hs |].
  split; [exact Hg |]. split; assumption.
Defined.


(** ** Non-negativity along a run *)

Section NaoNegativo.

Lemma dict_get_or_nao_negativo (d : dict) (k : string) :
  valores_nao_negativos d -> 0 <= dict_get_or d k 0.
Proof.
  intros Hd. unfold dict_get_or.
  destruct (dict_get d k) as [v |] eqn:E; [| lia].
  apply (Hd k v). now apply dict_get_In.
Qed.

Lemma dict_set_nao_negativo (d : dict) (k : string) (v : Z) :
  valores_nao_negativos d -> 0 <= v -> valores_nao_negativos (dict_set d k v).
Proof.
  intros Hd Hv k' v' Hin.
  destruct (dict_set_In d k k' v v' Hin) as [H | [_ ->]]; [| exact Hv].
  now apply (Hd k' v').
Qed.

Lemma somar_itens_nao_negativo (itens : list (string * Z)) :
  valores_nao_negativos itens ->
  forall a, valores_nao_negativos a -> valores_nao_negativos (somar_itens a itens).
Proof.
  unfold somar_itens.
  induction itens as [| [k v] r IH]; intros Hi a Ha; simpl; [exact Ha |].
  apply IH.
  - intros k' v' Hin. apply (Hi k' v'). now right.
  - apply dict_set_nao_negativo; [exact Ha |].
    pose proof (dict_get_or_nao_negativo a k Ha).
    pose proof (Hi k v (or_introl eq_refl)). lia.
Qed.

Lemma somar_escolhas_nao_negativo (es : list Escolha) :
  Forall (fun e => valores_nao_negativos (esc_atributos e)) es ->
  forall a, valores_nao_negativos a -> valores_nao_negativos (somar_escolhas a es).
Proof.
  unfold somar_escolhas.
  induction 1 as [| e r He Hr IH]; intros a Ha; simpl; [exact Ha |].
  apply IH. now apply somar_itens_nao_negativo.
Qed.

(** No catalogue entry carries a negative delta. *)
Lemma catalogos_nao_negativos :
  Forall (fun e => valores_nao_negativos (esc_atributos e))
         (MUNDOS ++ ORIGENS ++ PODERES ++ LEGADOS).
Proof.
  repeat constructor;
    intros k v Hin; simpl in Hin;
    repeat (destruct Hin as [[= <- <-] | Hin]; [lia |]); contradiction.
Qed.

Lemma criacao_nao_negativa (n : string) (m o pd l : Escolha) :
  In m MUNDOS -> In o ORIGENS -> In pd PODERES -> In l LEGADOS ->
  nao_negativo (aplicar_escolhas (novo_personagem n m o pd l)).
Proof.
  intros Hm Ho Hpd Hl.
  pose proof catalogos_nao_negativos as Hcat.
  rewrite Forall_forall in Hcat.
  split; [| split; simpl; lia].
  unfold aplicar_escolhas.
  cbn [atributos com_atributos novo_personagem mundo origem poder legado].
  apply somar_escolhas_nao_negativo.
  - repeat constructor; apply Hcat; rewrite !in_app_iff; tauto.
  - intros k v Hin. simpl in Hin.
    repeat (destruct Hin as [[= <- <-] | Hin]; [lia |]); contradiction.
Qed.

(** What a resolved event can do to the character. *)
Lemma resolver_evento_casos (p : Personagem) (ev : Evento) (amb : Ambiente)
      (d : string) (p' : Personagem) (amb' : Ambiente) :
  resolver_evento p ev amb = Retorna (d, p') amb' ->
  p' = com_gloria p (gloria p + 1)
  \/ p' = com_cicatrizes p (cicatrizes p + 1)
  \/ p' = com_atributos p
            (dict_set (atributos p) "mana" (dict_get_or (atributos p) "mana" 0 + 1))
  \/ p' = p.
Proof.
  unfold resolver_evento, resolver, bind.
  destruct (solicitar_indice _ amb) as [i a1 | e a1]; [| discriminate].
  destruct (py_index (escolhas ev) i a1) as [[[ident texto] res] a2 | e a2];
    [| discriminate].
  unfold _narrativa, bind, randint, ret.
  destruct (String.eqb res "gloria") eqn:Eg.
  { intros [= _ <- _]. rewrite Eg. now left. }
  destruct (String.eqb res "cicatriz") eqn:Ec.
  { intros [= _ <- _]. rewrite Eg, Ec. right. now left. }
  destruct (String.eqb res "mistico") eqn:Em.
  { intros [= _ <- _]. rewrite Eg, Ec. right. right. now left. }
  intros [= _ <- _]. rewrite Eg, Ec. now repeat right.
Qed.

Lemma resolver_evento_nao_negativo (p : Personagem) (ev : Evento) (amb : Ambiente)
      (d : string) (p' : Personagem) (amb' : Ambiente) :
  nao_negativo p ->
  resolver_evento p ev amb = Retorna (d, p') amb' ->
  nao_negativo p'.
Proof.
  intros (Ha & Hg & Hc) Hr.
  destruct (resolver_evento_casos _ _ _ _ _ _ Hr) as [-> | [-> | [-> | ->]]];
    unfold nao_negativo; cbn [atributos gloria cicatrizes com_gloria com_cicatrizes com_atributos].
  - repeat split; [exact Ha | lia | exact Hc].
  - repeat split; [exact Ha | exact Hg | lia].
  - repeat split; [| exact Hg | exact Hc].
    apply dict_set_nao_negativo; [exact Ha |].
    pose proof (dict_get_or_nao_negativo (atributos p) "mana" Ha). lia.
  - repeat split; assumption.
Qed.

Lemma alcancavel_nao_negativo (p : Personagem) :
  alcancavel p -> nao_negativo p.
Proof.
  induction 1 as [n m o pd l Hm Ho Hpd Hl | p ev amb d p' amb' _ IH Hr].
  - now apply criacao_nao_negativa.
  - eapply resolver_evento_nao_negativo; eassumption.
Qed.

(** The option a menu returns is one of the menu. *)
Lemma apresentar_opcoes_In (titulo : string) (opcoes : list Escolha)
      (amb : Ambiente) (x : Escolha) (amb' : Ambiente) :
  apresentar_opcoes titulo opcoes amb = Retorna x amb' -> In x opcoes.
Proof.
  unfold apresentar_opcoes, bind.
  destruct (print _ amb) as [[] a1 | e a1]; [| discriminate].
  destruct (para_cada _ _ a1) as [[] a2 | e a2]; [| discriminate].
  destruct (solicitar_indice _ a2) as [i a3 | e a3] eqn:Ei; [| discriminate].
  destruct (solicitar_indice_intervalo _ _ _ _ Ei) as (Hi & _).
  destruct (py_index_ok opcoes i Hi) as (y & Hy & E).
  rewrite E. unfold ret. intros [= <- _].
  eapply nth_error_In; eassumption.
Qed.

Lemma preparar_personagem_alcancavel (amb : Ambiente) (p : Personagem)
      (amb' : Ambiente) :
  preparar_personagem amb = Retorna p amb' -> alcancavel p.
Proof.
  unfold preparar_personagem, bind.
  destruct (solicitar_nome amb) as [n a0 | e a0]; [| discriminate].
  destruct (apresentar_opcoes _ MUNDOS a0) as [m a1 | e a1] eqn:E1; [| discriminate].
  destruct (apresentar_opcoes _ ORIGENS a1) as [o a2 | e a2] eqn:E2; [| discriminate].
  destruct (apresentar_opcoes _ PODERES a2) as [pd a3 | e a3] eqn:E3; [| discriminate].
  destruct (apresentar_opcoes _ LEGADOS a3) as [l a4 | e a4] eqn:E4; [| discriminate].
  unfold ret. intros [= <- _].
  apply alc_criacao; eapply apresentar_opcoes_In; eassumption.
Qed.

Lemma percorrer_eventos_alcancavel (eventos : list Evento) :
  forall p amb p' amb',
    alcancavel p ->
    percorrer_eventos eventos p amb = Retorna p' amb' ->
    alcancavel p'.
Proof.
  induction eventos as [| ev r IH]; intros p amb p' amb' Hp;
    cbn [percorrer_eventos].
  - unfold ret. now intros [= <- _].
  - unfold bind at 1.
    destruct (print _ amb) as [[] a1 | e a1]; [| discriminate].
    unfold bind at 1.
    destruct (resolver_evento p ev a1) as [[d q] a2 | e a2] eqn:Er; [| discriminate].
    unfold bind at 1.
    destruct (print d a2) as [[] a3 | e a3]; [| discriminate].
    apply IH. eapply alc_evento; eassumption.
Qed.

Lemma jogar_alcancavel (amb : Ambiente) (p : Personagem) (amb' : Ambiente) :
  jogar amb = Retorna p amb' -> alcancavel p.
Proof.
  unfold jogar. unfold bind at 1.
  destruct (introducao amb) as [[] a0 | e a0]; [| discriminate].
  unfold bind at 1.
  destruct (preparar_personagem a0) as [q a1 | e a1] eqn:Ep; [| discriminate].
  unfold simular_aventura, bind.
  destruct (print _ a1) as [[] a2 | e a2]; [| discriminate].
  destruct (percorrer_eventos EVENTOS q a2) as [f a3 | e a3] eqn:Ee; [| discriminate].
  destruct (print _ a3) as [[] a4 | e a4]; [| discriminate].
  unfold ret.
  destruct (print _ a4) as [[] a5 | e a5]; [| discriminate].
  intros [= <- _].
  eapply percorrer_eventos_alcancavel; [| exact Ee].
  eapply preparar_personagem_alcancavel; exact Ep.
Qed.

End NaoNegativo.

(** C8.  The character created from four options of the catalogues has
    non-negative attribute values and counters; a resolved event keeps them
    non-negative; so they are non-negative in every character a run goes
    through, the one a complete run ends with included. *)
Theorem nao_negativo_invariante :
  (forall n m o pd l,
      In m MUNDOS -> In o ORIGENS -> In pd PODERES -> In l LEGADOS ->
      nao_negativo (aplicar_escolhas (novo_personagem n m o pd l)))
  /\ (forall p ev amb d p' amb',
         nao_negativo p ->
         resolver_evento p ev amb = Retorna (d, p') amb' ->
         nao_negativo p')
  /\ (forall p, alcancavel p -> nao_negativo p)
  /\ (forall amb p amb', jogar amb = Retorna p amb' -> nao_negativo p).
Proof.
  split; [exact criacao_nao_negativa |].
  split; [exact resolver_evento_nao_negativo |].
  split; [exact alcancavel_nao_negativo |].
  intros amb p amb' Hj.
  apply alcancavel_nao_negativo. eapply jogar_alcancavel; exact Hj.
Qed.

(** The invariant on [heroi], freshly created from the catalogues. *)
Lemma nao_negativo_invariante_exemplo : nao_negativo heroi.
Proof.
  apply (proj1 nao_negativo_invariante "Ana" aerilon cacador lira sabio);
    simpl; tauto.
Defined.

(** * Further properties *)

(** ** The index prompt on a whole input *)

Section PedidoDeIndice.

Variable total : Z.

Lemma linha_valida_correta (linha : string) (n : Z) :
  py_int linha = Some n -> 1 <= n <= total -> linha_valida total linha = true.
Proof. unfold linha_valida. intros -> H. lia. Qed.

(** One round of the loop on a rejected line. *)
Lemma solicitar_indice_laco_rejeita (linha : string) (resto : list string)
      (amb : Ambiente) :
  linha_valida total linha = false ->
  solicitar_indice_laco total (linha :: resto) amb
  = solicitar_indice_laco total resto
      (reperguntar (match py_int linha with
                    | Some _ => aviso_invalida
                    | None => aviso_numero
                    end) resto amb).
Proof.
  unfold linha_valida. cbn [solicitar_indice_laco].
  destruct (py_int linha) as [n |]; intros H.
  - replace ((0 <=? n - 1) && (n - 1 <? total)) with false by lia.
    unfold reperguntar, escrever, com_entrada. cbn [entrada saida acaso tiragens].
    now rewrite <- app_assoc.
  - unfold reperguntar, escrever, com_entrada. cbn [entrada saida acaso tiragens].
    now rewrite <- app_assoc.
Qed.

(** The loop skips rejected lines, answering each with the prompt and its
    message, and stops at the first accepted one. *)
Lemma solicitar_indice_laco_primeira (rejeitadas : list string) :
  forall (linha : string) (resto : list string) (n : Z) (amb : Ambiente),
    Forall (fun l => linha_valida total l = false) rejeitadas ->
    py_int linha = Some n -> 1 <= n <= total ->
    exists amb',
      solicitar_indice_laco total (rejeitadas ++ linha :: resto) amb
      = Retorna (n - 1) amb'
      /\ entrada amb' = resto
      /\ acaso amb' = acaso amb /\ tiragens amb' = tiragens amb
      /\ saida amb' = (saida amb ++ avisos_de rejeitadas ++ [pedido_indice])%list.
Proof.
  induction rejeitadas as [| r rs IH]; intros linha resto n amb Hrej Hn Hr.
  - cbn [app solicitar_indice_laco]. rewrite Hn.
    replace ((0 <=? n - 1) && (n - 1 <? total)) with true by lia.
    eexists. split; [reflexivity |]. now repeat split.
  - inversion Hrej as [| ? ? Hr0 Hrs]; subst.
    cbn [app]. rewrite (solicitar_indice_laco_rejeita r _ amb Hr0).
    set (aviso := match py_int r with Some _ => aviso_invalida | None => aviso_numero end).
    destruct (IH linha resto n (reperguntar aviso (rs ++ linha :: resto) amb) Hrs Hn Hr)
      as (amb' & E & He & Ha & Ht & Hs).
    exists amb'. split; [exact E |].
    cbn [reperguntar acaso tiragens saida] in Ha, Ht, Hs.
    repeat split; try assumption.
    rewrite Hs. unfold avisos_de. cbn [flat_map app].
    now rewrite <- !app_assoc.
Qed.

(** When no line is accepted the loop reads them all and ends with the
    [EOFError] of the next [input]. *)
Lemma solicitar_indice_laco_nenhuma (rejeitadas : list string) :
  forall amb,
    entrada amb = rejeitadas ->
    Forall (fun l => linha_valida total l = false) rejeitadas ->
    exists amb',
      solicitar_indice_laco total rejeitadas amb = Levanta EOFError amb'
      /\ entrada amb' = []
      /\ acaso amb' = acaso amb /\ tiragens amb' = tiragens amb
      /\ saida amb' = (saida amb ++ avisos_de rejeitadas ++ [pedido_indice])%list.
Proof.
  induction rejeitadas as [| r rs IH]; intros amb Hent Hrej.
  - cbn [solicitar_indice_laco]. eexists. split; [reflexivity |].
    now repeat split.
  - inversion Hrej as [| ? ? Hr0 Hrs]; subst.
    rewrite (solicitar_indice_laco_rejeita r rs amb Hr0).
    set (aviso := match py_int r with Some _ => aviso_invalida | None => aviso_numero end).
    destruct (IH (reperguntar aviso rs amb) eq_refl Hrs)
      as (amb' & E & He & Ha & Ht & Hs).
    exists amb'. split; [exact E |].
    cbn [reperguntar acaso tiragens saida] in Ha, Ht, Hs.
    repeat split; try assumption.
    rewrite Hs. unfold avisos_de. cbn [flat_map app].
    now rewrite <- !app_assoc.
Qed.

End PedidoDeIndice.

(** X1.  Whatever rejected lines come first, non-numeric or out of range,
    [solicitar_indice] returns the index of the first accepted line, one
    less than the number on it.  It has then read exactly the lines up to
    that one and left the random source alone, and what it has written is,
    for every rejected line, the prompt and the message that answers it
    (one message for a line that is no number, another for a number out of
    range), and then the prompt of the accepted line. *)
Theorem solicitar_indice_primeira_valida
  (total : Z) (amb : Ambiente) (rejeitadas : list string)
  (linha : string) (resto : list string) (n : Z) :
  entrada amb = (rejeitadas ++ linha :: resto)%list ->
  Forall (fun l => linha_valida total l = false) rejeitadas ->
  py_int linha = Some n -> 1 <= n <= total ->
  exists amb',
    solicitar_indice total amb = Retorna (n - 1) amb'
    /\ entrada amb' = resto
    /\ acaso amb' = acaso amb /\ tiragens amb' = tiragens amb
    /\ saida amb'
       = (saida amb
          ++ flat_map
               (fun l => [(nl ++ "Escolha uma opção: ")%string;
                          ((match py_int l with
                            | Some _ => "Opção inválida, tente novamente."
                            | None => "Digite o número da opção desejada."
                            end) ++ nl)%string])
               rejeitadas
          ++ [(nl ++ "Escolha uma opção: ")%string])%list.
Proof.
  intros He Hrej Hn Hr. unfold solicitar_indice. rewrite He.
  exact (solicitar_indice_laco_primeira total rejeitadas linha resto n amb Hrej Hn Hr).
Qed.

(** Two rejected lines, the second one the Arabic-Indic digit seven, then
    [3]: index 2 after five writes. *)
Lemma solicitar_indice_primeira_valida_exemplo :
  exists amb',
    solicitar_indice 3 (ambiente_exemplo ["x"; "٧"; "3"; "1"]) = Retorna 2 amb'
    /\ entrada amb' = ["1"]
    /\ acaso amb' = acaso (ambiente_exemplo ["x"; "٧"; "3"; "1"])
    /\ tiragens amb' = O
    /\ saida amb'
       = [(nl ++ "Escolha uma opção: ")%string;
          ("Digite o número da opção desejada." ++ nl)%string;
          (nl ++ "Escolha uma opção: ")%string;
          ("Opção inválida, tente novamente." ++ nl)%string;
          (nl ++ "Escolha uma opção: ")%string].
Proof.
  apply (solicitar_indice_primeira_valida
           3 (ambiente_exemplo ["x"; "٧"; "3"; "1"]) ["x"; "٧"] "3" ["1"] 3).
  - reflexivity.
  - repeat constructor.
  - reflexivity.
  - lia.
Defined.

(** X2.  An event without options can never be resolved: the prompt
    accepts no line, so [resolver_evento] reads the whole input, answering
    every line with the prompt and a message, and ends with the [EOFError]
    of the next [input]; the character is never touched and no random
    number is drawn. *)
Theorem resolver_evento_sem_opcoes
  (p : Personagem) (ev : Evento) (amb : Ambiente) :
  escolhas ev = [] ->
  exists amb',
    resolver_evento p ev amb = Levanta EOFError amb'
    /\ entrada amb' = []
    /\ acaso amb' = acaso amb /\ tiragens amb' = tiragens amb
    /\ saida amb'
       = (saida amb
          ++ flat_map
               (fun l => [(nl ++ "Escolha uma opção: ")%string;
                          ((match py_int l with
                            | Some _ => "Opção inválida, tente novamente."
                            | None => "Digite o número da opção desejada."
                            end) ++ nl)%string])
               (entrada amb)
          ++ [(nl ++ "Escolha uma opção: ")%string])%list.
Proof.
  intros He.
  destruct (solicitar_indice_laco_nenhuma 0 (entrada amb) amb eq_refl)
    as (amb' & E & Hs).
  { apply Forall_forall. intros l _. unfold linha_valida.
    destruct (py_int l); [lia | reflexivity]. }
  exists amb'. split; [| exact Hs].
  unfold resolver_evento, resolver, bind, solicitar_indice.
  rewrite He. cbn [List.length Z.of_nat]. now rewrite E.
Qed.

(** An event with a title only, and three answers that all bounce. *)
Lemma resolver_evento_sem_opcoes_exemplo :
  exists amb',
    resolver_evento heroi (mkEvento "Silêncio" "Nada acontece." [])
                    (ambiente_exemplo ["1"; "dois"; "0"])
    = Levanta EOFError amb'
    /\ entrada amb' = []
    /\ acaso amb' = acaso (ambiente_exemplo ["1"; "dois"; "0"])
    /\ tiragens amb' = O
    /\ saida amb'
       = [(nl ++ "Escolha uma opção: ")%string;
          ("Opção inválida, tente novamente." ++ nl)%string;
          (nl ++ "Escolha uma opção: ")%string;
          ("Digite o número da opção desejada." ++ nl)%string;
          (nl ++ "Escolha uma opção: ")%string;
          ("Opção inválida, tente novamente." ++ nl)%string;
          (nl ++ "Escolha uma opção: ")%string].
Proof.
  apply (resolver_evento_sem_opcoes
           heroi (mkEvento "Silêncio" "Nada acontece." [])
           (ambiente_exemplo ["1"; "dois"; "0"])).
  reflexivity.
Defined.

(** ** Options without a marking tag *)

(** X3.  An option whose tag is none of [gloria], [cicatriz] and [mistico]
    changes nothing: [resolver_evento] returns the character as it was,
    the text ends with the fixed neutral sentence, and no random number is
    drawn. *)
Theorem resolver_evento_neutro
  (p : Personagem) (ev : Evento) (amb amb1 : Ambiente) (indice : Z)
  (identificador texto resultado : string) :
  solicitar_indice (Z.of_nat (List.length (escolhas ev))) amb = Retorna indice amb1 ->
  nth_error (escolhas ev) (Z.to_nat indice) = Some (identificador, texto, resultado) ->
  marcante resultado = false ->
  resolver_evento p ev amb
  = Retorna (wrap ("Você opta por " ++ PyStr.lower texto ++ ". " ++ texto_neutro), p)
            amb1.
Proof.
  intros Hi Hn Hm. unfold marcante in Hm.
  apply Bool.orb_false_elim in Hm as [Hm Hmi].
  apply Bool.orb_false_elim in Hm as [Hg Hc].
  unfold resolver_evento, bind at 1.
  rewrite (resolver_escolhida p ev amb amb1 indice identificador texto Hi _ Hn).
  unfold bind at 1, _narrativa. rewrite Hg, Hc, Hmi.
  unfold ret. now rewrite Hg, Hc.
Qed.

(** An option tagged [descanso]. *)
Lemma resolver_evento_neutro_exemplo :
  let ev := mkEvento "Pausa" "Uma tarde sem novidades."
                     [("sesta", "Dormir sob uma árvore", "descanso")] in
  let amb := ambiente_exemplo ["1"] in
  resolver_evento heroi ev amb
  = Retorna (wrap ("Você opta por dormir sob uma árvore. " ++ texto_neutro), heroi)
            (com_entrada (escrever pedido_indice amb) []).
Proof.
  intros ev amb.
  apply (resolver_evento_neutro heroi ev amb _ 0 "sesta" "Dormir sob uma árvore" "descanso");
    reflexivity.
Defined.

(** ** The name prompt *)

Section Strip.

Local Open Scope list_scope.

Variable branco : string -> bool.

Lemma lstrip_se_inicio (cs : list string) (c : string) (r : list string) :
  PyStr.lstrip_se branco cs = c :: r -> branco c = false.
Proof.
  induction cs as [| a cs IH]; cbn [PyStr.lstrip_se]; [discriminate |].
  destruct (branco a) eqn:E; [exact IH |].
  intros [= <- _]. exact E.
Qed.

Lemma lstrip_se_fixo (c : string) (r : list string) :
  branco c = false -> PyStr.lstrip_se branco (c :: r) = c :: r.
Proof. intros H. cbn [PyStr.lstrip_se]. now rewrite H. Qed.

Lemma lstrip_se_sufixo (cs : list string) :
  exists a, cs = a ++ PyStr.lstrip_se branco cs.
Proof.
  induction cs as [| c cs [a IH]]; [now exists [] |].
  cbn [PyStr.lstrip_se]. destruct (branco c); [| now exists []].
  exists (c :: a). cbn [app]. now rewrite <- IH.
Qed.

Lemma rstrip_se_cons (c : string) (r : list string) :
  PyStr.rstrip_se branco (c :: r)
  = match PyStr.rstrip_se branco r with
    | [] => if branco c then [] else [c]
    | r' => c :: r'
    end.
Proof. reflexivity. Qed.

Lemma rstrip_se_inicio (c : string) (r : list string) :
  branco c = false -> exists r', PyStr.rstrip_se branco (c :: r) = c :: r'.
Proof.
  intros H. rewrite rstrip_se_cons.
  destruct (PyStr.rstrip_se branco r); [rewrite H |]; eexists; reflexivity.
Qed.

Lemma rstrip_se_prefixo (cs : list string) :
  exists b, cs = PyStr.rstrip_se branco cs ++ b.
Proof.
  induction cs as [| c cs [b IH]]; [now exists [] |].
  rewrite rstrip_se_cons.
  destruct (PyStr.rstrip_se branco cs) as [| x xs].
  - cbn [app] in IH. subst b.
    destruct (branco c); [now exists (c :: cs) | now exists cs].
  - exists b. rewrite IH at 1. reflexivity.
Qed.

Lemma rstrip_se_idem (cs : list string) :
  PyStr.rstrip_se branco (PyStr.rstrip_se branco cs) = PyStr.rstrip_se branco cs.
Proof.
  induction cs as [| c cs IH]; [reflexivity |].
  rewrite rstrip_se_cons.
  destruct (PyStr.rstrip_se branco cs) as [| a t] eqn:E.
  - destruct (branco c) eqn:B; [reflexivity |].
    rewrite rstrip_se_cons. cbn [PyStr.rstrip_se]. now rewrite B.
  - rewrite rstrip_se_cons, IH. reflexivity.
Qed.

End Strip.

(** What [strip] leaves is cut in code points as the line was. *)
Lemma strip_codepoints (s : string) :
  PyStr.codepoints (PyStr.strip s)
  = PyStr.rstrip_se PyStr.isspace (PyStr.lstrip_se PyStr.isspace (PyStr.codepoints s)).
Proof.
  unfold PyStr.strip. rewrite concat_vazio_texto. apply codepoints_texto.
  destruct (lstrip_se_sufixo PyStr.isspace (PyStr.codepoints s)) as (a & Ha).
  destruct (rstrip_se_prefixo PyStr.isspace
              (PyStr.lstrip_se PyStr.isspace (PyStr.codepoints s))) as (b & Hb).
  pose proof (codepoints_bem_cortada s) as H.
  rewrite Ha, Hb in H.
  apply bem_cortada_sufixo in H. now apply bem_cortada_prefixo in H.
Qed.

(** Stripping a stripped text changes nothing. *)
Lemma strip_idem (s : string) : PyStr.strip (PyStr.strip s) = PyStr.strip s.
Proof.
  unfold PyStr.strip at 1. rewrite strip_codepoints. unfold PyStr.strip.
  f_equal.
  destruct (PyStr.lstrip_se PyStr.isspace (PyStr.codepoints s)) as [| c r] eqn:E;
    [reflexivity |].
  pose proof (lstrip_se_inicio _ _ _ _ E) as Hc.
  destruct (rstrip_se_inicio PyStr.isspace c r Hc) as (r' & Er).
  rewrite Er, (lstrip_se_fixo _ c r' Hc), <- Er.
  apply rstrip_se_idem.
Qed.

Lemma solicitar_nome_laco_primeiro (vazias : list string) :
  forall (linha : string) (resto : list string) (amb : Ambiente),
    Forall (fun l => PyStr.strip l = "") vazias ->
    PyStr.strip linha <> "" ->
    exists amb',
      solicitar_nome_laco (vazias ++ linha :: resto) amb
      = Retorna (PyStr.strip linha) amb'
      /\ entrada amb' = resto
      /\ acaso amb' = acaso amb /\ tiragens amb' = tiragens amb.
Proof.
  induction vazias as [| v vs IH]; intros linha resto amb Hv Hl.
  - cbn [app solicitar_nome_laco].
    destruct (PyStr.strip linha) eqn:E; [contradiction |].
    eexists. split; [reflexivity |]. now repeat split.
  - inversion Hv as [| ? ? Hv0 Hvs]; subst.
    cbn [app solicitar_nome_laco]. rewrite Hv0.
    destruct (IH linha resto
                 (escrever (aviso_nome ++ nl)
                    (com_entrada (escrever pedido_nome amb) (vs ++ linha :: resto)))
                 Hvs Hl)
      as (amb' & E & He & Ha & Ht).
    exists amb'. split; [exact E |]. now repeat split.
Qed.

Lemma solicitar_nome_laco_retorno (linhas : list string) :
  forall amb nome amb',
    solicitar_nome_laco linhas amb = Retorna nome amb' ->
    nome <> "" /\ exists linha, In linha linhas /\ nome = PyStr.strip linha.
Proof.
  induction linhas as [| l ls IH]; intros amb nome amb';
    cbn [solicitar_nome_laco]; [discriminate |].
  destruct (PyStr.strip l) as [| c r] eqn:E.
  - intros H. destruct (IH _ _ _ H) as (Hn & linha & Hin & Hl).
    split; [exact Hn |]. exists linha. split; [now right | exact Hl].
  - intros [= <- _]. split; [discriminate |].
    exists l. split; [now left | now rewrite E].
Qed.

(** X4.  [solicitar_nome] skips the lines that are blank once stripped and
    returns the first other line, stripped, having read exactly the lines
    up to it.  What it returns is never empty, has no white space at
    either end, and is the stripped form of a line of the input. *)
Theorem solicitar_nome_primeiro_nome (amb : Ambiente) :
  (forall vazias linha resto,
      entrada amb = (vazias ++ linha :: resto)%list ->
      Forall (fun l => PyStr.strip l = "") vazias ->
      PyStr.strip linha <> "" ->
      exists amb',
        solicitar_nome amb = Retorna (PyStr.strip linha) amb'
        /\ entrada amb' = resto
        /\ acaso amb' = acaso amb /\ tiragens amb' = tiragens amb)
  /\ (forall nome amb',
         solicitar_nome amb = Retorna nome amb' ->
         nome <> "" /\ PyStr.strip nome = nome
         /\ exists linha, In linha (entrada amb) /\ nome = PyStr.strip linha).
Proof.
  split.
  - intros vazias linha resto He Hv Hl. unfold solicitar_nome. rewrite He.
    now apply solicitar_nome_laco_primeiro.
  - intros nome amb' H.
    destruct (solicitar_nome_laco_retorno _ _ _ _ H) as (Hn & linha & Hin & ->).
    split; [exact Hn |]. split; [apply strip_idem |].
    now exists linha.
Qed.

(** An empty line and a line of white space (a space, the no-break space
    U+00A0 and the ideographic space U+3000), then a padded name. *)
Lemma solicitar_nome_primeiro_nome_exemplo :
  let brancos := " " ++ Unicode.chr 0xA0 ++ Unicode.chr 0x3000 in
  let linha := Unicode.chr 0x3000 ++ " Ana Clara " in
  exists amb',
    solicitar_nome (ambiente_exemplo [""; brancos; linha; "1"])
    = Retorna "Ana Clara" amb'
    /\ entrada amb' = ["1"]
    /\ acaso amb' = acaso (ambiente_exemplo [""; brancos; linha; "1"])
    /\ tiragens amb' = O.
Proof.
  intros brancos linha.
  apply (proj1 (solicitar_nome_primeiro_nome
                  (ambiente_exemplo [""; brancos; linha; "1"]))
               [""; brancos] linha ["1"]).
  - reflexivity.
  - repeat constructor.
  - discriminate.
Defined.

(** ** The only exception of a run *)

Section SoEOFError.

Lemma so_EOFError_retorna {A} (c : IO A) :
  (forall amb, exists a amb', c amb = Retorna a amb') -> so_EOFError c.
Proof.
  intros H amb e amb' E. destruct (H amb) as (a & a' & R). congruence.
Qed.

Lemma so_EOFError_bind {A B} (c : IO A) (k : A -> IO B) (Q : A -> Prop) :
  so_EOFError c -> devolve c Q -> (forall a, Q a -> so_EOFError (k a)) ->
  so_EOFError (bind c k).
Proof.
  intros Hc Hq Hk amb e amb'. unfold bind.
  destruct (c amb) as [a a1 | e1 a1] eqn:E.
  - apply (Hk a). exact (Hq _ _ _ E).
  - intros [= <- <-]. exact (Hc _ _ _ E).
Qed.

Lemma so_EOFError_seq {A B} (c : IO A) (k : A -> IO B) :
  so_EOFError c -> (forall a, so_EOFError (k a)) -> so_EOFError (bind c k).
Proof.
  intros Hc Hk.
  apply (so_EOFError_bind c k (fun _ => True)); [exact Hc | easy | auto].
Qed.

Lemma so_EOFError_print (s : string) : so_EOFError (print s).
Proof. apply so_EOFError_retorna. intros amb. now do 2 eexists. Qed.

Lemma so_EOFError_ret {A} (a : A) : so_EOFError (ret a).
Proof. apply so_EOFError_retorna. intros amb. now do 2 eexists. Qed.

Lemma so_EOFError_para_cada {A} (corpo : A -> IO unit) (l : list A) :
  (forall x, so_EOFError (corpo x)) -> so_EOFError (para_cada l corpo).
Proof.
  intros H. induction l as [| x r IH]; cbn [para_cada].
  - apply so_EOFError_ret.
  - apply so_EOFError_seq; [apply H | intros _; exact IH].
Qed.

Lemma solicitar_indice_laco_fim (total : Z) (linhas : list string) :
  forall amb e amb',
    entrada amb = linhas ->
    solicitar_indice_laco total linhas amb = Levanta e amb' ->
    e = EOFError /\ entrada amb' = [].
Proof.
  induction linhas as [| linha resto IH]; intros amb e amb' Ha;
    cbn [solicitar_indice_laco].
  - intros [= <- <-]. now split.
  - destruct (py_int linha) as [n |].
    + destruct ((0 <=? n - 1) && (n - 1 <? total)); [discriminate |].
      now apply IH.
    + now apply IH.
Qed.

Lemma so_EOFError_solicitar_indice (total : Z) : so_EOFError (solicitar_indice total).
Proof.
  intros amb e amb'. unfold solicitar_indice.
  now apply solicitar_indice_laco_fim.
Qed.

Lemma devolve_solicitar_indice (total : Z) :
  devolve (solicitar_indice total) (fun i => 0 <= i < total).
Proof.
  intros amb i amb' H. now destruct (solicitar_indice_intervalo _ _ _ _ H).
Qed.

Lemma solicitar_nome_laco_fim (linhas : list string) :
  forall amb e amb',
    entrada amb = linhas ->
    solicitar_nome_laco linhas amb = Levanta e amb' ->
    e = EOFError /\ entrada amb' = [].
Proof.
  induction linhas as [| linha resto IH]; intros amb e amb' Ha;
    cbn [solicitar_nome_laco].
  - intros [= <- <-]. now split.
  - destruct (PyStr.strip linha); [| discriminate]. now apply IH.
Qed.

Lemma so_EOFError_solicitar_nome : so_EOFError solicitar_nome.
Proof.
  intros amb e amb'. unfold solicitar_nome. now apply solicitar_nome_laco_fim.
Qed.

Lemma so_EOFError_py_index {A} (lista : list A) (i : Z) :
  0 <= i < Z.of_nat (List.length lista) -> so_EOFError (py_index lista i).
Proof.
  intros Hi. destruct (py_index_ok lista i Hi) as (x & _ & ->).
  apply so_EOFError_ret.
Qed.

Lemma so_EOFError_apresentar_opcoes (titulo : string) (opcoes : list Escolha) :
  so_EOFError (apresentar_opcoes titulo opcoes).
Proof.
  unfold apresentar_opcoes.
  apply so_EOFError_seq; [apply so_EOFError_print | intros _].
  apply so_EOFError_seq.
  { apply so_EOFError_para_cada. intros [i o]. apply so_EOFError_print. }
  intros _.
  eapply so_EOFError_bind;
    [apply so_EOFError_solicitar_indice | apply devolve_solicitar_indice |].
  intros i Hi. now apply so_EOFError_py_index.
Qed.

Lemma so_EOFError_narrativa (resultado : string) (p : Personagem) :
  so_EOFError (_narrativa resultado p).
Proof.
  apply so_EOFError_retorna. intros amb. unfold _narrativa, bind, randint, ret.
  destruct (String.eqb resultado "gloria"); [now do 2 eexists |].
  destruct (String.eqb resultado "cicatriz"); [now do 2 eexists |].
  destruct (String.eqb resultado "mistico"); now do 2 eexists.
Qed.

Lemma so_EOFError_resolver_evento (p : Personagem) (ev : Evento) :
  so_EOFError (resolver_evento p ev).
Proof.
  unfold resolver_evento, resolver.
  apply so_EOFError_seq; [| intros [[res d] p1]; apply so_EOFError_ret].
  eapply so_EOFError_bind;
    [apply so_EOFError_solicitar_indice | apply devolve_solicitar_indice |].
  intros i Hi.
  apply so_EOFError_seq; [now apply so_EOFError_py_index |].
  intros [[ident texto] res].
  apply so_EOFError_seq; [apply so_EOFError_narrativa |].
  intros [narr p1]. apply so_EOFError_ret.
Qed.

Lemma so_EOFError_percorrer_eventos (eventos : list Evento) :
  forall p, so_EOFError (percorrer_eventos eventos p).
Proof.
  induction eventos as [| ev r IH]; intros p; cbn [percorrer_eventos].
  - apply so_EOFError_ret.
  - apply so_EOFError_seq; [apply so_EOFError_print | intros _].
    apply so_EOFError_seq; [apply so_EOFError_resolver_evento |].
    intros [narr p1].
    apply so_EOFError_seq; [apply so_EOFError_print | intros _; apply IH].
Qed.

Lemma so_EOFError_jogar : so_EOFError jogar.
Proof.
  unfold jogar.
  apply so_EOFError_seq.
  { unfold introducao.
    do 5 (apply so_EOFError_seq; [apply so_EOFError_print | intros _]).
    apply so_EOFError_print. }
  intros _.
  apply so_EOFError_seq.
  { unfold preparar_personagem.
    apply so_EOFError_seq; [apply so_EOFError_solicitar_nome | intros n].
    do 4 (apply so_EOFError_seq; [apply so_EOFError_apresentar_opcoes | intros ?]).
    apply so_EOFError_ret. }
  intros p.
  apply so_EOFError_seq.
  { unfold simular_aventura.
    apply so_EOFError_seq; [apply so_EOFError_print | intros _].
    apply so_EOFError_seq; [apply so_EOFError_percorrer_eventos | intros f].
    apply so_EOFError_seq; [apply so_EOFError_print | intros _].
    apply so_EOFError_ret. }
  intros f.
  apply so_EOFError_seq; [apply so_EOFError_print | intros _].
  apply so_EOFError_ret.
Qed.

End SoEOFError.

(** X5.  No list indexing of a run is out of range: [opcoes[indice]] and
    [self.escolhas[indice]] are always given an index that the prompt
    returned for that very list, so whatever the input, [jogar] never
    raises [IndexError]. *)
Theorem jogar_nunca_IndexError (amb : Ambiente) (e : Excecao) (amb' : Ambiente) :
  jogar amb = Levanta e amb' -> e <> IndexError.
Proof.
  intros H. destruct (so_EOFError_jogar _ _ _ H) as [-> _]. discriminate.
Qed.

(** A player who gives a name and one answer, and then leaves. *)
Lemma jogar_nunca_IndexError_exemplo :
  exists e amb',
    jogar (ambiente_exemplo ["Ana"; "1"]) = Levanta e amb' /\ e <> IndexError.
Proof.
  eassert (E : jogar (ambiente_exemplo ["Ana"; "1"]) = Levanta _ _).
  { vm_compute. reflexivity. }
  do 2 eexists. split; [exact E |].
  exact (jogar_nunca_IndexError _ _ _ E).
Defined.

(** ** What an answered event does *)

Section Efeito.

Lemma marcante_casos (resultado : string) :
  marcante resultado = true ->
  resultado = "gloria" \/ resultado = "cicatriz" \/ resultado = "mistico".
Proof.
  unfold marcante. intros H.
  apply Bool.orb_true_iff in H as [H | H];
    [apply Bool.orb_true_iff in H as [H | H] |];
    apply String.eqb_eq in H; tauto.
Qed.

(** An answered event leaves the character [efeito] makes of it, draws one
    random number when the tag is a marking one and none otherwise, and
    reads nothing beyond the answer. *)
Lemma resolver_evento_efeito (p : Personagem) (ev : Evento) (amb amb1 : Ambiente)
      (indice : Z) (identificador texto resultado : string) :
  solicitar_indice (Z.of_nat (List.length (escolhas ev))) amb = Retorna indice amb1 ->
  nth_error (escolhas ev) (Z.to_nat indice) = Some (identificador, texto, resultado) ->
  exists d amb2,
    resolver_evento p ev amb = Retorna (d, efeito resultado p) amb2
    /\ entrada amb2 = entrada amb1 /\ acaso amb2 = acaso amb1
    /\ tiragens amb2
       = (tiragens amb1 + if marcante resultado then 1 else 0)%nat.
Proof.
  intros Hi Hn.
  unfold resolver_evento, bind at 1.
  rewrite (resolver_escolhida p ev amb amb1 indice identificador texto Hi _ Hn).
  unfold bind at 1, _narrativa, efeito, marcante, bind, randint, ret.
  destruct (String.eqb resultado "gloria") eqn:Eg;
    [| destruct (String.eqb resultado "cicatriz") eqn:Ec;
       [| destruct (String.eqb resultado "mistico") eqn:Em]];
    rewrite ?Eg, ?Ec; do 2 eexists; (split; [reflexivity |]);
      cbn [entrada acaso tiragens tirar orb]; repeat split; lia.
Qed.

(** Conversely, a resolved event was answered with one of its options. *)
Lemma resolver_evento_origem (p : Personagem) (ev : Evento) (amb : Ambiente)
      (d : string) (p' : Personagem) (amb' : Ambiente) :
  resolver_evento p ev amb = Retorna (d, p') amb' ->
  exists identificador texto resultado,
    In (identificador, texto, resultado) (escolhas ev)
    /\ p' = efeito resultado p
    /\ (exists amb1, tiragens amb1 = tiragens amb
                     /\ tiragens amb'
                        = (tiragens amb1 + if marcante resultado then 1 else 0)%nat).
Proof.
  intros H.
  destruct (solicitar_indice (Z.of_nat (List.length (escolhas ev))) amb)
    as [i a1 | e a1] eqn:Ei.
  - destruct (solicitar_indice_intervalo _ _ _ _ Ei) as (Hi & _ & Ht).
    destruct (py_index_ok (escolhas ev) i Hi) as ([[ident texto] res] & Hn & _).
    destruct (resolver_evento_efeito p ev amb a1 i ident texto res Ei Hn)
      as (d2 & a2 & E & _ & _ & Ht2).
    rewrite E in H. injection H as _ <- <-.
    exists ident, texto, res. split; [eapply nth_error_In; exact Hn |].
    split; [reflexivity |]. now exists a1.
  - unfold resolver_evento, resolver, bind in H. rewrite Ei in H. discriminate.
Qed.

Lemma efeito_opcoes (resultado : string) (p : Personagem) :
  nome (efeito resultado p) = nome p
  /\ mundo (efeito resultado p) = mundo p /\ origem (efeito resultado p) = origem p
  /\ poder (efeito resultado p) = poder p /\ legado (efeito resultado p) = legado p.
Proof.
  unfold efeito.
  destruct (String.eqb resultado "gloria"); [now repeat split |].
  destruct (String.eqb resultado "cicatriz"); [now repeat split |].
  destruct (String.eqb resultado "mistico"); now repeat split.
Qed.

Lemma efeito_outros_atributos (resultado : string) (p : Personagem) (k : string) :
  k <> "mana" ->
  dict_get (atributos (efeito resultado p)) k = dict_get (atributos p) k.
Proof.
  intros Hk. unfold efeito.
  destruct (String.eqb resultado "gloria"); [reflexivity |].
  destruct (String.eqb resultado "cicatriz"); [reflexivity |].
  destruct (String.eqb resultado "mistico"); [| reflexivity].
  cbn [atributos com_atributos]. apply dict_get_set_neq. congruence.
Qed.

(** A marking option adds one to exactly one of glory, scars and mana. *)
Lemma efeito_marcante (resultado : string) (p : Personagem) :
  marcante resultado = true ->
  feitos (efeito resultado p) = feitos p + 1
  /\ gloria p <= gloria (efeito resultado p)
  /\ cicatrizes p <= cicatrizes (efeito resultado p)
  /\ dict_get_or (atributos p) "mana" 0
     <= dict_get_or (atributos (efeito resultado p)) "mana" 0.
Proof.
  intros H. unfold feitos.
  destruct (marcante_casos _ H) as [-> | [-> | ->]];
    cbn [efeito String.eqb Ascii.eqb Bool.eqb gloria cicatrizes atributos
         com_gloria com_cicatrizes com_atributos];
    rewrite ?dict_get_or_set_eq; repeat split; lia.
Qed.

End Efeito.

(** ** Keys of the attribute dictionary *)

Section Chaves.

Lemma tem_chave_In (d : dict) (k : string) :
  tem_chave d k = true <-> In k (dict_keys d).
Proof.
  unfold tem_chave, dict_keys.
  induction d as [| [k' v] r IH]; cbn [dict_get map fst In].
  - split; [discriminate | contradiction].
  - destruct (String.eqb k' k) eqn:E.
    + apply String.eqb_eq in E. split; [now left | reflexivity].
    + apply String.eqb_neq in E. rewrite IH. tauto.
Qed.

(** An assignment keeps every key where it is and appends a new one. *)
Lemma dict_keys_set (d : dict) (k : string) (v : Z) :
  dict_keys (dict_set d k v)
  = (dict_keys d ++ if tem_chave d k then [] else [k])%list.
Proof.
  unfold dict_keys, tem_chave.
  induction d as [| [k' v'] r IH]; cbn [dict_set dict_get map fst app];
    [reflexivity |].
  destruct (String.eqb k' k) eqn:E; cbn [map fst].
  - now rewrite app_nil_r.
  - now rewrite IH.
Qed.

Lemma dict_ok_set (d : dict) (k : string) (v : Z) :
  dict_ok d -> dict_ok (dict_set d k v).
Proof.
  unfold dict_ok. fold (dict_keys d) (dict_keys (dict_set d k v)).
  rewrite dict_keys_set. intros Hd.
  destruct (tem_chave d k) eqn:E; [now rewrite app_nil_r |].
  apply NoDup_app; [exact Hd | repeat constructor; intros [] |].
  intros x Hx [<- | []].
  apply tem_chave_In in Hx. congruence.
Qed.

Lemma somar_itens_chaves (itens : list (string * Z)) :
  forall a,
    (dict_ok a -> dict_ok (somar_itens a itens))
    /\ (exists novas, dict_keys (somar_itens a itens) = (dict_keys a ++ novas)%list)
    /\ (forall k, In k (dict_keys (somar_itens a itens))
                  <-> In k (dict_keys a) \/ In k (map fst itens)).
Proof.
  unfold somar_itens.
  induction itens as [| [k0 v0] r IH]; intros a; cbn [fold_left map fst In].
  - split; [auto |]. split; [exists []; now rewrite app_nil_r | tauto].
  - destruct (IH (dict_set a k0 (dict_get_or a k0 0 + v0))) as (Hok & (novas & Hn) & Hin).
    split; [intros Ha; apply Hok; now apply dict_ok_set |].
    split.
    + rewrite Hn, dict_keys_set, <- app_assoc. now eexists.
    + intros k. rewrite Hin, dict_keys_set, in_app_iff.
      destruct (tem_chave a k0) eqn:E; cbn [In].
      * apply tem_chave_In in E. split; [tauto |].
        intros [H | [<- | H]]; tauto.
      * tauto.
Qed.

Lemma somar_escolhas_chaves (es : list Escolha) :
  forall a,
    (dict_ok a -> dict_ok (somar_escolhas a es))
    /\ (exists novas, dict_keys (somar_escolhas a es) = (dict_keys a ++ novas)%list)
    /\ (forall k, In k (dict_keys (somar_escolhas a es))
                  <-> In k (dict_keys a)
                      \/ exists e, In e es /\ In k (dict_keys (esc_atributos e))).
Proof.
  unfold somar_escolhas.
  induction es as [| e r IH]; intros a; cbn [fold_left].
  - split; [auto |]. split; [exists []; now rewrite app_nil_r |].
    intros k. split; [tauto | intros [H | (e & [] & _)]; exact H].
  - destruct (somar_itens_chaves (dict_items (esc_atributos e)) a)
      as (Hok1 & (n1 & Hn1) & Hin1).
    destruct (IH (somar_itens a (dict_items (esc_atributos e))))
      as (Hok & (novas & Hn) & Hin).
    split; [auto |]. split.
    + rewrite Hn, Hn1, <- app_assoc. now eexists.
    + intros k. rewrite Hin, Hin1. unfold dict_items, dict_keys. split.
      * intros [[H | H] | (e' & He' & H)]; [tauto | |].
        -- right. exists e. split; [now left | exact H].
        -- right. exists e'. split; [now right | exact H].
      * intros [H | (e' & [<- | He'] & H)]; [tauto | tauto |].
        right. now exists e'.
Qed.

(** When every key of the options is already there, the keys stay as they
    are. *)
Lemma somar_escolhas_chaves_fixas (es : list Escolha) (a : dict) :
  dict_ok a ->
  Forall (fun e => incl (dict_keys (esc_atributos e)) (dict_keys a)) es ->
  dict_keys (somar_escolhas a es) = dict_keys a.
Proof.
  intros Ha Hes.
  destruct (somar_escolhas_chaves es a) as (Hok & (novas & Hn) & Hin).
  destruct novas as [| k novas]; [now rewrite Hn, app_nil_r |].
  exfalso. specialize (Hok Ha). unfold dict_ok in Hok.
  fold (dict_keys (somar_escolhas a es)) in Hok. rewrite Hn in Hok.
  apply NoDup_remove_2 in Hok. apply Hok. rewrite in_app_iff. left.
  assert (Hk : In k (dict_keys (somar_escolhas a es))).
  { rewrite Hn, in_app_iff. right. now left. }
  apply Hin in Hk as [Hk | (e & He & Hk)]; [exact Hk |].
  rewrite Forall_forall in Hes. exact (Hes e He k Hk).
Qed.

End Chaves.

(** X6.  [aplicar_escolhas] never removes or moves an attribute: the keys
    the dictionary had stay in their places and the new ones are appended;
    the keys afterwards are those it had and those of the four options;
    and keys that were pairwise distinct stay so. *)
Theorem aplicar_escolhas_chaves (p : Personagem) :
  (exists novas,
      dict_keys (atributos (aplicar_escolhas p))
      = (dict_keys (atributos p) ++ novas)%list)
  /\ (forall k,
         In k (dict_keys (atributos (aplicar_escolhas p)))
         <-> In k (dict_keys (atributos p))
             \/ exists e, In e [mundo p; origem p; poder p; legado p]
                          /\ In k (dict_keys (esc_atributos e)))
  /\ (dict_ok (atributos p) -> dict_ok (atributos (aplicar_escolhas p))).
Proof.
  unfold aplicar_escolhas. cbn [atributos com_atributos].
  destruct (somar_escolhas_chaves [mundo p; origem p; poder p; legado p] (atributos p))
    as (Hok & Hn & Hin).
  split; [exact Hn |]. split; [exact Hin | exact Hok].
Qed.

(** A legacy that brings a fifth attribute: it goes last. *)
Lemma aplicar_escolhas_chaves_exemplo :
  dict_ok (atributos
             (aplicar_escolhas
                (novo_personagem "Ana" aerilon cacador lira
                   (mkEscolha "Vidente" "Enxerga além." [("visao", 2); ("mana", 1)])))).
Proof.
  apply aplicar_escolhas_chaves.
  repeat constructor; simpl; intuition discriminate.
Defined.

(** ** The attributes of a reachable character *)

Section AtributosDeUmaRodada.

Lemma catalogos_chaves :
  Forall (fun e => incl (dict_keys (esc_atributos e)) chaves_iniciais)
         (MUNDOS ++ ORIGENS ++ PODERES ++ LEGADOS).
Proof.
  unfold MUNDOS, ORIGENS, PODERES, LEGADOS. cbn [app].
  repeat (apply Forall_cons;
          [intros k Hk; cbn in Hk |- *;
           repeat (destruct Hk as [<- | Hk]; [tauto |]); contradiction |]).
  apply Forall_nil.
Qed.

Lemma catalogos_ok :
  Forall (fun e => dict_ok (esc_atributos e))
         (MUNDOS ++ ORIGENS ++ PODERES ++ LEGADOS).
Proof.
  repeat constructor; simpl; intuition discriminate.
Qed.

Lemma do_catalogo (P : Escolha -> Prop) (m o pd l : Escolha) :
  Forall P (MUNDOS ++ ORIGENS ++ PODERES ++ LEGADOS) ->
  In m MUNDOS -> In o ORIGENS -> In pd PODERES -> In l LEGADOS ->
  Forall P [m; o; pd; l].
Proof.
  intros H Hm Ho Hpd Hl. rewrite Forall_forall in H.
  repeat constructor; apply H; rewrite !in_app_iff; tauto.
Qed.

Lemma criacao_chaves (n : string) (m o pd l : Escolha) :
  In m MUNDOS -> In o ORIGENS -> In pd PODERES -> In l LEGADOS ->
  dict_keys (atributos (aplicar_escolhas (novo_personagem n m o pd l)))
  = chaves_iniciais.
Proof.
  intros Hm Ho Hpd Hl. unfold aplicar_escolhas.
  cbn [atributos com_atributos novo_personagem mundo origem poder legado].
  apply (somar_escolhas_chaves_fixas [m; o; pd; l] atributos_iniciais).
  - repeat constructor; simpl; intuition discriminate.
  - now apply (do_catalogo _ m o pd l catalogos_chaves).
Qed.

Lemma efeito_chaves (resultado : string) (p : Personagem) :
  In "mana" (dict_keys (atributos p)) ->
  dict_keys (atributos (efeito resultado p)) = dict_keys (atributos p).
Proof.
  intros Hm. unfold efeito.
  destruct (String.eqb resultado "gloria"); [reflexivity |].
  destruct (String.eqb resultado "cicatriz"); [reflexivity |].
  destruct (String.eqb resultado "mistico"); [| reflexivity].
  cbn [atributos com_atributos]. rewrite dict_keys_set.
  apply tem_chave_In in Hm. rewrite Hm. apply app_nil_r.
Qed.

Lemma alcancavel_chaves (p : Personagem) :
  alcancavel p -> dict_keys (atributos p) = chaves_iniciais.
Proof.
  induction 1 as [n m o pd l Hm Ho Hpd Hl | p ev amb d p' amb' _ IH Hr].
  - now apply criacao_chaves.
  - destruct (resolver_evento_origem _ _ _ _ _ _ Hr) as (i & t & res & _ & -> & _).
    rewrite efeito_chaves; [exact IH |].
    rewrite IH. cbn. tauto.
Qed.

(** The listing of a reachable character. *)
Lemma alcancavel_listagem (p : Personagem) :
  alcancavel p ->
  exists vigor mana sorte carisma,
    atributos p
    = [("vigor", vigor); ("mana", mana); ("sorte", sorte); ("carisma", carisma)]
    /\ resumo_atributos p
       = "Vigor: " ++ PyStr.str vigor ++ ", Mana: " ++ PyStr.str mana
         ++ ", Sorte: " ++ PyStr.str sorte ++ ", Carisma: " ++ PyStr.str carisma.
Proof.
  intros H. apply alcancavel_chaves in H.
  unfold resumo_atributos, dict_items.
  unfold dict_keys, chaves_iniciais in H.
  destruct (atributos p) as [| [k1 v1] [| [k2 v2] [| [k3 v3] [| [k4 v4] [| ? ?]]]]];
    try discriminate H.
  cbn [map fst] in H. injection H as -> -> -> ->.
  exists v1, v2, v3, v4. split; reflexivity.
Qed.

End AtributosDeUmaRodada.

(** X7.  Every character a run goes through has exactly the four
    attributes of the default dictionary, in its order: the catalogues name
    no other attribute and events add none.  So the listing of the epilogue
    always reads vigor, mana, luck, charisma, each with its value. *)
Theorem alcancavel_quatro_atributos (p : Personagem) :
  alcancavel p ->
  exists vigor mana sorte carisma,
    atributos p
    = [("vigor", vigor); ("mana", mana); ("sorte", sorte); ("carisma", carisma)]
    /\ resumo_atributos p
       = "Vigor: " ++ PyStr.str vigor ++ ", Mana: " ++ PyStr.str mana
         ++ ", Sorte: " ++ PyStr.str sorte ++ ", Carisma: " ++ PyStr.str carisma.
Proof. exact (alcancavel_listagem p). Qed.

(** The listing of [heroi]. *)
Lemma alcancavel_quatro_atributos_exemplo :
  exists vigor mana sorte carisma,
    atributos heroi
    = [("vigor", vigor); ("mana", mana); ("sorte", sorte); ("carisma", carisma)]
    /\ resumo_atributos heroi
       = "Vigor: " ++ PyStr.str vigor ++ ", Mana: " ++ PyStr.str mana
         ++ ", Sorte: " ++ PyStr.str sorte ++ ", Carisma: " ++ PyStr.str carisma.
Proof.
  apply (alcancavel_quatro_atributos heroi).
  apply alc_criacao; simpl; tauto.
Defined.

(** ** The attribute listing of the epilogue *)




(** ** A complete run *)

Section RodadaCompleta.

Lemma introducao_so_escreve (amb : Ambiente) :
  exists amb', introducao amb = Retorna tt amb' /\ so_escreve amb amb'.
Proof.
  unfold introducao, bind, print. eexists. split; [reflexivity |].
  now repeat split.
Qed.

Lemma solicitar_nome_laco_tiragens (linhas : list string) :
  forall amb nome amb',
    solicitar_nome_laco linhas amb = Retorna nome amb' ->
    tiragens amb' = tiragens amb.
Proof.
  induction linhas as [| l ls IH]; intros amb nome amb';
    cbn [solicitar_nome_laco]; [discriminate |].
  destruct (PyStr.strip l).
  - intros H. now rewrite (IH _ _ _ H).
  - now intros [= _ <-].
Qed.

Lemma apresentar_opcoes_retorno (titulo : string) (opcoes : list Escolha)
      (amb : Ambiente) (x : Escolha) (amb' : Ambiente) :
  apresentar_opcoes titulo opcoes amb = Retorna x amb' ->
  In x opcoes /\ tiragens amb' = tiragens amb.
Proof.
  intros H. split; [eapply apresentar_opcoes_In; exact H |].
  revert H. unfold apresentar_opcoes, bind at 1.
  destruct (print_so_escreve (nl ++ "--- " ++ titulo ++ " ---") amb)
    as (a1 & -> & _ & _ & T1).
  unfold bind at 1.
  match goal with
  | |- context [para_cada ?l ?f a1] =>
      destruct (para_cada_so_escreve f
                  (fun x a => let '(indice, opcao) as x' := x
                                return exists amb', f x' a = Retorna tt amb' /\ so_escreve a amb'
                              in print_so_escreve _ a) l a1)
        as (a2 & -> & _ & _ & T2)
  end.
  unfold bind at 1.
  destruct (solicitar_indice _ a2) as [i a3 | e a3] eqn:Ei; [| discriminate].
  destruct (solicitar_indice_intervalo _ _ _ _ Ei) as (Hi & _ & T3).
  destruct (py_index_ok opcoes i Hi) as (y & _ & ->).
  unfold ret. intros [= _ <-]. congruence.
Qed.

(** The character that the four menus make. *)
Lemma preparar_personagem_criado (amb : Ambiente) (p : Personagem) (amb' : Ambiente) :
  preparar_personagem amb = Retorna p amb' ->
  (exists n m o pd l,
      In m MUNDOS /\ In o ORIGENS /\ In pd PODERES /\ In l LEGADOS
      /\ p = aplicar_escolhas (novo_personagem n m o pd l))
  /\ tiragens amb' = tiragens amb.
Proof.
  unfold preparar_personagem, bind, solicitar_nome.
  destruct (solicitar_nome_laco (entrada amb) amb) as [n a0 | e a0] eqn:E0; [| discriminate].
  apply solicitar_nome_laco_tiragens in E0.
  destruct (apresentar_opcoes _ MUNDOS a0) as [m a1 | e a1] eqn:E1; [| discriminate].
  destruct (apresentar_opcoes _ ORIGENS a1) as [o a2 | e a2] eqn:E2; [| discriminate].
  destruct (apresentar_opcoes _ PODERES a2) as [pd a3 | e a3] eqn:E3; [| discriminate].
  destruct (apresentar_opcoes _ LEGADOS a3) as [l a4 | e a4] eqn:E4; [| discriminate].
  apply apresentar_opcoes_retorno in E1 as (H1 & T1), E2 as (H2 & T2),
      E3 as (H3 & T3), E4 as (H4 & T4).
  unfold ret. intros [= <- <-]. split; [| congruence].
  now exists n, m, o, pd, l.
Qed.

(** Right after creation nothing has been scored and every attribute is
    the sum of the deltas of the recorded options. *)
Lemma criacao_soma_opcoes (n : string) (m o pd l : Escolha) :
  In m MUNDOS -> In o ORIGENS -> In pd PODERES -> In l LEGADOS ->
  let p := aplicar_escolhas (novo_personagem n m o pd l) in
  gloria p = 0 /\ cicatrizes p = 0
  /\ forall k, dict_get_or (atributos p) k 0 = soma_opcoes p k.
Proof.
  intros Hm Ho Hpd Hl p. split; [reflexivity |]. split; [reflexivity |].
  intros k. unfold p.
  rewrite (criacao_get_or n (m, o, pd, l) k
             (do_catalogo _ m o pd l catalogos_ok Hm Ho Hpd Hl)).
  unfold soma_opcoes, soma_deltas. simpl. lia.
Qed.

(** Over events whose options all carry a marking tag, every event adds
    one to glory, scars or mana, draws one random number, and touches
    nothing else of the character. *)
Lemma percorrer_eventos_conta (eventos : list Evento) :
  todas_marcantes eventos ->
  forall p amb p' amb',
    percorrer_eventos eventos p amb = Retorna p' amb' ->
    feitos p' = feitos p + Z.of_nat (List.length eventos)
    /\ gloria p <= gloria p' /\ cicatrizes p <= cicatrizes p'
    /\ dict_get_or (atributos p) "mana" 0 <= dict_get_or (atributos p') "mana" 0
    /\ (forall k, k <> "mana" -> dict_get (atributos p') k = dict_get (atributos p) k)
    /\ (forall k, soma_opcoes p' k = soma_opcoes p k)
    /\ tiragens amb' = (tiragens amb + List.length eventos)%nat.
Proof.
  induction eventos as [| ev r IH]; intros Hm p amb p' amb';
    cbn [percorrer_eventos].
  - unfold ret. intros [= <- <-]. cbn [List.length Z.of_nat].
    repeat split; try lia. 
  - inversion Hm as [| ? ? Hev Hr]; subst.
    unfold bind at 1.
    destruct (print_so_escreve (Evento_apresentar ev) amb) as (a1 & -> & _ & _ & T1).
    unfold bind at 1.
    destruct (resolver_evento p ev a1) as [[d q] a2 | e a2] eqn:Er; [| discriminate].
    unfold bind at 1.
    destruct (print_so_escreve d a2) as (a3 & -> & _ & _ & T3).
    intros H. destruct (IH Hr _ _ _ _ H) as (Hf & Hg & Hc & Hma & Ho & Hs & Ht).
    destruct (resolver_evento_origem _ _ _ _ _ _ Er)
      as (i & t & res & Hin & -> & a1' & Ta & Tb).
    rewrite Forall_forall in Hev. specialize (Hev _ Hin). cbn in Hev.
    destruct (efeito_marcante res p Hev) as (Hf1 & Hg1 & Hc1 & Hm1).
    rewrite Hev in Tb.
    destruct (efeito_opcoes res p) as (_ & E1 & E2 & E3 & E4).
    cbn [List.length]. rewrite Nat2Z.inj_succ.
    split; [lia |]. split; [lia |]. split; [lia |]. split; [lia |].
    split; [| split].
    + intros k Hk. rewrite (Ho k Hk). now apply efeito_outros_atributos.
    + intros k. rewrite Hs. unfold soma_opcoes. now rewrite E1, E2, E3, E4.
    + lia.
Qed.

Lemma eventos_marcantes : todas_marcantes EVENTOS.
Proof. repeat constructor. Qed.

Lemma jogar_partes (amb : Ambiente) (p : Personagem) (amb' : Ambiente) :
  jogar amb = Retorna p amb' ->
  exists a0 p0 a1 a2 a3,
    so_escreve amb a0
    /\ preparar_personagem a0 = Retorna p0 a1
    /\ tiragens a2 = tiragens a1
    /\ percorrer_eventos EVENTOS p0 a2 = Retorna p a3
    /\ tiragens amb' = tiragens a3.
Proof.
  unfold jogar. unfold bind at 1.
  destruct (introducao_so_escreve amb) as (a0 & -> & S0).
  unfold bind at 1.
  destruct (preparar_personagem a0) as [p0 a1 | e a1] eqn:Ep; [| discriminate].
  unfold simular_aventura, bind.
  destruct (print_so_escreve
              (nl ++ "Gem ergue o cetro prateado e os fios do destino começam a brilhar...")
              a1) as (a2 & -> & _ & _ & T2).
  destruct (percorrer_eventos EVENTOS p0 a2) as [f a3 | e a3] eqn:Ee; [| discriminate].
  unfold print, ret. intros [= <- <-].
  exists a0, p0, a1, a2, a3. repeat split; try assumption; apply S0.
Qed.

End RodadaCompleta.

(** X8.  The score of a complete run.  Each of the three events adds one
    to glory, to scars or to mana, so the character [jogar] returns has
    non-negative counters with [gloria + cicatrizes <= 3]; its mana is the
    sum of the mana deltas of its four options plus one for every event
    that scored neither glory nor scar; every other attribute is still the
    sum of its deltas; the legend text of the epilogue is selected exactly
    when all three events were glorious; and the run drew three random
    numbers. *)
Theorem jogar_placar (amb : Ambiente) (p : Personagem) (amb' : Ambiente) :
  jogar amb = Retorna p amb' ->
  0 <= gloria p /\ 0 <= cicatrizes p /\ gloria p + cicatrizes p <= 3
  /\ dict_get_or (atributos p) "mana" 0
     = soma_opcoes p "mana" + (3 - gloria p - cicatrizes p)
  /\ (forall k, k <> "mana" -> dict_get_or (atributos p) k 0 = soma_opcoes p k)
  /\ (epilogo_destino p = destino_lenda <-> gloria p = 3)
  /\ tiragens amb' = (tiragens amb + 3)%nat.
Proof.
  intros H.
  destruct (jogar_partes _ _ _ H) as (a0 & p0 & a1 & a2 & a3 & S0 & Ep & T2 & Ee & T4).
  destruct (preparar_personagem_criado _ _ _ Ep)
    as ((n & m & o & pd & l & Hm & Ho & Hpd & Hl & ->) & T1).
  destruct (criacao_soma_opcoes n m o pd l Hm Ho Hpd Hl) as (G0 & C0 & A0).
  destruct (percorrer_eventos_conta EVENTOS eventos_marcantes _ _ _ _ Ee)
    as (Hf & Hg & Hc & Hma & Hout & Hs & Ht).
  change (Z.of_nat (List.length EVENTOS)) with 3 in Hf.
  change (List.length EVENTOS) with 3%nat in Ht.
  unfold feitos in Hf. rewrite G0, C0, (A0 "mana") in Hf.
  rewrite G0 in Hg. rewrite C0 in Hc. rewrite (A0 "mana") in Hma.
  assert (Hg0 : 0 <= gloria p) by lia.
  assert (Hc0 : 0 <= cicatrizes p) by lia.
  assert (Hgc : gloria p + cicatrizes p <= 3) by lia.
  split; [exact Hg0 |]. split; [exact Hc0 |]. split; [exact Hgc |].
  split; [rewrite Hs; lia |].
  split.
  { intros k Hk. unfold dict_get_or. rewrite (Hout k Hk), Hs.
    exact (A0 k). }
  split.
  - unfold epilogo_destino.
    destruct (3 <=? gloria p - cicatrizes p) eqn:E3; [split; [lia | reflexivity] |].
    split; [| lia].
    destruct (1 <=? gloria p - cicatrizes p);
      [| destruct (gloria p - cicatrizes p =? 0)]; discriminate.
  - destruct S0 as (_ & _ & T0). lia.
Qed.

(** Glory, glory and the seal: two glories, no scar, one more mana. *)
Lemma jogar_placar_exemplo :
  exists p amb',
    jogar (ambiente_exemplo ["Ana"; "1"; "3"; "3"; "2"; "1"; "2"; "3"]) = Retorna p amb'
    /\ gloria p + cicatrizes p <= 3
    /\ dict_get_or (atributos p) "mana" 0
       = soma_opcoes p "mana" + (3 - gloria p - cicatrizes p)
    /\ tiragens amb' = 3%nat.
Proof.
  eassert (E : jogar (ambiente_exemplo ["Ana"; "1"; "3"; "3"; "2"; "1"; "2"; "3"])
               = Retorna _ _).
  { vm_compute. reflexivity. }
  destruct (jogar_placar _ _ _ E) as (_ & _ & Hgc & Hm & _ & _ & Ht).
  do 2 eexists. split; [exact E |]. split; [exact Hgc |]. split; [exact Hm | exact Ht].
Defined.

(** ** A run on eight good answers *)

Section OitoRespostas.

Lemma linha_valida_numero (total : Z) (linha : string) :
  linha_valida total linha = true ->
  exists n, py_int linha = Some n /\ 1 <= n <= total.
Proof.
  unfold linha_valida. destruct (py_int linha) as [n |]; [| discriminate].
  intros H. exists n. split; [reflexivity | lia].
Qed.

Lemma apresentar_opcoes_valida (titulo : string) (opcoes : list Escolha)
      (amb : Ambiente) (linha : string) (resto : list string) (n : Z) :
  entrada amb = linha :: resto ->
  py_int linha = Some n -> 1 <= n <= Z.of_nat (List.length opcoes) ->
  exists opcao amb',
    nth_error opcoes (Z.to_nat (n - 1)) = Some opcao
    /\ apresentar_opcoes titulo opcoes amb = Retorna opcao amb'
    /\ entrada amb' = resto.
Proof.
  intros He Hn Hr. unfold apresentar_opcoes, bind at 1.
  destruct (print_so_escreve (nl ++ "--- " ++ titulo ++ " ---") amb)
    as (a1 & -> & S1 & _).
  unfold bind at 1.
  match goal with
  | |- context [para_cada ?l ?f a1] =>
      destruct (para_cada_so_escreve f
                  (fun x a => let '(indice, opcao) as x' := x
                                return exists amb', f x' a = Retorna tt amb' /\ so_escreve a amb'
                              in print_so_escreve _ a) l a1)
        as (a2 & -> & S2 & _)
  end.
  unfold bind at 1.
  assert (He2 : entrada a2 = linha :: resto) by congruence.
  rewrite (solicitar_indice_valida _ n a2 linha resto He2 Hn Hr).
  destruct (py_index_ok opcoes (n - 1)) as (opcao & Hx & ->); [lia |].
  exists opcao. eexists. split; [exact Hx |]. split; reflexivity.
Qed.

Lemma resolver_evento_valida (p : Personagem) (ev : Evento) (amb : Ambiente)
      (linha : string) (resto : list string) :
  entrada amb = linha :: resto ->
  linha_valida (Z.of_nat (List.length (escolhas ev))) linha = true ->
  exists resultado d amb',
    resolver_evento p ev amb = Retorna (d, efeito resultado p) amb'
    /\ entrada amb' = resto.
Proof.
  intros He Hv. destruct (linha_valida_numero _ _ Hv) as (n & Hn & Hr).
  pose proof (solicitar_indice_valida _ n amb linha resto He Hn Hr) as Hi.
  destruct (py_index_ok (escolhas ev) (n - 1)) as ([[ident texto] res] & Hx & _);
    [lia |].
  destruct (resolver_evento_efeito p ev amb _ (n - 1) ident texto res Hi Hx)
    as (d & a2 & E & He2 & _).
  exists res, d, a2. split; [exact E |]. exact He2.
Qed.

Lemma percorrer_eventos_valida (eventos : list Evento) :
  forall (respostas : list string) (p : Personagem) (amb : Ambiente)
         (resto : list string),
    Forall2 (fun ev l => linha_valida (Z.of_nat (List.length (escolhas ev))) l = true)
            eventos respostas ->
    entrada amb = (respostas ++ resto)%list ->
    exists p' amb',
      percorrer_eventos eventos p amb = Retorna p' amb'
      /\ entrada amb' = resto
      /\ nome p' = nome p /\ mundo p' = mundo p /\ origem p' = origem p
      /\ poder p' = poder p /\ legado p' = legado p.
Proof.
  induction eventos as [| ev r IH]; intros respostas p amb resto Hf He;
    inversion Hf as [| ? l ? ls Hl Hls]; subst; cbn [percorrer_eventos].
  - exists p, amb. now repeat split.
  - unfold bind at 1.
    destruct (print_so_escreve (Evento_apresentar ev) amb) as (a1 & -> & S1 & _).
    unfold bind at 1.
    assert (He1 : entrada a1 = l :: (ls ++ resto)%list) by (rewrite S1; exact He).
    destruct (resolver_evento_valida p ev a1 l _ He1 Hl) as (res & d & a2 & -> & He2).
    unfold bind at 1.
    destruct (print_so_escreve d a2) as (a3 & -> & S3 & _).
    assert (He3 : entrada a3 = (ls ++ resto)%list) by congruence.
    destruct (IH ls (efeito res p) a3 resto Hls He3)
      as (p' & amb' & E & Hr & H1 & H2 & H3 & H4 & H5).
    destruct (efeito_opcoes res p) as (G1 & G2 & G3 & G4 & G5).
    exists p', amb'. split; [exact E |]. split; [exact Hr |].
    repeat split; congruence.
Qed.

End OitoRespostas.

(** X9.  Eight good answers make a complete run.  With a first line that
    is not blank, four lines that read as numbers from 1 to 3 and three
    more of the same kind, [jogar] returns: the character bears the
    stripped first line as its name and the options the four numbers point
    at in the catalogues, and exactly those eight lines have been read. *)
Theorem jogar_oito_respostas
  (amb : Ambiente) (ln l1 l2 l3 l4 : string) (respostas resto : list string)
  (n1 n2 n3 n4 : Z) :
  entrada amb = ln :: l1 :: l2 :: l3 :: l4 :: (respostas ++ resto)%list ->
  PyStr.strip ln <> "" ->
  py_int l1 = Some n1 -> 1 <= n1 <= 3 ->
  py_int l2 = Some n2 -> 1 <= n2 <= 3 ->
  py_int l3 = Some n3 -> 1 <= n3 <= 3 ->
  py_int l4 = Some n4 -> 1 <= n4 <= 3 ->
  List.length respostas = 3%nat ->
  Forall (fun l => linha_valida 3 l = true) respostas ->
  exists p amb',
    jogar amb = Retorna p amb'
    /\ entrada amb' = resto
    /\ nome p = PyStr.strip ln
    /\ nth_error MUNDOS (Z.to_nat (n1 - 1)) = Some (mundo p)
    /\ nth_error ORIGENS (Z.to_nat (n2 - 1)) = Some (origem p)
    /\ nth_error PODERES (Z.to_nat (n3 - 1)) = Some (poder p)
    /\ nth_error LEGADOS (Z.to_nat (n4 - 1)) = Some (legado p).
Proof.
  intros He Hln H1 R1 H2 R2 H3 R3 H4 R4 Hlen Hresp.
  unfold jogar. unfold bind at 1.
  destruct (introducao_so_escreve amb) as (a0 & -> & S0 & _).
  rewrite <- S0 in He.
  unfold bind at 1, preparar_personagem. unfold bind at 1.
  unfold solicitar_nome. rewrite He.
  destruct (solicitar_nome_laco_primeiro [] ln (l1 :: l2 :: l3 :: l4 :: respostas ++ resto)
              a0 (Forall_nil _) Hln) as (b0 & Eb & E0 & _).
  cbn [app] in Eb. rewrite Eb. clear Eb.
  unfold bind at 1.
  destruct (apresentar_opcoes_valida "Escolha seu novo mundo" MUNDOS b0 l1 _ n1 E0 H1 R1)
    as (m & b1 & Hm & -> & E1).
  unfold bind at 1.
  destruct (apresentar_opcoes_valida "Qual será sua nova origem?" ORIGENS b1 l2 _ n2 E1 H2 R2)
    as (o & b2 & Ho & -> & E2).
  unfold bind at 1.
  destruct (apresentar_opcoes_valida "Qual bênção deseja receber?" PODERES b2 l3 _ n3 E2 H3 R3)
    as (pd & b3 & Hpd & -> & E3).
  unfold bind at 1.
  destruct (apresentar_opcoes_valida "Qual legado pretende construir?" LEGADOS b3 l4 _ n4 E3 H4 R4)
    as (l & b4 & Hl & -> & E4).
  unfold ret at 1.
  unfold bind at 1, simular_aventura. unfold bind at 1.
  match goal with
  | |- context [print ?s b4] =>
      destruct (print_so_escreve s b4) as (c0 & -> & T0 & _)
  end.
  rewrite <- T0 in E4. unfold bind at 1.
  assert (Hf2 : Forall2 (fun ev l => linha_valida (Z.of_nat (List.length (escolhas ev))) l = true)
                        EVENTOS respostas).
  { destruct respostas as [| r1 [| r2 [| r3 [| ? ?]]]]; try discriminate Hlen.
    inversion Hresp as [| ? ? V1 Hresp1]; subst.
    inversion Hresp1 as [| ? ? V2 Hresp2]; subst.
    inversion Hresp2 as [| ? ? V3 _]; subst.
    repeat constructor; assumption. }
  destruct (percorrer_eventos_valida EVENTOS respostas
              (aplicar_escolhas (novo_personagem (PyStr.strip ln) m o pd l))
              c0 resto Hf2 E4)
    as (p & c1 & -> & E5 & N & M1 & M2 & M3 & M4).
  unfold bind, print, ret.
  do 2 eexists. split; [reflexivity |].
  cbn [entrada escrever].
  split; [exact E5 |]. split; [exact N |].
  rewrite M1, M2, M3, M4. now repeat split.
Qed.

(** A player called Ana, with a line left over on the input. *)
Lemma jogar_oito_respostas_exemplo :
  exists p amb',
    jogar (ambiente_exemplo ["Ana"; "1"; "3"; "3"; "2"; "1"; "2"; "3"; "sobra"])
    = Retorna p amb'
    /\ entrada amb' = ["sobra"]
    /\ nome p = PyStr.strip "Ana"
    /\ nth_error MUNDOS (Z.to_nat (1 - 1)) = Some (mundo p)
    /\ nth_error ORIGENS (Z.to_nat (3 - 1)) = Some (origem p)
    /\ nth_error PODERES (Z.to_nat (3 - 1)) = Some (poder p)
    /\ nth_error LEGADOS (Z.to_nat (2 - 1)) = Some (legado p).
Proof.
  apply (jogar_oito_respostas
           (ambiente_exemplo ["Ana"; "1"; "3"; "3"; "2"; "1"; "2"; "3"; "sobra"])
           "Ana" "1" "3" "3" "2" ["1"; "2"; "3"] ["sobra"] 1 3 3 2);
    try reflexivity; try lia.
  - discriminate.
  - repeat constructor.
Defined.

(** ** The width of the wrapped lines *)

Section Largura.

Import TextWrap.
Local Open Scope list_scope.
Local Open Scope nat_scope.

(** [len] counts the bytes that start a code point, and one more when the
    text starts in the middle of one. *)
Lemma len_iniciais (s : string) : PyStr.len s = iniciais s + peso_inicial s.
Proof.
  unfold PyStr.len, peso_inicial.
  induction s as [| c r IH]; [reflexivity |].
  pose proof (codepoints_cabeca r) as Hc.
  cbn [PyStr.codepoints iniciais PyStr.comeca_continuacao].
  destruct (PyStr.codepoints r) as [| t ts].
  - subst r. cbn. destruct (PyStr.continuacao c); reflexivity.
  - rewrite <- Hc in IH.
    destruct (PyStr.comeca_continuacao t); cbn [List.length] in *;
      destruct (PyStr.continuacao c); lia.
Qed.

Lemma iniciais_app (a b : string) :
  iniciais (a ++ b)%string = iniciais a + iniciais b.
Proof.
  induction a as [| c a IH]; [reflexivity |].
  cbn [String.append iniciais]. destruct (PyStr.continuacao c); lia.
Qed.

Lemma len_app_le (a b : string) :
  PyStr.len (a ++ b)%string <= PyStr.len a + PyStr.len b.
Proof.
  rewrite !len_iniciais, iniciais_app. unfold peso_inicial.
  destruct a as [| c a]; cbn [String.append PyStr.comeca_continuacao];
    destruct (PyStr.comeca_continuacao b); try destruct (PyStr.continuacao c); lia.
Qed.

Lemma len_um_codepoint (c : string) : um_codepoint c -> PyStr.len c = 1.
Proof.
  destruct c as [| b r]; [contradiction |].
  cbn [um_codepoint]. intros H.
  rewrite len_iniciais. unfold peso_inicial.
  cbn [iniciais PyStr.comeca_continuacao]. rewrite H.
  destruct (PyStr.continuacao b); reflexivity.
Qed.

Lemma len_texto_le (cps : list string) :
  Forall um_codepoint cps -> PyStr.len (texto cps) <= List.length cps.
Proof.
  induction 1 as [| c r Hc Hr IH]; [reflexivity |].
  cbn [texto fold_right List.length]. fold (texto r).
  pose proof (len_app_le c (texto r)). rewrite (len_um_codepoint c Hc) in H. lia.
Qed.

Lemma expandtabs_um_codepoint (cs : list string) :
  Forall um_codepoint cs -> forall col, Forall um_codepoint (expandtabs cs col).
Proof.
  induction 1 as [| c r Hc Hr IH]; intros col; cbn [expandtabs]; [constructor |].
  destruct (String.eqb c tab).
  - apply Forall_app. split; [| apply IH].
    apply Forall_forall. intros x Hx. apply repeat_spec in Hx. now subst x.
  - destruct (String.eqb c nl || String.eqb c cr); constructor; auto.
Qed.

Lemma munge_um_codepoint (cs : list string) :
  Forall um_codepoint cs -> Forall um_codepoint (munge_whitespace cs).
Proof.
  intros H. unfold munge_whitespace.
  apply Forall_map. eapply Forall_impl; [| apply (expandtabs_um_codepoint cs H 0)].
  intros c Hc. destruct (branco c); [reflexivity | exact Hc].
Qed.

Lemma concat_de_codepoints (chunks : list chunk) :
  chunks_de_codepoints chunks <-> Forall um_codepoint (List.concat chunks).
Proof.
  unfold chunks_de_codepoints.
  induction chunks as [| c r IH]; cbn [List.concat].
  - split; constructor.
  - rewrite Forall_app, <- IH. split.
    + intros H. inversion H; subst. tauto.
    + intros [H1 H2]. now constructor.
Qed.

Lemma encher_comprimento (chunks : list chunk) (width : nat) :
  forall cur_line cur_len cur_line' cur_len' resto,
    encher chunks cur_line cur_len width = (cur_line', cur_len', resto) ->
    cur_len = List.length (List.concat cur_line) -> cur_len <= width ->
    cur_len' = List.length (List.concat cur_line') /\ cur_len' <= width.
Proof.
  induction chunks as [| c r IH]; intros cl n cl' n' resto; cbn [encher].
  - intros [= <- <- <-]. tauto.
  - destruct (n + List.length c <=? width) eqn:E.
    + intros H Hn Hw. apply (IH _ _ _ _ _ H).
      * rewrite concat_app, length_app. cbn [List.concat]. rewrite app_nil_r. lia.
      * now apply Nat.leb_le in E.
    + intros [= <- <- <-]. tauto.
Qed.

(** One round adds at most one line, and one that fits. *)
Lemma rodada_largura (width : nat) (c0 : chunk) (r0 : list chunk)
      (lines : list string) (chunks3 : list chunk) (lines' : list string) :
  chunks_de_codepoints (c0 :: r0) ->
  Forall (cabe_em width) lines ->
  rodada width c0 r0 lines = (chunks3, lines') ->
  chunks_de_codepoints chunks3 /\ Forall (cabe_em width) lines'.
Proof.
  intros Hcp Hl. unfold rodada.
  set (chunks1 := if vazio_ou_branco c0 && negb (Nat.eqb (List.length lines) 0)
                  then r0 else c0 :: r0).
  assert (Hcp1 : chunks_de_codepoints chunks1).
  { unfold chunks1. destruct (_ && _); [now inversion Hcp | exact Hcp]. }
  clearbody chunks1.
  destruct (encher chunks1 [] 0 width) as [[cur_line cur_len] chunks2] eqn:E.
  destruct (encher_particao _ _ _ _ _ _ _ E) as (postos & Hcl & Hc1 & _).
  destruct (encher_comprimento _ _ _ _ _ _ _ E eq_refl (Nat.le_0_l _)) as (Hlen & Hw).
  cbn [app] in Hcl. subst cur_line chunks1.
  unfold chunks_de_codepoints in Hcp1. rewrite Forall_app in Hcp1.
  destruct Hcp1 as (Hpostos & Hcp2).
  set (par := match chunks2 with
              | c :: r =>
                  if (width <? List.length c)%nat
                  then let '(cabe, sobra) := handle_long_word c cur_len width in
                       (postos ++ [cabe], sobra :: r)
                  else (postos, chunks2)
              | [] => (postos, chunks2)
              end).
  assert (H2 : chunks_de_codepoints (snd par)
               /\ chunks_de_codepoints (fst par)
               /\ List.length (List.concat (fst par)) <= width).
  { unfold par. destruct chunks2 as [| c r]; [cbn [fst snd]; split; [constructor | split; [exact Hpostos | lia]] |].
    destruct (width <? List.length c) eqn:L;
      [| cbn [fst snd]; split; [exact Hcp2 | split; [exact Hpostos | lia]]].
    destruct (handle_long_word_corte c cur_len width) as (fim & -> & Hfim & _).
    cbn [fst snd]. inversion Hcp2 as [| ? ? Hc Hr]; subst.
    split; [| split].
    - constructor; [| exact Hr].
      rewrite <- (firstn_skipn fim c) in Hc. apply Forall_app in Hc. tauto.
    - apply Forall_app. split; [exact Hpostos |]. constructor; [| constructor].
      rewrite <- (firstn_skipn fim c) in Hc. apply Forall_app in Hc. tauto.
    - rewrite concat_app, length_app. cbn [List.concat]. rewrite app_nil_r.
      pose proof (firstn_le_length fim c). rewrite length_firstn. lia. }
  destruct par as [cur_line2 chunks3'] eqn:P. cbn [fst snd] in H2.
  destruct H2 as (Hcp3 & Hcl2 & Hlen2).
  intros [= <- <-]. split; [exact Hcp3 |].
  destruct (sem_branco_final_prefixo cur_line2) as (fim & Hpre).
  destruct (sem_branco_final cur_line2) as [| x xs] eqn:S3; [exact Hl |].
  apply Forall_app. split; [exact Hl |]. constructor; [| constructor].
  exists (List.concat (x :: xs)). split; [apply concat_vazio_texto |].
  rewrite Hpre in Hcl2, Hlen2.
  unfold chunks_de_codepoints in Hcl2. rewrite Forall_app in Hcl2.
  rewrite concat_app, length_app in Hlen2.
  split; [lia |]. apply concat_de_codepoints. tauto.
Qed.

Lemma wrap_chunks_largura (width : nat) :
  forall fuel chunks lines,
    chunks_de_codepoints chunks ->
    Forall (cabe_em width) lines ->
    Forall (cabe_em width) (wrap_chunks fuel width chunks lines).
Proof.
  induction fuel as [| f IH]; intros chunks lines Hcp Hl; [exact Hl |].
  destruct chunks as [| c0 r0]; [exact Hl |].
  cbn [wrap_chunks].
  destruct (rodada width c0 r0 lines) as [chunks3 lines'] eqn:R.
  destruct (rodada_largura _ _ _ _ _ _ Hcp Hl R) as (Hcp3 & Hl').
  now apply IH.
Qed.

End Largura.

Section LinhasDoTexto.

Local Open Scope list_scope.
Local Open Scope nat_scope.

Lemma linhas_de_nao_vazia (s : string) : linhas_de s <> [].
Proof.
  destruct s as [| c r]; cbn [linhas_de]; [discriminate |].
  destruct (Ascii.eqb c (ascii_of_nat 10)); [discriminate |].
  destruct (linhas_de r); discriminate.
Qed.

(** Splitting at the line breaks undoes joining with them. *)
Lemma linhas_de_app (a b : string) :
  linhas_de (a ++ nl ++ b)%string = linhas_de a ++ linhas_de b.
Proof.
  induction a as [| c a IH]; [reflexivity |].
  cbn [String.append linhas_de]. rewrite IH.
  destruct (Ascii.eqb c (ascii_of_nat 10)); [reflexivity |].
  pose proof (linhas_de_nao_vazia a).
  destruct (linhas_de a); [contradiction | reflexivity].
Qed.

Lemma linhas_de_iniciais (s : string) :
  Forall (fun l => iniciais l <= iniciais s) (linhas_de s).
Proof.
  induction s as [| c r IH]; [repeat constructor |].
  cbn [linhas_de iniciais].
  destruct (Ascii.eqb c (ascii_of_nat 10)).
  - constructor; [cbn; lia |].
    eapply Forall_impl; [| exact IH]. intros l Hl. cbn beta in *.
    destruct (PyStr.continuacao c); lia.
  - pose proof (linhas_de_nao_vazia r) as Hnv.
    destruct (linhas_de r) as [| l ls]; [contradiction |].
    inversion IH as [| ? ? Hl Hls]; subst.
    constructor.
    + cbn [iniciais]. destruct (PyStr.continuacao c); lia.
    + eapply Forall_impl; [| exact Hls]. intros x Hx. cbn beta in *.
      destruct (PyStr.continuacao c); lia.
Qed.

Lemma len_cons_ge (c : ascii) (r : string) : PyStr.len r <= PyStr.len (String c r).
Proof.
  rewrite !len_iniciais. unfold peso_inicial.
  cbn [iniciais PyStr.comeca_continuacao].
  destruct (PyStr.comeca_continuacao r); destruct (PyStr.continuacao c); lia.
Qed.

(** No piece of a text is longer than the text. *)
Lemma linhas_de_len (s : string) :
  Forall (fun l => PyStr.len l <= PyStr.len s) (linhas_de s).
Proof.
  induction s as [| c r IH]; [repeat constructor |].
  pose proof (len_cons_ge c r) as Hge.
  pose proof (linhas_de_iniciais r) as Hi.
  cbn [linhas_de].
  destruct (Ascii.eqb c (ascii_of_nat 10)).
  - constructor; [cbn; lia |].
    eapply Forall_impl; [| exact IH]. intros l Hl. cbn beta in *. lia.
  - pose proof (linhas_de_nao_vazia r) as Hnv.
    destruct (linhas_de r) as [| l ls]; [contradiction |].
    + inversion IH as [| ? ? Hl Hls]; subst.
      inversion Hi as [| ? ? Hil _]; subst.
      constructor.
      * rewrite !len_iniciais. unfold peso_inicial.
        cbn [iniciais PyStr.comeca_continuacao].
        destruct (PyStr.continuacao c); lia.
      * eapply Forall_impl; [| exact Hls]. intros x Hx. cbn beta in *. lia.
Qed.

Lemma linhas_de_join (width : nat) (lines : list string) :
  Forall (fun l => PyStr.len l <= width) lines ->
  Forall (fun l => PyStr.len l <= width) (linhas_de (PyStr.join nl lines)).
Proof.
  induction lines as [| p [| q r] IH]; intros H.
  - repeat constructor. cbn. lia.
  - cbn [PyStr.join]. inversion H as [| ? ? Hp _]; subst.
    eapply Forall_impl; [| apply linhas_de_len]. intros l Hl. cbn beta in *. lia.
  - change (PyStr.join nl (p :: q :: r))
      with (p ++ nl ++ PyStr.join nl (q :: r))%string.
    rewrite linhas_de_app. inversion H as [| ? ? Hp Hqr]; subst.
    apply Forall_app. split; [| now apply IH].
    eapply Forall_impl; [| apply linhas_de_len]. intros l Hl. cbn beta in *. lia.
Qed.

Lemma cabe_em_len (width : nat) (l : string) :
  cabe_em width l -> PyStr.len l <= width.
Proof.
  intros (cps & -> & Hn & Hc). pose proof (len_texto_le cps Hc). lia.
Qed.

End LinhasDoTexto.

(** X10.  Whatever text it is given, [wrap] returns lines of at most 88
    characters (code points): long words are cut, nothing sticks out. *)
Theorem wrap_largura (text : string) :
  Forall (fun l => (PyStr.len l <= 88)%nat) (linhas_de (wrap text)).
Proof.
  unfold wrap, TextWrap.fill.
  apply linhas_de_join.
  eapply Forall_impl; [intros l; apply cabe_em_len |].
  apply wrap_chunks_largura; [| constructor].
  apply concat_de_codepoints. unfold TextWrap.split.
  rewrite split_desde_concat. cbn [app].
  apply munge_um_codepoint, codepoints_um_codepoint.
Qed.

Section SoEspacos.

Local Open Scope list_scope.

Lemma visiveis_bons (cs : list string) : Forall bom cs -> Forall bom (visiveis cs).
Proof.
  intros H. unfold visiveis. apply Forall_forall. intros c Hc.
  apply filter_In in Hc as [Hc _]. rewrite Forall_forall in H. now apply H.
Qed.

Lemma visiveis_bem_cortada (cs : list string) :
  bem_cortada cs -> bem_cortada (visiveis cs).
Proof.
  destruct cs as [| c r]; [easy |]. intros [Hc Hr].
  rewrite visiveis_cons. apply visiveis_bons in Hr.
  destruct (PyStr.isspace c); [now apply bons_bem_cortada | now split].
Qed.

(** Two well-cut lists that spell the same text are the same list. *)
Lemma texto_injetivo (a b : list string) :
  bem_cortada a -> bem_cortada b -> texto a = texto b -> a = b.
Proof.
  intros Ha Hb H.
  rewrite <- (codepoints_texto a Ha), <- (codepoints_texto b Hb). now rewrite H.
Qed.

End SoEspacos.

(** X11.  [wrap] changes white space only: the characters of the wrapped
    text that are not white space ([str.isspace]) are those of the text it
    was given, in the same order, so no visible character is lost, added
    or moved.  In particular the epilogue spells its f-string. *)
Theorem wrap_so_altera_espacos :
  (forall text,
      filter (fun c => negb (PyStr.isspace c)) (PyStr.codepoints (wrap text))
      = filter (fun c => negb (PyStr.isspace c)) (PyStr.codepoints text))
  /\ (forall p,
         filter (fun c => negb (PyStr.isspace c)) (PyStr.codepoints (epilogo p))
         = filter (fun c => negb (PyStr.isspace c))
             (PyStr.codepoints
                ("No fim da aventura, " ++ nome p ++ " registra " ++ PyStr.str (gloria p)
                 ++ " feitos gloriosos e " ++ PyStr.str (cicatrizes p)
                 ++ " cicatrizes memoráveis. " ++ epilogo_destino p
                 ++ " A síntese do seu potencial: " ++ resumo_atributos p ++ "."))).
Proof.
  assert (H : forall text, visiveis (PyStr.codepoints (wrap text))
                           = visiveis (PyStr.codepoints text)).
  { intros text.
    apply texto_injetivo;
      try (apply visiveis_bem_cortada, codepoints_bem_cortada).
    exact (wrap_sem_espacos text). }
  split; [exact H |].
  intros p. exact (H _).
Qed.

(** ** The numbers shown and the numbers entered *)

Section Numeracao.

Lemma enumerate_nth {A} (l : list A) :
  forall (inicio : Z) (k : nat) (x : A),
    nth_error l k = Some x ->
    nth_error (enumerate l inicio) k = Some (inicio + Z.of_nat k, x).
Proof.
  induction l as [| y r IH]; intros inicio k x; destruct k as [| k];
    cbn [nth_error enumerate]; try discriminate.
  - intros [= ->]. do 2 f_equal. lia.
  - intros H. rewrite (IH (inicio + 1) k x H). do 2 f_equal. lia.
Qed.

Lemma enumerate_length {A} (l : list A) :
  forall inicio, List.length (enumerate l inicio) = List.length l.
Proof.
  induction l as [| y r IH]; intros inicio; cbn [enumerate List.length];
    [reflexivity | now rewrite IH].
Qed.

(** What a loop of [print]s writes. *)
Lemma para_cada_print {A} (f : A -> string) (corpo : A -> IO unit) (l : list A) :
  (forall x, corpo x = print (f x)) ->
  forall amb,
    para_cada l corpo amb
    = Retorna tt (mkAmbiente (entrada amb)
                             (saida amb ++ map (fun x => (f x ++ nl)%string) l)%list
                             (acaso amb) (tiragens amb)).
Proof.
  intros Hc. induction l as [| x r IH]; intros amb; cbn [para_cada map].
  - unfold ret. rewrite app_nil_r. now destruct amb.
  - unfold bind. rewrite Hc. unfold print. rewrite IH.
    unfold escrever. cbn [entrada saida acaso tiragens].
    now rewrite <- app_assoc.
Qed.

End Numeracao.

(** X12.  The number [Evento.apresentar] shows beside an option is the
    number that selects it: the option at position [k] of the event is
    listed as [k + 1], with its text and identifier, and when the player
    enters [k + 1] the event is resolved with the effect of that option's
    tag, having read that one line. *)
Theorem evento_numero_mostrado
  (ev : Evento) (k : nat) (identificador texto resultado : string) :
  nth_error (escolhas ev) k = Some (identificador, texto, resultado) ->
  PyStr.contem (Evento_apresentar ev)
               ("  " ++ PyStr.str (Z.of_nat k + 1) ++ ". " ++ texto
                ++ " [" ++ identificador ++ "]") = true
  /\ forall p amb linha resto,
      entrada amb = linha :: resto ->
      py_int linha = Some (Z.of_nat k + 1) ->
      exists d amb',
        resolver_evento p ev amb = Retorna (d, efeito resultado p) amb'
        /\ entrada amb' = resto.
Proof.
  intros Hn. split.
  - unfold Evento_apresentar. cbv zeta.
    apply contem_append_l, contem_join.
    pose proof (enumerate_nth (escolhas ev) 1 k _ Hn) as He.
    apply nth_error_In in He.
    apply (in_map (fun '(indice, (identificador, texto, _resultado)) =>
                     "  " ++ PyStr.str indice ++ ". " ++ texto ++ " [" ++ identificador ++ "]"))
      in He.
    replace (Z.of_nat k + 1) with (1 + Z.of_nat k) by lia. exact He.
  - intros p amb linha resto He Hl.
    assert (Hk : (k < List.length (escolhas ev))%nat).
    { apply nth_error_Some. congruence. }
    assert (Hi : solicitar_indice (Z.of_nat (List.length (escolhas ev))) amb
                 = Retorna (Z.of_nat k + 1 - 1)
                           (com_entrada (escrever pedido_indice amb) resto)).
    { apply solicitar_indice_valida with linha; [exact He | exact Hl | lia]. }
    assert (Hx : nth_error (escolhas ev) (Z.to_nat (Z.of_nat k + 1 - 1))
                 = Some (identificador, texto, resultado)).
    { replace (Z.to_nat (Z.of_nat k + 1 - 1)) with k by lia. exact Hn. }
    destruct (resolver_evento_efeito p ev amb _ _ identificador texto resultado Hi Hx)
      as (d & a2 & E & He2 & _).
    exists d, a2. split; [exact E | exact He2].
Qed.

(** The third option of the festival, listed as 3 and selected by 3. *)
Lemma evento_numero_mostrado_exemplo :
  PyStr.contem (Evento_apresentar festival)
               "  3. Ajudar discretamente nas barracas comunitárias [humildade]" = true
  /\ exists d amb',
      resolver_evento heroi festival (ambiente_exemplo ["3"; "1"])
      = Retorna (d, efeito "cicatriz" heroi) amb'
      /\ entrada amb' = ["1"].
Proof.
  destruct (evento_numero_mostrado
              festival 2 "humildade" "Ajudar discretamente nas barracas comunitárias"
              "cicatriz" eq_refl) as (Hc & Hr).
  split; [exact Hc |].
  apply (Hr heroi (ambiente_exemplo ["3"; "1"]) "3" ["1"]); reflexivity.
Defined.

(** X13.  The menu [apresentar_opcoes] prints is the one it selects from:
    it writes the title line, one line per option numbered from 1 with the
    option's presentation, and the prompt; and when the player enters
    [k + 1] it returns the option printed under that number. *)
Theorem apresentar_opcoes_numero_mostrado
  (titulo : string) (opcoes : list Escolha) (amb : Ambiente)
  (linha : string) (resto : list string) (k : nat) (opcao : Escolha) :
  entrada amb = linha :: resto ->
  py_int linha = Some (Z.of_nat k + 1) ->
  nth_error opcoes k = Some opcao ->
  exists amb',
    apresentar_opcoes titulo opcoes amb = Retorna opcao amb'
    /\ saida amb'
       = (saida amb
          ++ [(nl ++ "--- " ++ titulo ++ " ---" ++ nl)%string]
          ++ map (fun '(indice, o) =>
                    ("  " ++ PyStr.str indice ++ ". " ++ Escolha_apresentar o ++ nl)%string)
                 (enumerate opcoes 1)
          ++ [pedido_indice])%list
    /\ nth_error (enumerate opcoes 1) k = Some (Z.of_nat k + 1, opcao).
Proof.
  intros He Hl Hn.
  assert (Hk : (k < List.length opcoes)%nat).
  { apply nth_error_Some. congruence. }
  unfold apresentar_opcoes, bind at 1, print.
  unfold bind at 1.
  rewrite (para_cada_print
             (fun '(indice, o) => "  " ++ PyStr.str indice ++ ". " ++ Escolha_apresentar o)).
  2:{ intros [i o]. reflexivity. }
  unfold bind at 1.
  match goal with
  | |- context [solicitar_indice _ ?a] =>
      rewrite (solicitar_indice_valida _ (Z.of_nat k + 1) a linha resto)
  end; [| exact He | exact Hl | lia].
  destruct (py_index_ok opcoes (Z.of_nat k + 1 - 1)) as (x & Hx & ->); [lia |].
  replace (Z.to_nat (Z.of_nat k + 1 - 1)) with k in Hx by lia.
  rewrite Hn in Hx. injection Hx as <-.
  eexists. split; [reflexivity |]. split.
  - cbn [saida com_entrada escrever entrada acaso tiragens].
    rewrite <- !app_assoc. f_equal. cbn [app]. f_equal.
    + now rewrite !append_assoc.
    + f_equal. apply map_ext. intros [i o]. now rewrite !append_assoc.
  - rewrite (enumerate_nth opcoes 1 k opcao Hn). do 2 f_equal. lia.
Qed.

(** The second world, printed under 2 and returned for 2. *)
Lemma apresentar_opcoes_numero_mostrado_exemplo :
  exists amb',
    apresentar_opcoes "Escolha seu novo mundo" MUNDOS (ambiente_exemplo ["2"])
    = Retorna (nth 1 MUNDOS aerilon) amb'
    /\ List.length (saida amb') = 5%nat.
Proof.
  destruct (apresentar_opcoes_numero_mostrado
              "Escolha seu novo mundo" MUNDOS (ambiente_exemplo ["2"]) "2" [] 1
              (nth 1 MUNDOS aerilon) eq_refl eq_refl eq_refl)
    as (amb' & E & Hs & _).
  exists amb'. split; [exact E |]. rewrite Hs. reflexivity.
Defined.

(** ** The numbers in the narrative *)

Section Apresentacao.

(** [f"{n:+d}"] is the sign followed by the decimal of the absolute value. *)
Lemma str_sinal_abs (n : Z) :
  PyStr.str_sinal n = (if 0 <=? n then "+" else "-") ++ PyStr.str (Z.abs n).
Proof.
  unfold PyStr.str_sinal, PyStr.str.
  destruct n as [| q | q]; reflexivity.
Qed.

End Apresentacao.

(** X14.  The three narratives with a number in them, for a character
    whose attributes are not negative, as they are all along a run.  The
    bonus written in the glory text lies between [max(sorte, carisma) // 2]
    and two more and is never negative; the penalty written, with its sign,
    in the scar text never exceeds 2 and goes down to
    [- (min(vigor, sorte) // 3)], so it is negative only for a draw below
    that third; and the echo written in the mystic text is at least 1 and
    at most [mana + 6]. *)
Theorem narrativa_limites (p : Personagem) (amb : Ambiente) :
  valores_nao_negativos (atributos p) ->
  let sorte := dict_get_or (atributos p) "sorte" 0 in
  let mana := dict_get_or (atributos p) "mana" 0 in
  let carisma := dict_get_or (atributos p) "carisma" 0 in
  let vigor := dict_get_or (atributos p) "vigor" 0 in
  (exists bonus,
      _narrativa "gloria" p amb
      = Retorna ("O mundo sorri para você. Seus aliados celebram, e o deus Gem"
                 ++ " concede uma bênção adicional de " ++ PyStr.str bonus
                 ++ " pontos de inspiração.", p)
                (tirar amb)
      /\ 0 <= Z.max sorte carisma / 2 <= bonus
      /\ bonus <= Z.max sorte carisma / 2 + 2)
  /\ (exists penalidade,
         _narrativa "cicatriz" p amb
         = Retorna ("O desafio cobra seu preço; uma nova cicatriz surge, mas também"
                    ++ " deixa lições que reforçam sua determinação ("
                    ++ (if 0 <=? penalidade then "+" else "-")
                    ++ PyStr.str (Z.abs penalidade) ++ ").", p)
                   (tirar amb)
         /\ - (Z.min vigor sorte / 3) <= penalidade <= 2
         /\ (penalidade < 0 <-> sorteio 0 2 amb < Z.min vigor sorte / 3))
  /\ (exists eco p',
         _narrativa "mistico" p amb
         = Retorna ("Seu poder místico pulsa intensamente, revelando segredos antigos."
                    ++ " Você acumula " ++ PyStr.str eco
                    ++ " ecos arcanos e aperfeiçoa sua mana.", p')
                   (tirar amb)
         /\ 1 <= mana + 1 <= eco /\ eco <= mana + 6).
Proof.
  intros Hp sorte mana carisma vigor.
  pose proof (dict_get_or_nao_negativo (atributos p) "sorte" Hp) as Hs.
  pose proof (dict_get_or_nao_negativo (atributos p) "mana" Hp) as Hm.
  pose proof (dict_get_or_nao_negativo (atributos p) "carisma" Hp) as Hc.
  pose proof (dict_get_or_nao_negativo (atributos p) "vigor" Hp) as Hv.
  fold sorte in Hs. fold mana in Hm. fold carisma in Hc. fold vigor in Hv.
  pose proof (sorteio_intervalo 0 2 amb ltac:(lia)) as R2.
  pose proof (sorteio_intervalo 1 6 amb ltac:(lia)) as R6.
  assert (Hmax : 0 <= Z.max sorte carisma / 2) by (apply Z.div_pos; lia).
  assert (Hmin : 0 <= Z.min vigor sorte / 3) by (apply Z.div_pos; lia).
  split; [| split].
  - eexists. split; [apply narrativa_gloria |].
    fold sorte carisma. lia.
  - exists (sorteio 0 2 amb - Z.min vigor sorte / 3). split; [| lia].
    rewrite narrativa_cicatriz. unfold texto_cicatriz.
    rewrite str_sinal_abs, !append_assoc. reflexivity.
  - do 2 eexists. split; [apply narrativa_mistico |].
    fold mana. lia.
Qed.

(** [heroi] at the first draw: a bonus of 1, a penalty of 0, 5 echoes. *)
Lemma narrativa_limites_exemplo :
  (exists bonus,
      _narrativa "gloria" heroi (ambiente_exemplo [])
      = Retorna ("O mundo sorri para você. Seus aliados celebram, e o deus Gem"
                 ++ " concede uma bênção adicional de " ++ PyStr.str bonus
                 ++ " pontos de inspiração.", heroi)
                (tirar (ambiente_exemplo []))
      /\ 0 <= 1 <= bonus /\ bonus <= 1 + 2)
  /\ (exists penalidade,
         _narrativa "cicatriz" heroi (ambiente_exemplo [])
         = Retorna ("O desafio cobra seu preço; uma nova cicatriz surge, mas também"
                    ++ " deixa lições que reforçam sua determinação ("
                    ++ (if 0 <=? penalidade then "+" else "-")
                    ++ PyStr.str (Z.abs penalidade) ++ ").", heroi)
                   (tirar (ambiente_exemplo []))
         /\ - 0 <= penalidade <= 2
         /\ (penalidade < 0 <-> 0 < 0))
  /\ (exists eco p',
         _narrativa "mistico" heroi (ambiente_exemplo [])
         = Retorna ("Seu poder místico pulsa intensamente, revelando segredos antigos."
                    ++ " Você acumula " ++ PyStr.str eco
                    ++ " ecos arcanos e aperfeiçoa sua mana.", p')
                   (tirar (ambiente_exemplo []))
         /\ 1 <= 4 + 1 <= eco /\ eco <= 4 + 6).
Proof.
  apply (narrativa_limites heroi (ambiente_exemplo [])).
  intros k v Hin. simpl in Hin.
  repeat (destruct Hin as [[= <- <-] | Hin]; [lia |]). contradiction.
Defined.

(** ** A text that is one plain line *)

Section LinhaSimples.

Import TextWrap.
Local Open Scope list_scope.
Local Open Scope nat_scope.

Lemma expandtabs_sem_tab (cs : list string) :
  Forall (fun c => branco c = true -> c = " "%string) cs ->
  forall col, expandtabs cs col = cs.
Proof.
  induction 1 as [| c r Hc Hr IH]; intros col; cbn [expandtabs]; [reflexivity |].
  destruct (String.eqb c tab) eqn:E.
  - apply String.eqb_eq in E. subst c. specialize (Hc eq_refl). discriminate Hc.
  - destruct (String.eqb c nl || String.eqb c cr); now rewrite IH.
Qed.

Lemma munge_sem_brancos (cs : list string) :
  Forall (fun c => branco c = true -> c = " "%string) cs ->
  munge_whitespace cs = cs.
Proof.
  intros H. unfold munge_whitespace. rewrite (expandtabs_sem_tab cs H 0).
  induction H as [| c r Hc Hr IH]; [reflexivity |].
  cbn [map]. rewrite IH. f_equal.
  destruct (branco c); [symmetry; now apply Hc | reflexivity].
Qed.

(** Chunks that fit all go onto the line. *)
Lemma encher_tudo (chunks : list chunk) (width : nat) :
  forall cur_line cur_len,
    cur_len + List.length (List.concat chunks) <= width ->
    encher chunks cur_line cur_len width
    = (cur_line ++ chunks, cur_len + List.length (List.concat chunks), []).
Proof.
  induction chunks as [| c r IH]; intros cl n H; cbn [encher List.concat].
  - cbn [List.length]. now rewrite app_nil_r, Nat.add_0_r.
  - cbn [List.concat] in H. rewrite length_app in H |- *.
    replace (n + List.length c <=? width) with true
      by (symmetry; apply Nat.leb_le; lia).
    rewrite IH by lia. rewrite <- app_assoc. cbn [app]. f_equal. f_equal. lia.
Qed.

Lemma last_app_cheio {A} (a u : list A) (d : A) :
  u <> [] -> last (a ++ u) d = last u d.
Proof.
  intros Hu. induction a as [| x a IH]; [reflexivity |].
  cbn [app]. destruct (a ++ u) eqn:E.
  - apply app_eq_nil in E. tauto.
  - rewrite <- IH. reflexivity.
Qed.

Lemma vazio_ou_branco_ultimo (u : chunk) :
  u <> [] -> vazio_ou_branco [last u ""%string] = false -> vazio_ou_branco u = false.
Proof.
  unfold vazio_ou_branco.
  induction u as [| x r IH]; [contradiction |].
  intros _ H. cbn [forallb]. destruct r as [| y r'].
  - cbn [last forallb] in H. exact H.
  - rewrite IH; [apply Bool.andb_false_r | discriminate | exact H].
Qed.

(** When the last character of the chunks is not white space, no chunk is
    dropped at the end of the line. *)
Lemma sem_branco_final_fixo (chunks : list chunk) :
  cheios chunks ->
  vazio_ou_branco [last (List.concat chunks) ""%string] = false ->
  sem_branco_final chunks = chunks.
Proof.
  intros Hch Hl. unfold sem_branco_final.
  destruct (rev chunks) as [| u antes] eqn:R; [reflexivity |].
  apply (f_equal (@rev chunk)) in R. rewrite rev_involutive in R. cbn [rev] in R.
  subst chunks. unfold cheios in Hch. rewrite Forall_app in Hch.
  destruct Hch as (_ & Hu). inversion Hu as [| ? ? Hu0 _]; subst.
  rewrite concat_app in Hl. cbn [List.concat] in Hl. rewrite app_nil_r in Hl.
  rewrite (last_app_cheio _ u _ Hu0) in Hl.
  now rewrite (vazio_ou_branco_ultimo u Hu0 Hl).
Qed.

(** Chunks that fit in one line and do not end in white space make that
    one line. *)
Lemma wrap_chunks_uma_linha (width fuel : nat) (chunks : list chunk) :
  chunks <> [] -> cheios chunks ->
  List.length (List.concat chunks) <= width ->
  vazio_ou_branco [last (List.concat chunks) ""%string] = false ->
  wrap_chunks (S fuel) width chunks [] = [texto (List.concat chunks)].
Proof.
  intros Hne Hch Hlen Hl.
  destruct chunks as [| c0 r0]; [contradiction |].
  cbn [wrap_chunks]. unfold rodada.
  cbn [List.length Nat.eqb negb]. rewrite Bool.andb_false_r.
  rewrite (encher_tudo (c0 :: r0) width [] 0) by (cbn [Nat.add]; exact Hlen).
  cbn [app]. rewrite (sem_branco_final_fixo (c0 :: r0) Hch Hl).
  rewrite concat_vazio_texto. cbn [app].
  destruct fuel; reflexivity.
Qed.

End LinhaSimples.

(** X15.  A text that is one plain line already comes back from [wrap] as
    it is: at most 88 characters, none of the white space characters that
    [textwrap] replaces (tab, line feed, vertical tab, form feed, carriage
    return) in it, and a last character that is not white space
    ([str.isspace]); the empty text is such a line. *)
Theorem wrap_linha_simples (t : string) :
  (PyStr.len t <= 88)%nat ->
  (forall c, In c (PyStr.codepoints t) -> TextWrap.branco c = true -> c = " ") ->
  PyStr.isspace (last (PyStr.codepoints t) "") = false ->
  wrap t = t.
Proof.
  intros Hlen Hbr Hlast.
  assert (Hult : TextWrap.vazio_ou_branco [last (PyStr.codepoints t) ""] = false).
  { unfold TextWrap.vazio_ou_branco. cbn [forallb]. now rewrite Hlast. }
  assert (Hplain : Forall (fun c => TextWrap.branco c = true -> c = " ")
                          (PyStr.codepoints t)).
  { apply Forall_forall. exact Hbr. }
  unfold PyStr.len in Hlen.
  unfold wrap, TextWrap.fill. rewrite (munge_sem_brancos _ Hplain).
  pose proof (split_desde_concat (PyStr.codepoints t) [] []) as Hcat.
  cbn [app] in Hcat. fold (TextWrap.split (PyStr.codepoints t)) in Hcat.
  destruct (TextWrap.split (PyStr.codepoints t)) as [| c0 r0] eqn:Es.
  - cbn [List.concat] in Hcat.
    destruct (List.length (PyStr.codepoints t)); cbn [TextWrap.wrap_chunks PyStr.join];
      rewrite <- (texto_codepoints t), <- Hcat; reflexivity.
  - rewrite wrap_chunks_uma_linha.
    + cbn [PyStr.join]. rewrite Hcat. apply texto_codepoints.
    + discriminate.
    + rewrite <- Es. apply split_desde_cheios. now right.
    + rewrite Hcat. exact Hlen.
    + rewrite Hcat. exact Hult.
Qed.

(** The description of the first event, as [Evento.apresentar] shows it. *)
Lemma wrap_linha_simples_exemplo :
  wrap (descricao festival) = descricao festival.
Proof.
  apply wrap_linha_simples.
  - apply Nat.leb_le. vm_compute. reflexivity.
  - intros c Hc Hb.
    assert (H : forallb (fun c => negb (TextWrap.branco c) || String.eqb c " ")
                        (PyStr.codepoints (descricao festival)) = true)
      by (vm_compute; reflexivity).
    rewrite forallb_forall in H. specialize (H c Hc).
    rewrite Hb in H. now apply String.eqb_eq in H.
  - vm_compute. reflexivity.
Defined.

(** ** How an option presents itself *)

(** X16.  [Escolha.apresentar] starts with the name, a dash and the
    description, and shows every delta of the option with its sign written
    out: a plus for zero and above, a minus below, then the absolute
    value. *)
Theorem escolha_apresentar_sinais (e : Escolha) :
  String.prefix (esc_nome e ++ " — " ++ esc_descricao e ++ " (")
                (Escolha_apresentar e) = true
  /\ forall k v,
      In (k, v) (dict_items (esc_atributos e)) ->
      PyStr.contem (Escolha_apresentar e)
                   (k ++ ": " ++ (if 0 <=? v then "+" else "-") ++ PyStr.str (Z.abs v))
      = true.
Proof.
  unfold Escolha_apresentar. cbv zeta. split.
  - rewrite <- !append_assoc.
    apply prefix_append, prefix_append, prefix_refl.
  - intros k v Hin.
    do 4 apply contem_append_l. apply contem_append_r, contem_join.
    apply (in_map (fun '(chave, valor) => chave ++ ": " ++ PyStr.str_sinal valor)) in Hin.
    cbn beta iota in Hin. now rewrite str_sinal_abs in Hin.
Qed.

(** A cursed option, with one delta below zero. *)
Lemma escolha_apresentar_sinais_exemplo :
  PyStr.contem
    (Escolha_apresentar (mkEscolha "Marca Sombria" "Um pacto antigo."
                                   [("mana", 3); ("sorte", -2)]))
    "sorte: -2" = true.
Proof.
  apply (proj2 (escolha_apresentar_sinais
                  (mkEscolha "Marca Sombria" "Um pacto antigo."
                             [("mana", 3); ("sorte", -2)]))
               "sorte" (-2)).
  simpl. tauto.
Defined.

(** ** What a complete run shows last *)

(** X17.  A complete run ends by printing the epilogue of the very
    character it returns, after a blank line, and then the farewell: these
    are the last two things written. *)
Theorem jogar_termina_com_epilogo (amb : Ambiente) (p : Personagem) (amb' : Ambiente) :
  jogar amb = Retorna p amb' ->
  exists antes,
    saida amb'
    = (antes
       ++ [(nl ++ epilogo p ++ nl)%string;
           (nl ++ "Obrigado por compartilhar sua jornada com Gem. Até a próxima reencarnação!"
            ++ nl)%string])%list.
Proof.
  unfold jogar. unfold bind at 1.
  destruct (introducao amb) as [[] a0 | e a0] eqn:Ei; [| discriminate].
  unfold bind at 1.
  destruct (preparar_personagem a0) as [p0 a1 | e a1] eqn:Ep; [| discriminate].
  unfold simular_aventura, bind.
  destruct (print _ a1) as [[] a2 | e a2] eqn:Eg; [| discriminate].
  destruct (percorrer_eventos EVENTOS p0 a2) as [f a3 | e a3] eqn:Ee; [| discriminate].
  unfold print, ret. intros [= <- <-].
  cbn [saida escrever].
  exists (saida a3). rewrite <- !app_assoc. cbn [app].
  reflexivity.
Qed.

(** The last two things Ana reads. *)
Lemma jogar_termina_com_epilogo_exemplo :
  exists p amb' antes,
    jogar (ambiente_exemplo ["Ana"; "1"; "3"; "3"; "2"; "1"; "2"; "3"]) = Retorna p amb'
    /\ saida amb'
       = (antes
          ++ [(nl ++ epilogo p ++ nl)%string;
              (nl ++ "Obrigado por compartilhar sua jornada com Gem. Até a próxima reencarnação!"
               ++ nl)%string])%list.
Proof.
  eassert (E : jogar (ambiente_exemplo ["Ana"; "1"; "3"; "3"; "2"; "1"; "2"; "3"])
               = Retorna _ _).
  { vm_compute. reflexivity. }
  destruct (jogar_termina_com_epilogo _ _ _ E) as (antes & Hs).
  do 3 eexists. split; [exact E | exact Hs].
Defined.
